(** * cpppo-go: the EtherNet/IP session and CIP messaging core, verified

    A shallow embedding of [pkg/cpppo] (the codec helpers, the CIP request
    builders and response parsers, and the encapsulation session client)
    together with the properties of its wire formats and session handle.

    Conventions of the embedding:
    - a Go [byte], [uint16], [uint32], [int16], [int32] is a [Z]; every
      conversion between widths is written out as the wrap-around it is;
    - a [[]byte] is a [list Z]; [make], [copy], [append] and indexed
      stores are the list operations of the same name below;
    - a Go [string] is a [String.string] (a sequence of bytes);
    - [error] is an inductive type, one constructor per way the package
      builds an error value; a function returning [(T, error)] returns a
      [result T];
    - a method on [*Client] is a function from the client to the updated
      client and the result. *)

From Stdlib Require Import ZArith Lia String Ascii Bool.
From Stdlib Require Import Floats.SpecFloat.
From stdpp Require Import base list.

Local Open Scope Z_scope.

(** ** Go's fixed-width integers *)

Module Go.

(** [byte(x)], [uint16(x)], [uint32(x)]: keep the low bits. *)
Definition byte (x : Z) : Z := x mod 2 ^ 8.
Definition uint16 (x : Z) : Z := x mod 2 ^ 16.
Definition uint32 (x : Z) : Z := x mod 2 ^ 32.

(** [int8(x)], [int16(x)], [int32(x)]: keep the low bits and read them
    as two's complement. *)
Definition signed (w : Z) (x : Z) : Z :=
  let u := x mod 2 ^ w in
  if u <? 2 ^ (w - 1) then u else u - 2 ^ w.
Definition int8 : Z -> Z := signed 8.
Definition int16 : Z -> Z := signed 16.
Definition int32 : Z -> Z := signed 32.

Definition is_byte (x : Z) : Prop := 0 <= x < 2 ^ 8.
Definition is_uint16 (x : Z) : Prop := 0 <= x < 2 ^ 16.
Definition is_uint32 (x : Z) : Prop := 0 <= x < 2 ^ 32.
Definition is_int16 (x : Z) : Prop := - 2 ^ 15 <= x < 2 ^ 15.
Definition is_int32 (x : Z) : Prop := - 2 ^ 31 <= x < 2 ^ 31.

(** [make([]byte, n)] *)
Definition make (n : nat) : list Z := replicate n 0.

(** [copy(dst[off:], src)]: copies [min(len(dst)-off, len(src))] bytes. *)
Definition copy (off : nat) (src dst : list Z) : list Z :=
  let n := Nat.min (length dst - off)%nat (length src) in
  take off dst ++ take n src ++ drop (off + n)%nat dst.

(** [[]byte(s)] *)
Definition bytes (s : string) : list Z :=
  map (fun a => Z.of_N (N_of_ascii a)) (list_ascii_of_string s).

(** [len(s)] of a string, as an [int]. *)
Definition len (s : string) : nat := String.length s.

End Go.

(** ** [encoding/binary.LittleEndian] *)

Module LittleEndian.

(** [PutUint16(b[off:off+2], v)]: [b[0] = byte(v); b[1] = byte(v >> 8)]. *)
Definition PutUint16 (off : nat) (v : Z) (b : list Z) : list Z :=
  <[S off := Go.byte (Z.shiftr v 8)]> (<[off := Go.byte v]> b).

(** [PutUint32(b[off:off+4], v)] *)
Definition PutUint32 (off : nat) (v : Z) (b : list Z) : list Z :=
  <[S (S (S off)) := Go.byte (Z.shiftr v 24)]>
    (<[S (S off) := Go.byte (Z.shiftr v 16)]>
       (<[S off := Go.byte (Z.shiftr v 8)]> (<[off := Go.byte v]> b))).

(** [Uint16(b)]: [uint16(b[0]) | uint16(b[1])<<8]. *)
Definition Uint16 (b : list Z) : Z :=
  Z.lor (b !!! 0%nat) (Z.shiftl (b !!! 1%nat) 8).

(** [Uint32(b)] *)
Definition Uint32 (b : list Z) : Z :=
  Z.lor (Z.lor (Z.lor (b !!! 0%nat) (Z.shiftl (b !!! 1%nat) 8))
               (Z.shiftl (b !!! 2%nat) 16))
        (Z.shiftl (b !!! 3%nat) 24).

End LittleEndian.

(** [b[lo:hi]] for [lo <= hi <= len(b)]. *)
Definition slice (lo hi : nat) (b : list Z) : list Z :=
  take (hi - lo) (drop lo b).

(** ** Errors and results *)

(** An [error] value, by the way the package builds it. *)
Inductive error : Type :=
| errors_New (text : string)                     (* errors.New(text) *)
| CIPError (Code : Z) (ExtendedMsg : string)      (* CIPError{Code, ExtendedMsg} *)
| Errorf_w (format : string) (err : error)        (* fmt.Errorf("...: %w", err) *)
| Errorf_d (format : string) (arg : Z)            (* fmt.Errorf("...: %d", n) *)
| Errorf_x2 (format : string) (arg1 arg2 : Z).    (* fmt.Errorf("... %#x ... %#x", a, b) *)

(** The outcome of a call returning [(T, error)]: the value with a nil
    error, a non-nil error, or a run-time panic. *)
Inductive result (T : Type) : Type :=
| Ok (v : T)
| Err (e : error)
| Panic (reason : string).
Arguments Ok {T} v.
Arguments Err {T} e.
Arguments Panic {T} reason.

(** ** IEEE-754 binary32 values ([float32]) *)

Module Float32.

Definition prec : Z := 24.
Definition emax : Z := 128.

(** A [float32] datum: signed zero, signed infinity, a NaN with its sign
    and non-zero 23-bit payload, or the finite number
    [(-1)^s * m * 2^e]. *)
Inductive float32 : Type :=
| Zero (s : bool)
| Inf (s : bool)
| NaN (s : bool) (payload : positive)
| Finite (s : bool) (m : positive) (e : Z).

(** The data that are binary32 values: a NaN payload fits 23 bits, a
    finite number is in canonical form (24-bit significand, or a
    subnormal at the least exponent). *)
Definition valid (f : float32) : bool :=
  match f with
  | NaN _ pl => Z.pos pl <? 2 ^ 23
  | Finite _ m e => bounded prec emax m e
  | _ => true
  end.

Definition sign_bit (s : bool) : Z := if s then 1 else 0.

(** [math.Float32bits]: the IEEE-754 bit pattern (sign, 8-bit biased
    exponent, 23-bit fraction). *)
Definition Float32bits (f : float32) : Z :=
  match f with
  | Zero s => sign_bit s * 2 ^ 31
  | Inf s => sign_bit s * 2 ^ 31 + 255 * 2 ^ 23
  | NaN s pl => sign_bit s * 2 ^ 31 + 255 * 2 ^ 23 + Z.pos pl
  | Finite s m e =>
      if Z.pos m <? 2 ^ 23
      then sign_bit s * 2 ^ 31 + Z.pos m
      else sign_bit s * 2 ^ 31 + (e + 150) * 2 ^ 23 + (Z.pos m - 2 ^ 23)
  end.

(** [math.Float32frombits]: the datum with the given bit pattern. *)
Definition Float32frombits (bits : Z) : float32 :=
  let s := Z.testbit bits 31 in
  let ef := Z.land (Z.shiftr bits 23) 0xFF in
  let frac := Z.land bits 0x7FFFFF in
  if ef =? 0 then
    match frac with Z.pos m => Finite s m (-149) | _ => Zero s end
  else if ef =? 255 then
    match frac with Z.pos pl => NaN s pl | _ => Inf s end
  else
    match frac + 2 ^ 23 with Z.pos m => Finite s m (ef - 150) | _ => Zero s end.

Definition of_spec (x : spec_float) : float32 :=
  match x with
  | S754_zero s => Zero s
  | S754_infinity s => Inf s
  | S754_nan => NaN false (2 ^ 22)%positive
  | S754_finite s m e => Finite s m e
  end.

(** The conversion [float32(n)] of an unsigned integer: the binary32
    number nearest to [n], ties to even. *)
Definition of_uint32 (n : Z) : float32 :=
  of_spec (binary_normalize prec emax n 0 false).

End Float32.
Export Float32(float32).

(** ** Codec helpers (utils.go) *)

Definition EncodeBool (value : bool) : list Z :=
  if value then [1] else [0].

Definition EncodeInt16 (value : Z) : list Z :=
  let data := Go.make 2 in
  LittleEndian.PutUint16 0 (Go.uint16 value) data.

Definition EncodeInt32 (value : Z) : list Z :=
  let data := Go.make 4 in
  LittleEndian.PutUint32 0 (Go.uint32 value) data.

Definition EncodeFloat32 (value : float32) : list Z :=
  let data := Go.make 4 in
  LittleEndian.PutUint32 0 (Float32.Float32bits value) data.

Definition DecodeBool (data : list Z) : result bool :=
  if (length data <? 1)%nat then
    Err (errors_New "not enough data to decode bool")
  else Ok (negb (data !!! 0%nat =? 0)).

Definition DecodeInt16 (data : list Z) : result Z :=
  if (length data <? 2)%nat then
    Err (errors_New "not enough data to decode int16")
  else Ok (Go.int16 (LittleEndian.Uint16 data)).

Definition DecodeInt32 (data : list Z) : result Z :=
  if (length data <? 4)%nat then
    Err (errors_New "not enough data to decode int32")
  else Ok (Go.int32 (LittleEndian.Uint32 data)).

Definition DecodeFloat32 (data : list Z) : result float32 :=
  if (length data <? 4)%nat then
    Err (errors_New "not enough data to decode float32")
  else
    let bits := LittleEndian.Uint32 data in
    Ok (Float32.Float32frombits bits).

(** ** CIP messaging (cip.go) *)

Definition CIPServiceReadTag : Z := 0x4C.
Definition CIPServiceWriteTag : Z := 0x4D.

Definition CIPPathTypeSymbolic : Z := 0x91.

Definition CIPDataTypeBOOL : Z := 0xC1.
Definition CIPDataTypeSINT : Z := 0xC2.
Definition CIPDataTypeINT : Z := 0xC3.
Definition CIPDataTypeDINT : Z := 0xC4.
Definition CIPDataTypeREAL : Z := 0xCA.
Definition CIPDataTypeDWORD : Z := 0xD3.
Definition CIPDataTypeSTRING : Z := 0xD0.

(** The description the [switch] of [CIPStatusToError] selects. *)
Definition status_msg (status : Z) : string :=
  match status with
  | 0x01 => "Connection failure"
  | 0x02 => "Resource unavailable"
  | 0x03 => "Invalid parameter value"
  | 0x04 => "Path segment error"
  | 0x05 => "Path destination unknown"
  | 0x06 => "Partial transfer"
  | 0x07 => "Connection lost"
  | 0x08 => "Service not supported"
  | 0x09 => "Invalid attribute value"
  | 0x0A => "Attribute list error"
  | 0x0B => "Already in requested mode/state"
  | 0x0C => "Object state conflict"
  | 0x0D => "Object already exists"
  | 0x0E => "Attribute not settable"
  | 0x0F => "Privilege violation"
  | 0x10 => "Device state conflict"
  | 0x11 => "Reply data too large"
  | 0x12 => "Fragmentation of a primitive value"
  | 0x13 => "Not enough data"
  | 0x14 => "Attribute not supported"
  | 0x15 => "Too much data"
  | 0x16 => "Object does not exist"
  | 0x17 => "Service fragmentation sequence not in progress"
  | 0x18 => "No stored attribute data"
  | 0x19 => "Store operation failure"
  | 0x1A => "Routing failure, request packet too large"
  | 0x1B => "Routing failure, response packet too large"
  | 0x1C => "Missing attribute list entry data"
  | 0x1D => "Invalid attribute value list"
  | 0x1E => "Embedded service error"
  | 0x1F => "Vendor specific error"
  | 0x20 => "Invalid parameter"
  | 0x21 => "Write-once value or medium already written"
  | 0x22 => "Invalid reply received"
  | 0x25 => "Key failure in path"
  | 0x26 => "Path size invalid"
  | 0x27 => "Unexpected attribute in list"
  | 0x28 => "Invalid member ID"
  | 0x29 => "Member not settable"
  | 0xFF => "General Error"
  | _ => "Unknown error"
  end.

(** The statuses the [switch] of [CIPStatusToError] lists. *)
Definition status_listed (status : Z) : bool :=
  ((0x01 <=? status) && (status <=? 0x22))
  || ((0x25 <=? status) && (status <=? 0x29))
  || (status =? 0xFF).

(** [CIPStatusToError]: [None] is the nil error. *)
Definition CIPStatusToError (status : Z) : option error :=
  if status =? 0 then None
  else
    let msg := status_msg status in
    Some (CIPError status msg).

Definition BuildCIPPath (tagName : string) : list Z :=
  if String.eqb tagName EmptyString then []
  else
    let length := Go.len tagName in
    let padded := negb (length mod 2 =? 0)%nat in
    let path := Go.make (2 + length) in
    let path := <[0%nat := CIPPathTypeSymbolic]> path in
    let path := <[1%nat := Go.byte (Z.of_nat length)]> path in
    let path := Go.copy 2 (Go.bytes tagName) path in
    if padded then path ++ [0] else path.

(** The pad [BuildCIPPath] appends to a name of [n] bytes. *)
Definition pad_of (n : nat) : list Z :=
  if negb (n mod 2 =? 0)%nat then [0] else [].

(** A tag name of [n] bytes. *)
Definition name_of_length (n : nat) : string :=
  string_of_list_ascii (repeat "A"%char n).

Definition BuildCIPReadRequest (tagName : string) (elements : Z) : list Z :=
  let path := BuildCIPPath tagName in
  let request := Go.make (4 + length path) in
  let request := <[0%nat := CIPServiceReadTag]> request in
  let request := <[1%nat := Go.byte ((Z.of_nat (length path) + 1) / 2)]> request in
  let request := Go.copy 2 path request in
  LittleEndian.PutUint16 (length request - 2) elements request.

Definition BuildCIPWriteRequest (tagName : string) (dataType : Z) (data : list Z)
  : list Z :=
  let path := BuildCIPPath tagName in
  let request := Go.make (4 + length path + length data) in
  let request := <[0%nat := CIPServiceWriteTag]> request in
  let request := <[1%nat := Go.byte ((Z.of_nat (length path) + 1) / 2)]> request in
  let request := Go.copy 2 path request in
  let request := <[(2 + length path)%nat := dataType]> request in
  let request := <[(3 + length path)%nat := 1]> request in
  Go.copy (4 + length path) data request.

Definition ParseCIPResponse (response : list Z) : result (list Z) :=
  if (length response <? 2)%nat then Err (errors_New "response too short")
  else if Z.land (response !!! 0%nat) 0x80 =? 0 then
    Err (errors_New "not a response")
  else
    let status := response !!! 1%nat in
    match CIPStatusToError status with
    | Some err => Err err
    | None =>
        if (length response <=? 2)%nat then Ok []
        else Ok (drop 2 response)
    end.

(** The dynamically typed value ([interface{}]) a typed read returns. *)
Inductive Value : Type :=
| VBool (b : bool)
| VInt8 (n : Z)
| VInt16 (n : Z)
| VInt32 (n : Z)
| VFloat32 (f : float32)
| VUint32 (n : Z)
| VString (s : list Z)
| VBytes (b : list Z).

(** [float32FromUint32Go] and its wrapper: the Go conversion
    [float32(bits)]. *)
Definition float32FromUint32Go (bits : Z) : float32 := Float32.of_uint32 bits.
Definition float32FromUint32 (bits : Z) : float32 := float32FromUint32Go bits.

Definition ParseCIPReadResponse (response : list Z) (dataType : Z) : result Value :=
  match ParseCIPResponse response with
  | Err err => Err err
  | Panic r => Panic r
  | Ok data =>
      if (length data <? 2)%nat then Err (errors_New "response data too short")
      else
        let respDataType := data !!! 0%nat in
        if negb (respDataType =? dataType) then
          Err (Errorf_x2 "data type mismatch: expected %#x, got %#x"
                         dataType respDataType)
        else if dataType =? CIPDataTypeBOOL then
          if (length data <? 3)%nat then Err (errors_New "not enough data for BOOL")
          else Ok (VBool (negb (data !!! 2%nat =? 0)))
        else if dataType =? CIPDataTypeSINT then
          if (length data <? 3)%nat then Err (errors_New "not enough data for SINT")
          else Ok (VInt8 (Go.int8 (data !!! 2%nat)))
        else if dataType =? CIPDataTypeINT then
          if (length data <? 4)%nat then Err (errors_New "not enough data for INT")
          else Ok (VInt16 (Go.int16 (LittleEndian.Uint16 (slice 2 4 data))))
        else if dataType =? CIPDataTypeDINT then
          if (length data <? 6)%nat then Err (errors_New "not enough data for DINT")
          else Ok (VInt32 (Go.int32 (LittleEndian.Uint32 (slice 2 6 data))))
        else if dataType =? CIPDataTypeREAL then
          if (length data <? 6)%nat then Err (errors_New "not enough data for REAL")
          else
            let bits := LittleEndian.Uint32 (slice 2 6 data) in
            Ok (VFloat32 (float32FromUint32 bits))
        else if dataType =? CIPDataTypeDWORD then
          if (length data <? 6)%nat then Err (errors_New "not enough data for DWORD")
          else Ok (VUint32 (LittleEndian.Uint32 (slice 2 6 data)))
        else if dataType =? CIPDataTypeSTRING then
          if (length data <? 4)%nat then
            Err (errors_New "not enough data for STRING header")
          else
            let length_ := LittleEndian.Uint16 (slice 2 4 data) in
            (* [4+length] is computed in uint16 and wraps *)
            let hi := Go.uint16 (4 + length_) in
            if Z.of_nat (length data) <? hi then
              Err (errors_New "string data truncated")
            else if hi <? 4 then Panic "slice bounds out of range"
            else Ok (VString (slice 4 (Z.to_nat hi) data))
        else Ok (VBytes (drop 2 data))
  end.

(** ** The EtherNet/IP session (client.go) *)

Definition EIPCommandRegisterSession : Z := 0x0065.
Definition EIPCommandUnregister : Z := 0x0066.
Definition EIPCommandSendRRData : Z := 0x006F.
Definition EIPCommandSendUnitData : Z := 0x0070.

Record EIPHeader : Type := {
  Command : Z;
  Length : Z;
  SessionHandle : Z;
  Status : Z;
  SenderContext : list Z;
  Options : Z
}.

(** The six statements every method uses to lay the header out in the
    first 24 bytes of its buffer. *)
Definition put_header (header : EIPHeader) (data : list Z) : list Z :=
  let data := LittleEndian.PutUint16 0 (Command header) data in
  let data := LittleEndian.PutUint16 2 (Length header) data in
  let data := LittleEndian.PutUint32 4 (SessionHandle header) data in
  let data := LittleEndian.PutUint32 8 (Status header) data in
  let data := take 12 data ++ take 8 (SenderContext header) ++ drop 20 data in
  LittleEndian.PutUint32 20 (Options header) data.

(** What the client uses of [net.Conn]. [io_ReadFull n] is
    [io.ReadFull] on a buffer of [n] bytes: the [n] bytes read, or the
    error that stopped it. Deadlines take the client's timeout. *)
Class NetConn (C : Type) : Type := {
  conn_Write : list Z -> C -> C * option error;
  conn_Close : C -> C * option error;
  conn_SetReadDeadline : Z -> C -> C * option error;
  conn_SetWriteDeadline : Z -> C -> C * option error;
  io_ReadFull : nat -> C -> C * result (list Z)
}.

(** The contract of [io.ReadFull]: with a nil error the whole buffer has
    been filled. *)
Class NetConnLaws (C : Type) `{NetConn C} : Prop := {
  io_ReadFull_length : forall n c c' b,
    io_ReadFull n c = (c', Ok b) -> length b = n
}.

Section Session.

Context {C : Type} `{NetConn C}.

(** The [mu] mutex of the Go struct serialises the methods; a method is
    modelled as run alone, so the lock has no field here. *)
Record Client : Type := {
  conn : C;
  sessionHandle : Z;
  timeout : Z
}.

(** A method on [*Client]: the client after the call and the outcome. *)
Definition M (T : Type) : Type := Client -> Client * result T.

Definition ret {T} (v : T) : M T := fun c => (c, Ok v).
Definition fail {T} (e : error) : M T := fun c => (c, Err e).
Definition bind {T U} (m : M T) (k : T -> M U) : M U :=
  fun c =>
    match m c with
    | (c', Ok v) => k v c'
    | (c', Err e) => (c', Err e)
    | (c', Panic r) => (c', Panic r)
    end.

Notation "'let*' x ':=' m 'in' k" := (bind m (fun x => k))
  (at level 10, x name, m at level 100, k at level 200).
Notation "m ';;' k" := (bind m (fun _ => k))
  (at level 100, k at level 200, right associativity).

Definition get_sessionHandle : M Z := fun c => (c, Ok (sessionHandle c)).
Definition get_timeout : M Z := fun c => (c, Ok (timeout c)).
Definition set_sessionHandle (h : Z) : M unit :=
  fun c => ({| conn := conn c; sessionHandle := h; timeout := timeout c |}, Ok tt).

(** A call on [c.conn] returning an [error]; [wrap] is what the caller
    does with a non-nil error before returning it. *)
Definition on_conn (op : C -> C * option error) (wrap : error -> error) : M unit :=
  fun c =>
    let '(k, r) := op (conn c) in
    ({| conn := k; sessionHandle := sessionHandle c; timeout := timeout c |},
     match r with None => Ok tt | Some e => Err (wrap e) end).

Definition ReadFull (n : nat) (wrap : error -> error) : M (list Z) :=
  fun c =>
    let '(k, r) := io_ReadFull n (conn c) in
    ({| conn := k; sessionHandle := sessionHandle c; timeout := timeout c |},
     match r with
     | Ok b => Ok b
     | Err e => Err (wrap e)
     | Panic p => Panic p
     end).

Definition SetWriteDeadline : M unit :=
  let* t := get_timeout in
  on_conn (conn_SetWriteDeadline t) (Errorf_w "failed to set write deadline: %w").

Definition SetReadDeadline : M unit :=
  let* t := get_timeout in
  on_conn (conn_SetReadDeadline t) (Errorf_w "failed to set read deadline: %w").

Definition RegisterSession : M unit :=
  let* h := get_sessionHandle in
  if negb (h =? 0) then ret tt
  else
    let header := {| Command := EIPCommandRegisterSession; Length := 4;
                     SessionHandle := 0; Status := 0;
                     SenderContext := replicate 8 0; Options := 0 |} in
    let data := Go.make (24 + 4) in
    let data := put_header header data in
    let data := LittleEndian.PutUint16 24 1 data in
    let data := LittleEndian.PutUint16 26 0 data in
    SetWriteDeadline ;;
    on_conn (conn_Write data)
            (Errorf_w "failed to send register session request: %w") ;;
    SetReadDeadline ;;
    let* respHeader := ReadFull 28 (Errorf_w "failed to read response: %w") in
    let respCmd := LittleEndian.Uint16 (slice 0 2 respHeader) in
    let respLen := LittleEndian.Uint16 (slice 2 4 respHeader) in
    let respSessionHandle := LittleEndian.Uint32 (slice 4 8 respHeader) in
    let respStatus := LittleEndian.Uint32 (slice 8 12 respHeader) in
    if negb (respCmd =? EIPCommandRegisterSession) then
      fail (Errorf_d "unexpected response command: %d" respCmd)
    else if negb (respStatus =? 0) then
      fail (Errorf_d "registration failed with status: %d" respStatus)
    else if negb (respLen =? 4) then
      fail (Errorf_d "unexpected response length: %d" respLen)
    else
      set_sessionHandle respSessionHandle ;;
      ret tt.

Definition unregisterSession : M unit :=
  let* h := get_sessionHandle in
  if h =? 0 then ret tt
  else
    let header := {| Command := EIPCommandUnregister; Length := 0;
                     SessionHandle := h; Status := 0;
                     SenderContext := replicate 8 0; Options := 0 |} in
    let data := Go.make 24 in
    let data := put_header header data in
    SetWriteDeadline ;;
    on_conn (conn_Write data)
            (Errorf_w "failed to send unregister session request: %w") ;;
    set_sessionHandle 0 ;;
    ret tt.

Definition Close : M unit :=
  let* h := get_sessionHandle in
  (if negb (h =? 0) then unregisterSession else ret tt) ;;
  on_conn conn_Close (fun e => e).

(** The request buffer of [SendRRData] and [SendUnitData]. *)
Definition send_buffer (command h interfaceHandle timeout_ : Z) (data : list Z)
  : list Z :=
  let dataLen := length data in
  let totalLen := (6 + dataLen)%nat in
  let header := {| Command := command; Length := Go.uint16 (Z.of_nat totalLen);
                   SessionHandle := h; Status := 0;
                   SenderContext := replicate 8 0; Options := 0 |} in
  let buffer := Go.make (24 + totalLen) in
  let buffer := put_header header buffer in
  let buffer := LittleEndian.PutUint32 24 interfaceHandle buffer in
  let buffer := LittleEndian.PutUint16 28 timeout_ buffer in
  Go.copy 30 data buffer.

Definition SendRRData (interfaceHandle timeout_ : Z) (data : list Z) : M (list Z) :=
  let* h := get_sessionHandle in
  if h =? 0 then fail (errors_New "session not registered")
  else
    let buffer := send_buffer EIPCommandSendRRData h interfaceHandle timeout_ data in
    SetWriteDeadline ;;
    on_conn (conn_Write buffer) (Errorf_w "failed to send request: %w") ;;
    SetReadDeadline ;;
    let* respHeader :=
      ReadFull 24 (Errorf_w "failed to read response header: %w") in
    let respCmd := LittleEndian.Uint16 (slice 0 2 respHeader) in
    let respLen := LittleEndian.Uint16 (slice 2 4 respHeader) in
    let respStatus := LittleEndian.Uint32 (slice 8 12 respHeader) in
    if negb (respCmd =? EIPCommandSendRRData) then
      fail (Errorf_d "unexpected response command: %d" respCmd)
    else if negb (respStatus =? 0) then
      fail (Errorf_d "request failed with status: %d" respStatus)
    else
      let* respData :=
        ReadFull 6 (Errorf_w "failed to read interface handle and timeout: %w") in
      let respDataLen := respLen - 6 in
      if respDataLen <=? 0 then ret []
      else
        let* respPayload :=
          ReadFull (Z.to_nat respDataLen)
                   (Errorf_w "failed to read response data: %w") in
        ret respPayload.

Definition SendUnitData (interfaceHandle timeout_ : Z) (data : list Z) : M unit :=
  let* h := get_sessionHandle in
  if h =? 0 then fail (errors_New "session not registered")
  else
    let buffer := send_buffer EIPCommandSendUnitData h interfaceHandle timeout_ data in
    SetWriteDeadline ;;
    on_conn (conn_Write buffer) (Errorf_w "failed to send request: %w") ;;
    ret tt.


Definition EIPCommandListIdentity : Z := 0x0063.

Definition ListIdentity : M (list Z) :=
  let header := {| Command := EIPCommandListIdentity; Length := 0;
                   SessionHandle := 0; Status := 0;
                   SenderContext := replicate 8 0; Options := 0 |} in
  let data := Go.make 24 in
  let data := put_header header data in
  SetWriteDeadline ;;
  on_conn (conn_Write data) (Errorf_w "failed to send list identity request: %w") ;;
  SetReadDeadline ;;
  let* respHeader :=
    ReadFull 24 (Errorf_w "failed to read response header: %w") in
  let respCmd := LittleEndian.Uint16 (slice 0 2 respHeader) in
  let respLen := LittleEndian.Uint16 (slice 2 4 respHeader) in
  let respStatus := LittleEndian.Uint32 (slice 8 12 respHeader) in
  if negb (respCmd =? EIPCommandListIdentity) then
    fail (Errorf_d "unexpected response command: %d" respCmd)
  else if negb (respStatus =? 0) then
    fail (Errorf_d "list identity failed with status: %d" respStatus)
  else
    let* respData :=
      ReadFull (Z.to_nat respLen) (Errorf_w "failed to read response data: %w") in
    ret respData.

(** ** The typed tag client (plc.go)

    [PLCClient] only wraps a [*Client]; its methods are given on the
    client. *)

(** A call of a function that returns [(T, error)] without touching the
    client. *)
Definition lift {T} (r : result T) : M T := fun c => (c, r).

Definition PLCClient_Close : M unit := Close.

Definition PLCClient_ReadTag (tagName : string) (dataType : Z) : M Value :=
  let request := BuildCIPReadRequest tagName 1 in
  let* response := SendRRData 0 10 request in
  lift (ParseCIPReadResponse response dataType).

(** The [switch] of [WriteTag]: the bytes of [value] for the declared
    type, or the error it returns before any request is built. *)
Definition WriteTag_data (dataType : Z) (value : Value) : result (list Z) :=
  if dataType =? CIPDataTypeBOOL then
    match value with
    | VBool boolValue => Ok (if boolValue then [1] else [0])
    | _ => Err (errors_New "value is not a bool")
    end
  else if dataType =? CIPDataTypeSINT then
    match value with
    | VInt8 intValue => Ok [Go.byte intValue]
    | _ => Err (errors_New "value is not an int8")
    end
  else if dataType =? CIPDataTypeINT then
    match value with
    | VInt16 intValue =>
        Ok (LittleEndian.PutUint16 0 (Go.uint16 intValue) (Go.make 2))
    | _ => Err (errors_New "value is not an int16")
    end
  else if dataType =? CIPDataTypeDINT then
    match value with
    | VInt32 intValue =>
        Ok (LittleEndian.PutUint32 0 (Go.uint32 intValue) (Go.make 4))
    | _ => Err (errors_New "value is not an int32")
    end
  else if dataType =? CIPDataTypeREAL then
    match value with
    | VFloat32 floatValue =>
        Ok (LittleEndian.PutUint32 0 (Float32.Float32bits floatValue) (Go.make 4))
    | _ => Err (errors_New "value is not a float32")
    end
  else Err (Errorf_d "unsupported data type: %#x" dataType).

Definition PLCClient_WriteTag (tagName : string) (dataType : Z) (value : Value)
  : M unit :=
  let* data := lift (WriteTag_data dataType value) in
  let request := BuildCIPWriteRequest tagName dataType data in
  let* response := SendRRData 0 10 request in
  let* _ := lift (ParseCIPResponse response) in
  ret tt.

(** [NewClient]: [dial] is the outcome of [net.DialTimeout] (the address,
    with the default port added when it has none, only selects the peer).
    A zero timeout stands for 10 seconds, in nanoseconds. *)
Definition NewClient (dial : result C) (timeout_ : Z) : result Client :=
  let timeout_ := if timeout_ =? 0 then 10 * 1000000000 else timeout_ in
  match dial with
  | Ok conn_ => Ok {| conn := conn_; sessionHandle := 0; timeout := timeout_ |}
  | Err err => Err (Errorf_w "failed to connect: %w" err)
  | Panic reason => Panic reason
  end.

(** [NewPLCClient]: next to the result, the connection as the call
    leaves it ([None] when none was made). *)
Definition NewPLCClient (dial : result C) (timeout_ : Z)
  : option C * result Client :=
  match NewClient dial timeout_ with
  | Err err => (None, Err err)
  | Panic reason => (None, Panic reason)
  | Ok client =>
      match RegisterSession client with
      | (client, Ok _) => (Some (conn client), Ok client)
      | (client, Err err) =>
          let '(client, _) := Close client in
          (Some (conn client), Err err)
      | (client, Panic reason) => (Some (conn client), Panic reason)
      end
  end.


End Session.

Arguments Client C : clear implicits.

(** ** Connections used to run the session *)

(** The [mockConn] of the package's tests: reads come from [readData],
    writes are recorded in [writeData], and no call fails except a read
    past the end of [readData]. *)
Record mockConn : Type := {
  readData : list Z;
  writeData : list Z;
  closed : bool;
  readIndex : nat
}.

Definition mockConn_Write (b : list Z) (m : mockConn) : mockConn * option error :=
  ({| readData := readData m; writeData := writeData m ++ b;
      closed := closed m; readIndex := readIndex m |}, None).

Definition mockConn_Close (m : mockConn) : mockConn * option error :=
  ({| readData := readData m; writeData := writeData m;
      closed := true; readIndex := readIndex m |}, None).

(** [io.ReadFull] over [mockConn.Read]: one [Read] hands over what is left
    (at most [n] bytes); when that is short, the next [Read] fails with
    "no data to read" and [ReadFull] returns that error. *)
Definition mockConn_ReadFull (n : nat) (m : mockConn)
  : mockConn * result (list Z) :=
  let avail := (length (readData m) - readIndex m)%nat in
  if (n =? 0)%nat then (m, Ok [])
  else if (n <=? avail)%nat then
    ({| readData := readData m; writeData := writeData m;
        closed := closed m; readIndex := (readIndex m + n)%nat |},
     Ok (take n (drop (readIndex m) (readData m))))
  else
    ({| readData := readData m; writeData := writeData m;
        closed := closed m; readIndex := (readIndex m + avail)%nat |},
     Err (errors_New "no data to read")).

#[export] Instance mockConn_NetConn : NetConn mockConn := {|
  conn_Write := mockConn_Write;
  conn_Close := mockConn_Close;
  conn_SetReadDeadline := fun _ m => (m, None);
  conn_SetWriteDeadline := fun _ m => (m, None);
  io_ReadFull := mockConn_ReadFull
|}.

(** A connection the peer has reset: every write and read fails, closing
    it works. *)
Record resetConn : Type := { reset_closed : bool }.

Definition resetConn_ReadFull (n : nat) (k : resetConn)
  : resetConn * result (list Z) :=
  (k, Err (errors_New "read: connection reset by peer")).

#[export] Instance resetConn_NetConn : NetConn resetConn := {|
  conn_Write := fun _ k => (k, Some (errors_New "write: broken pipe"));
  conn_Close := fun _ => ({| reset_closed := true |}, None);
  conn_SetReadDeadline := fun _ k => (k, None);
  conn_SetWriteDeadline := fun _ k => (k, None);
  io_ReadFull := resetConn_ReadFull
|}.
(** The request [RegisterSession] writes: the header with command 0x65
    and length 4, then protocol version 1 and options 0. *)
Definition register_request : list Z :=
  [0x65; 0; 4; 0; 0; 0; 0; 0; 0; 0; 0; 0; 0; 0; 0; 0; 0; 0; 0; 0; 0; 0; 0; 0;
   1; 0; 0; 0].

(** The reply of the mock server of the package's tests to a Register
    Session request (scenario S7): command 0x65, length 4, session handle
    [handle], status 0, then protocol version 1 and options 0. *)
Definition register_response (handle : Z) : list Z :=
  [0x65; 0; 4; 0] ++ LittleEndian.PutUint32 0 handle (Go.make 4)
    ++ replicate 16 0 ++ [1; 0; 0; 0].

(** A client on a fresh [mockConn] that will deliver [input]. *)
Definition mock_client (input : list Z) (handle : Z) : Client mockConn :=
  {| conn := {| readData := input; writeData := []; closed := false;
                readIndex := 0 |};
     sessionHandle := handle;
     timeout := 1 |}.

(** A registered client whose peer has reset the connection. *)
Definition reset_client : Client resetConn :=
  {| conn := {| reset_closed := false |}; sessionHandle := 1; timeout := 10 |}.

(** The values a Go variable of the dynamic type of [v] can hold. *)
Definition value_in_range (v : Value) : Prop :=
  match v with
  | VInt8 n => - 2 ^ 7 <= n < 2 ^ 7
  | VInt16 n => Go.is_int16 n
  | VInt32 n => Go.is_int32 n
  | VUint32 n => Go.is_uint32 n
  | _ => True
  end.

(** The type codes [ParseCIPReadResponse] has a case for. *)
Definition known_data_type (dataType : Z) : bool :=
  (dataType =? CIPDataTypeBOOL) || (dataType =? CIPDataTypeSINT)
  || (dataType =? CIPDataTypeINT) || (dataType =? CIPDataTypeDINT)
  || (dataType =? CIPDataTypeREAL) || (dataType =? CIPDataTypeDWORD)
  || (dataType =? CIPDataTypeSTRING).

(** ** Wire images used to state the framing properties *)

(** A 16-bit and a 32-bit word as little-endian bytes. *)
Definition le16 (v : Z) : list Z := [Go.byte v; Go.byte (Z.shiftr v 8)].
Definition le32 (v : Z) : list Z :=
  [Go.byte v; Go.byte (Z.shiftr v 8); Go.byte (Z.shiftr v 16);
   Go.byte (Z.shiftr v 24)].

(** An encapsulated frame as a peer sends it: the 24-byte header
    (command, length, session handle, status, zero sender context and
    options) followed by [body]. *)
Definition eip_header (command len_ handle status : Z) : list Z :=
  le16 command ++ le16 len_ ++ le32 handle ++ le32 status ++ replicate 12 0.
Definition eip_frame (command len_ handle status : Z) (body : list Z) : list Z :=
  eip_header command len_ handle status ++ body.

(** A [mockConn] after [n] more bytes were read and [w] was written. *)
Definition mockConn_after (n : nat) (w : list Z) (m : mockConn) : mockConn :=
  {| readData := readData m; writeData := writeData m ++ w;
     closed := closed m; readIndex := (readIndex m + n)%nat |}.

Definition with_conn {C : Type} (k : C) (c : Client C) : Client C :=
  {| conn := k; sessionHandle := sessionHandle c; timeout := timeout c |}.

(** The client after its [mockConn] delivered [n] bytes and took [w]. *)
Definition mock_state (n : nat) (w : list Z) (c : Client mockConn) : Client mockConn :=
  with_conn (mockConn_after n w (conn c)) c.

(** A method that leaves the session handle and the timeout of the client
    as they were, whatever it returns. *)
Definition keeps_session {C : Type} {T : Type} (m : @M C T) : Prop :=
  forall c, sessionHandle (fst (m c)) = sessionHandle c
            /\ timeout (fst (m c)) = timeout c.

(** A method that changes the session handle only when it returns
    success. *)
Definition keeps_session_on_error {C : Type} {T : Type} (m : @M C T) : Prop :=
  forall c, (exists v, snd (m c) = Ok v)
            \/ (sessionHandle (fst (m c)) = sessionHandle c
                /\ timeout (fst (m c)) = timeout c).

(** ** The retry helper (utils.go) *)

(** What [ExponentialBackoff] returns: nil, the error of the operation as
    it is, or [fmt.Errorf("operation failed after %d retries: %w",
    maxRetries, err)] with the last error ([None] when the operation never
    ran). *)
Inductive backoff_result : Type :=
| BackoffNil
| BackoffErr (err : error)
| BackoffExhausted (maxRetries : Z) (err : option error).

Section Backoff.

(** The world the operation acts on. [retryable err] is the test
    [err.(net.Error)] succeeded and the error is a timeout or
    [isConnectionError]. *)
Context {W : Type}.
Variable operation : W -> W * option error.
Variable retryable : error -> bool.

(** [delay *= 2; if delay > maxDelay { delay = maxDelay }] on an int64
    [time.Duration]. *)
Definition next_delay (delay maxDelay : Z) : Z :=
  let delay := Go.signed 64 (delay * 2) in
  if delay >? maxDelay then maxDelay else delay.

(** The loop with [n] iterations left; the delays passed to [time.Sleep]
    are collected in order. *)
Fixpoint backoff_loop (n : nat) (delay maxDelay maxRetries : Z)
    (err : option error) (w : W) : W * list Z * backoff_result :=
  match n with
  | O => (w, [], BackoffExhausted maxRetries err)
  | S n' =>
      match operation w with
      | (w', None) => (w', [], BackoffNil)
      | (w', Some e) =>
          if retryable e then
            let '(w'', sleeps, r) :=
              backoff_loop n' (next_delay delay maxDelay) maxDelay maxRetries
                           (Some e) w' in
            (w'', delay :: sleeps, r)
          else (w', [], BackoffErr e)
      end
  end.

Definition ExponentialBackoff (initialDelay maxDelay maxRetries : Z) (w : W)
  : W * list Z * backoff_result :=
  backoff_loop (Z.to_nat maxRetries) initialDelay maxDelay maxRetries None w.

End Backoff.

(** An operation that fails with a timeout on its first [failures] calls;
    the world counts the calls. *)
Definition flaky_operation (failures : nat) (calls : nat) : nat * option error :=
  (S calls,
   if (calls <? failures)%nat then Some (errors_New "i/o timeout") else None).

(** * Properties *)

(** ** The scenarios of the package's tests, run on the model *)

Example copy_into_zeros : Go.copy 2 [7; 8; 9] (Go.make 4) = [0; 0; 7; 8].
Proof. reflexivity. Qed.

Example PutUint32_one : LittleEndian.PutUint32 0 0x3F800000 (Go.make 4) = [0; 0; 0x80; 0x3F].
Proof. reflexivity. Qed.

Example Uint32_one : LittleEndian.Uint32 [0; 0; 0x80; 0x3F] = 0x3F800000.
Proof. reflexivity. Qed.

Example Float32frombits_one : Float32.Float32frombits 0x3F800000 = Float32.Finite false (2 ^ 23) (-23).
Proof. reflexivity. Qed.

Example Float32bits_one : Float32.Float32bits (Float32.Finite false (2 ^ 23) (-23)) = 0x3F800000.
Proof. reflexivity. Qed.

Example of_uint32_three : Float32.of_uint32 3 = Float32.Finite false (3 * 2 ^ 22) (-22).
Proof. reflexivity. Qed.

Example of_uint32_ties_to_even : Float32.of_uint32 (2 ^ 24 + 1) = Float32.Finite false (2 ^ 23) 1.
Proof. reflexivity. Qed.

Example scenario_S1 : ParseCIPReadResponse [0xCC; 0; 0xC4; 1; 0x2A; 0; 0; 0] CIPDataTypeDINT
             = Ok (VInt32 42).
Proof. reflexivity. Qed.

Example scenario_S2 : ParseCIPReadResponse [0xCC; 0; 0xC1; 1; 1] CIPDataTypeBOOL = Ok (VBool true).
Proof. reflexivity. Qed.

Example scenario_S3 : ParseCIPReadResponse [0xCC; 0; 0xCA; 1; 0; 0; 0; 0] CIPDataTypeDINT
             = Err (Errorf_x2 "data type mismatch: expected %#x, got %#x" 0xC4 0xCA).
Proof. reflexivity. Qed.

Example TestBuildCIPPath_Tag1 :
  BuildCIPPath "Tag1" = [CIPPathTypeSymbolic; 4; 84; 97; 103; 49].
Proof. reflexivity. Qed.

Example TestBuildCIPPath_LongTagName :
  BuildCIPPath "LongTagName"
  = [CIPPathTypeSymbolic; 11; 76; 111; 110; 103; 84; 97; 103; 78; 97; 109; 101; 0].
Proof. reflexivity. Qed.

(** ** Little-endian words *)

Local Ltac zdm := Z.div_mod_to_equations; lia.

Lemma lor_shiftl_add (a b n : Z) :
  0 <= n -> 0 <= a < 2 ^ n -> Z.lor a (Z.shiftl b n) = a + b * 2 ^ n.
Proof.
  intros Hn Ha.
  rewrite <- (Z.shiftl_mul_pow2 b n Hn), <- Z.add_lor_land.
  enough (E : Z.land a (Z.shiftl b n) = 0) by (rewrite E; lia).
  apply Z.bits_inj'. intros i Hi.
  rewrite Z.land_spec, Z.bits_0.
  destruct (Z.lt_ge_cases i n) as [Hlt | Hge].
  - rewrite (Z.shiftl_spec_low b n i Hlt). apply andb_false_r.
  - replace a with (a mod 2 ^ n) by (apply Z.mod_small; lia).
    rewrite Z.mod_pow2_bits_high by lia. reflexivity.
Qed.

Lemma byte_range (x : Z) : 0 <= Go.byte x < 256.
Proof. unfold Go.byte. change (2 ^ 8) with 256. zdm. Qed.

Lemma Uint16_bytes (b0 b1 : Z) (rest : list Z) :
  0 <= b0 < 256 ->
  LittleEndian.Uint16 (b0 :: b1 :: rest) = b0 + b1 * 2 ^ 8.
Proof.
  intros H0. unfold LittleEndian.Uint16. cbn.
  apply lor_shiftl_add; lia.
Qed.

Lemma Uint32_bytes (b0 b1 b2 b3 : Z) (rest : list Z) :
  0 <= b0 < 256 -> 0 <= b1 < 256 -> 0 <= b2 < 256 ->
  LittleEndian.Uint32 (b0 :: b1 :: b2 :: b3 :: rest)
  = b0 + b1 * 2 ^ 8 + b2 * 2 ^ 16 + b3 * 2 ^ 24.
Proof.
  intros H0 H1 H2. unfold LittleEndian.Uint32. cbn.
  rewrite (lor_shiftl_add b0 b1 8) by lia.
  rewrite (lor_shiftl_add _ b2 16) by lia.
  rewrite (lor_shiftl_add _ b3 24) by lia.
  reflexivity.
Qed.

Lemma PutUint16_make (v : Z) :
  LittleEndian.PutUint16 0 v (Go.make 2) = [Go.byte v; Go.byte (Z.shiftr v 8)].
Proof. reflexivity. Qed.

Lemma PutUint32_make (v : Z) :
  LittleEndian.PutUint32 0 v (Go.make 4)
  = [Go.byte v; Go.byte (Z.shiftr v 8); Go.byte (Z.shiftr v 16);
     Go.byte (Z.shiftr v 24)].
Proof. reflexivity. Qed.

(** Reading back a 16-bit word stored little-endian. *)
Lemma Uint16_PutUint16 (v : Z) :
  Go.is_uint16 v -> LittleEndian.Uint16 (LittleEndian.PutUint16 0 v (Go.make 2)) = v.
Proof.
  unfold Go.is_uint16. intros Hv.
  rewrite PutUint16_make, Uint16_bytes by apply byte_range.
  unfold Go.byte. rewrite Z.shiftr_div_pow2 by lia.
  change (2 ^ 8) with 256 in *. change (2 ^ 16) with 65536 in *. zdm.
Qed.

(** Reading back a 32-bit word stored little-endian. *)
Lemma Uint32_PutUint32 (v : Z) :
  Go.is_uint32 v -> LittleEndian.Uint32 (LittleEndian.PutUint32 0 v (Go.make 4)) = v.
Proof.
  unfold Go.is_uint32. intros Hv.
  rewrite PutUint32_make, Uint32_bytes by apply byte_range.
  unfold Go.byte. rewrite !Z.shiftr_div_pow2 by lia.
  change (2 ^ 8) with 256 in *. change (2 ^ 16) with 65536 in *.
  change (2 ^ 24) with 16777216 in *. change (2 ^ 32) with 4294967296 in *.
  zdm.
Qed.

Lemma uint16_range (x : Z) : Go.is_uint16 (Go.uint16 x).
Proof. unfold Go.is_uint16, Go.uint16. apply Z.mod_pos_bound. lia. Qed.

Lemma uint32_range (x : Z) : Go.is_uint32 (Go.uint32 x).
Proof. unfold Go.is_uint32, Go.uint32. apply Z.mod_pos_bound. lia. Qed.

(** Converting a signed value to unsigned and back is the identity. *)
Lemma int16_uint16 (v : Z) : Go.is_int16 v -> Go.int16 (Go.uint16 v) = v.
Proof.
  unfold Go.is_int16, Go.int16, Go.signed, Go.uint16. intros Hv.
  rewrite Z.mod_mod by lia.
  change (2 ^ 16) with 65536 in *. change (2 ^ (16 - 1)) with 32768 in *.
  change (2 ^ 15) with 32768 in *.
  destruct (Z.ltb_spec (v mod 65536) 32768); zdm.
Qed.

Lemma int32_uint32 (v : Z) : Go.is_int32 v -> Go.int32 (Go.uint32 v) = v.
Proof.
  unfold Go.is_int32, Go.int32, Go.signed, Go.uint32. intros Hv.
  rewrite Z.mod_mod by lia.
  change (2 ^ 32) with 4294967296 in *. change (2 ^ (32 - 1)) with 2147483648 in *.
  change (2 ^ 31) with 2147483648 in *.
  destruct (Z.ltb_spec (v mod 4294967296) 2147483648); zdm.
Qed.

(** ** The binary32 bit pattern *)

Lemma digits2_pos_bounds (m : positive) :
  2 ^ (Z.pos (digits2_pos m) - 1) <= Z.pos m < 2 ^ Z.pos (digits2_pos m).
Proof.
  induction m as [p IH | p IH | ]; cbn [digits2_pos].
  - rewrite Pos2Z.inj_succ.
    replace (Z.succ (Z.pos (digits2_pos p)) - 1) with (Z.succ (Z.pos (digits2_pos p) - 1)) by lia.
    rewrite !Z.pow_succ_r by lia. lia.
  - rewrite Pos2Z.inj_succ.
    replace (Z.succ (Z.pos (digits2_pos p)) - 1) with (Z.succ (Z.pos (digits2_pos p) - 1)) by lia.
    rewrite !Z.pow_succ_r by lia. lia.
  - cbn. lia.
Qed.

(** A canonical finite binary32 number is either normal (24-bit
    significand) or subnormal (shorter significand, least exponent). *)
Lemma bounded_cases (m : positive) (e : Z) :
  bounded Float32.prec Float32.emax m e = true ->
  (2 ^ 23 <= Z.pos m < 2 ^ 24 /\ -149 <= e <= 104)
  \/ (Z.pos m < 2 ^ 23 /\ e = -149).
Proof.
  unfold bounded, canonical_mantissa, fexp, emin, Float32.prec, Float32.emax.
  intros Hb. apply andb_true_iff in Hb as [Hc He].
  apply Z.eqb_eq in Hc. apply Z.leb_le in He.
  pose proof (digits2_pos_bounds m) as Hd.
  set (d := Z.pos (digits2_pos m)) in *.
  assert (Hd0 : 0 < d) by (subst d; lia).
  destruct (Z.lt_trichotomy d 24) as [Hlt | [Heq | Hgt]].
  - right. split; [| lia].
    apply Z.lt_le_trans with (2 ^ d); [lia |].
    apply Z.pow_le_mono_r; lia.
  - left. rewrite Heq in Hd. change (24 - 1) with 23 in Hd. lia.
  - exfalso. lia.
Qed.

Lemma bits_fields (s : bool) (ef frac : Z) :
  0 <= ef < 256 -> 0 <= frac < 2 ^ 23 ->
  let bits := Float32.sign_bit s * 2 ^ 31 + ef * 2 ^ 23 + frac in
  Z.testbit bits 31 = s
  /\ Z.land (Z.shiftr bits 23) 0xFF = ef
  /\ Z.land bits 0x7FFFFF = frac.
Proof.
  intros Hef Hfrac bits.
  assert (Hs : 0 <= Float32.sign_bit s <= 1) by (destruct s; cbn; lia).
  change (2 ^ 23) with 8388608 in *. change (2 ^ 31) with 2147483648 in *.
  repeat split.
  - rewrite Z.testbit_odd, Z.shiftr_div_pow2 by lia.
    change (2 ^ 31) with 2147483648.
    replace (bits / 2147483648) with (Float32.sign_bit s) by (subst bits; zdm).
    now destruct s.
  - change 0xFF with (Z.ones 8). rewrite Z.land_ones, Z.shiftr_div_pow2 by lia.
    change (2 ^ 23) with 8388608. change (2 ^ 8) with 256. subst bits. zdm.
  - change 0x7FFFFF with (Z.ones 23). rewrite Z.land_ones by lia.
    change (2 ^ 23) with 8388608. subst bits. zdm.
Qed.

Lemma Float32frombits_fields (s : bool) (ef frac : Z) :
  0 <= ef < 256 -> 0 <= frac < 2 ^ 23 ->
  Float32.Float32frombits (Float32.sign_bit s * 2 ^ 31 + ef * 2 ^ 23 + frac)
  = if ef =? 0 then
      match frac with
      | Z.pos m => Float32.Finite s m (-149)
      | _ => Float32.Zero s
      end
    else if ef =? 255 then
      match frac with
      | Z.pos pl => Float32.NaN s pl
      | _ => Float32.Inf s
      end
    else
      match frac + 2 ^ 23 with
      | Z.pos m => Float32.Finite s m (ef - 150)
      | _ => Float32.Zero s
      end.
Proof.
  intros Hef Hfrac.
  destruct (bits_fields s ef frac Hef Hfrac) as (Hs & He & Hf).
  unfold Float32.Float32frombits. cbv zeta.
  rewrite Hs, He, Hf. reflexivity.
Qed.

(** [Float32frombits] inverts [Float32bits] on every binary32 datum,
    NaN payloads included. *)
Lemma Float32frombits_Float32bits (f : float32) :
  Float32.valid f = true ->
  Float32.Float32frombits (Float32.Float32bits f) = f.
Proof.
  destruct f as [s | s | s pl | s m e]; cbn [Float32.valid Float32.Float32bits];
    intros Hv.
  - replace (Float32.sign_bit s * 2 ^ 31)
      with (Float32.sign_bit s * 2 ^ 31 + 0 * 2 ^ 23 + 0) by lia.
    rewrite Float32frombits_fields by lia. reflexivity.
  - replace (Float32.sign_bit s * 2 ^ 31 + 255 * 2 ^ 23)
      with (Float32.sign_bit s * 2 ^ 31 + 255 * 2 ^ 23 + 0) by lia.
    rewrite Float32frombits_fields by lia. reflexivity.
  - apply Z.ltb_lt in Hv.
    rewrite Float32frombits_fields by lia. reflexivity.
  - destruct (bounded_cases m e Hv) as [[Hm He] | [Hm ->]].
    + destruct (Z.ltb_spec (Z.pos m) (2 ^ 23)) as [Hlt | _]; [lia |].
      rewrite Float32frombits_fields by lia.
      destruct (Z.eqb_spec (e + 150) 0) as [E | _]; [lia |].
      destruct (Z.eqb_spec (e + 150) 255) as [E | _]; [lia |].
      replace (Z.pos m - 2 ^ 23 + 2 ^ 23) with (Z.pos m) by lia.
      replace (e + 150 - 150) with e by lia. reflexivity.
    + destruct (Z.ltb_spec (Z.pos m) (2 ^ 23)) as [_ | Hge]; [| lia].
      replace (Float32.sign_bit s * 2 ^ 31 + Z.pos m)
        with (Float32.sign_bit s * 2 ^ 31 + 0 * 2 ^ 23 + Z.pos m) by lia.
      rewrite Float32frombits_fields by lia. reflexivity.
Qed.

(** The bit pattern of a binary32 datum is a 32-bit word. *)
Lemma Float32bits_range (f : float32) :
  Float32.valid f = true -> Go.is_uint32 (Float32.Float32bits f).
Proof.
  unfold Go.is_uint32.
  destruct f as [s | s | s pl | s m e]; cbn [Float32.valid Float32.Float32bits];
    intros Hv;
    assert (Hs : 0 <= Float32.sign_bit s <= 1) by (destruct s; cbn; lia).
  - lia.
  - lia.
  - apply Z.ltb_lt in Hv. lia.
  - destruct (bounded_cases m e Hv) as [[Hm He] | [Hm ->]];
      destruct (Z.ltb_spec (Z.pos m) (2 ^ 23)); lia.
Qed.

(** ** Codec round trip *)

Lemma DecodeBool_EncodeBool (b : bool) : DecodeBool (EncodeBool b) = Ok b.
Proof. now destruct b. Qed.

Lemma DecodeInt16_EncodeInt16 (v : Z) :
  Go.is_int16 v -> DecodeInt16 (EncodeInt16 v) = Ok v.
Proof.
  intros Hv. unfold DecodeInt16, EncodeInt16. cbv zeta.
  rewrite Uint16_PutUint16 by apply uint16_range.
  rewrite int16_uint16 by assumption. reflexivity.
Qed.

Lemma DecodeInt32_EncodeInt32 (v : Z) :
  Go.is_int32 v -> DecodeInt32 (EncodeInt32 v) = Ok v.
Proof.
  intros Hv. unfold DecodeInt32, EncodeInt32. cbv zeta.
  rewrite Uint32_PutUint32 by apply uint32_range.
  rewrite int32_uint32 by assumption. reflexivity.
Qed.

Lemma DecodeFloat32_EncodeFloat32 (f : float32) :
  Float32.valid f = true -> DecodeFloat32 (EncodeFloat32 f) = Ok f.
Proof.
  intros Hv. unfold DecodeFloat32, EncodeFloat32. cbv zeta.
  rewrite Uint32_PutUint32 by (apply Float32bits_range; assumption).
  rewrite Float32frombits_Float32bits by assumption. reflexivity.
Qed.

(** C8. Round trip of the codec: decoding what the encoder produced gives
    the value back, for every [bool], every [int16], every [int32] and
    every [float32] datum (each NaN with its payload). *)
Theorem codec_roundtrip (b : bool) (i16 i32 : Z) (f : float32) :
  Go.is_int16 i16 -> Go.is_int32 i32 -> Float32.valid f = true ->
  DecodeBool (EncodeBool b) = Ok b
  /\ DecodeInt16 (EncodeInt16 i16) = Ok i16
  /\ DecodeInt32 (EncodeInt32 i32) = Ok i32
  /\ DecodeFloat32 (EncodeFloat32 f) = Ok f.
Proof.
  intros H16 H32 Hf. repeat split.
  - apply DecodeBool_EncodeBool.
  - now apply DecodeInt16_EncodeInt16.
  - now apply DecodeInt32_EncodeInt32.
  - now apply DecodeFloat32_EncodeFloat32.
Qed.

Lemma codec_roundtrip_witness :
  Go.is_int16 (-2) /\ Go.is_int32 (-70000)
  /\ Float32.valid (Float32.Finite true (3 * 2 ^ 22) (-22)) = true
  /\ DecodeBool (EncodeBool true) = Ok true
  /\ DecodeInt16 (EncodeInt16 (-2)) = Ok (-2)
  /\ DecodeInt32 (EncodeInt32 (-70000)) = Ok (-70000)
  /\ DecodeFloat32 (EncodeFloat32 (Float32.Finite true (3 * 2 ^ 22) (-22)))
     = Ok (Float32.Finite true (3 * 2 ^ 22) (-22)).
Proof.
  assert (H16 : Go.is_int16 (-2)) by (unfold Go.is_int16; lia).
  assert (H32 : Go.is_int32 (-70000)) by (unfold Go.is_int32; lia).
  assert (Hf : Float32.valid (Float32.Finite true (3 * 2 ^ 22) (-22)) = true)
    by reflexivity.
  split; [exact H16 |]. split; [exact H32 |]. split; [exact Hf |].
  exact (codec_roundtrip true (-2) (-70000) _ H16 H32 Hf).
Defined.

(** ** Typed read of a REAL *)

(** What the REAL branch computes on any response that reaches it: the
    integer-to-float conversion of the little-endian word. *)
Lemma ParseCIPReadResponse_REAL (svc cnt b0 b1 b2 b3 : Z) (rest : list Z) :
  Z.land svc 0x80 <> 0 ->
  ParseCIPReadResponse (svc :: 0 :: CIPDataTypeREAL :: cnt :: b0 :: b1 :: b2 :: b3 :: rest)
                       CIPDataTypeREAL
  = Ok (VFloat32 (Float32.of_uint32 (LittleEndian.Uint32 [b0; b1; b2; b3]))).
Proof.
  intros Hsvc. unfold ParseCIPReadResponse, ParseCIPResponse.
  cbn [length Nat.ltb Nat.leb lookup_total list_lookup_total].
  destruct (Z.eqb_spec (Z.land svc 0x80) 0) as [E | _]; [contradiction |].
  reflexivity.
Qed.

(** C1. On the response [CC 00 CA 01 00 00 80 3F], read as a REAL, the
    parser returns 1065353216.0 (the word 0x3F800000 converted as a
    number), not 1.0, the binary32 value with that bit pattern, which is
    what [DecodeFloat32] gives for the same four bytes. *)
Theorem ParseCIPReadResponse_REAL_converts_number :
  ParseCIPReadResponse [0xCC; 0x00; 0xCA; 0x01; 0x00; 0x00; 0x80; 0x3F] CIPDataTypeREAL
  = Ok (VFloat32 (Float32.Finite false (127 * 2 ^ 17) 6))
  /\ Float32.Float32frombits (LittleEndian.Uint32 [0x00; 0x00; 0x80; 0x3F])
     = Float32.Finite false (2 ^ 23) (-23)
  /\ DecodeFloat32 [0x00; 0x00; 0x80; 0x3F] = Ok (Float32.Finite false (2 ^ 23) (-23))
  /\ ParseCIPReadResponse [0xCC; 0x00; 0xCA; 0x01; 0x00; 0x00; 0x80; 0x3F] CIPDataTypeREAL
     <> Ok (VFloat32 (Float32.Float32frombits
                        (LittleEndian.Uint32 [0x00; 0x00; 0x80; 0x3F]))).
Proof.
  repeat split; try reflexivity.
  vm_compute. discriminate.
Qed.

(** ** Request builders *)

(** The byte strings scenarios S5 and S6 list, with path size 4, are not
    what the builders return for [Counter]. *)
Lemma build_requests_Counter_not_4_words :
  BuildCIPReadRequest "Counter" 1
  <> [0x4C; 0x04; 0x91; 0x07; 0x43; 0x6F; 0x75; 0x6E; 0x74; 0x65; 0x72; 0x00;
      0x01; 0x00]
  /\ BuildCIPWriteRequest "Counter" 0xC4 (EncodeInt32 42)
     <> [0x4D; 0x04; 0x91; 0x07; 0x43; 0x6F; 0x75; 0x6E; 0x74; 0x65; 0x72; 0x00;
         0xC4; 0x01; 0x2A; 0x00; 0x00; 0x00]
  /\ BuildCIPReadRequest "Counter" 1 !! 1%nat <> Some 4
  /\ BuildCIPWriteRequest "Counter" 0xC4 (EncodeInt32 42) !! 1%nat <> Some 4.
Proof. repeat split; vm_compute; discriminate. Qed.

(** C2 (amended). The Read Tag request for [Counter] with one element is
    [4C 05 91 07 43 6F 75 6E 74 65 72 00 01 00] and the Write Tag request
    for [Counter] = DINT 42 is
    [4D 05 91 07 43 6F 75 6E 74 65 72 00 C4 01 2A 00 00 00]: the path is
    ten bytes (type, length, seven name bytes, pad), so the path-size byte
    of both is 5 words. *)
Theorem build_requests_Counter :
  BuildCIPReadRequest "Counter" 1
  = [0x4C; 0x05; 0x91; 0x07; 0x43; 0x6F; 0x75; 0x6E; 0x74; 0x65; 0x72; 0x00;
     0x01; 0x00]
  /\ BuildCIPWriteRequest "Counter" 0xC4 (EncodeInt32 42)
     = [0x4D; 0x05; 0x91; 0x07; 0x43; 0x6F; 0x75; 0x6E; 0x74; 0x65; 0x72; 0x00;
        0xC4; 0x01; 0x2A; 0x00; 0x00; 0x00]
  /\ EncodeInt32 42 = [0x2A; 0x00; 0x00; 0x00]
  /\ length (BuildCIPPath "Counter") = 10%nat
  /\ BuildCIPReadRequest "Counter" 1 !! 1%nat = Some 5
  /\ BuildCIPWriteRequest "Counter" 0xC4 (EncodeInt32 42) !! 1%nat = Some 5.
Proof. repeat split; reflexivity. Qed.

(** ** The status table *)

(** A property of every byte, checked on each of the 256 values. *)
Lemma forall_byte (P : Z -> bool) :
  forallb (fun n => P (Z.of_nat n)) (seq 0 256) = true ->
  forall x, Go.is_byte x -> P x = true.
Proof.
  intros Hall x Hx. unfold Go.is_byte in Hx. change (2 ^ 8) with 256 in Hx.
  rewrite forallb_forall in Hall.
  specialize (Hall (Z.to_nat x)).
  rewrite Z2Nat.id in Hall by lia.
  apply Hall. apply in_seq. lia.
Qed.

Lemma status_msg_listed (status : Z) :
  Go.is_byte status ->
  status_listed status = true -> status_msg status <> "Unknown error"%string.
Proof.
  intros Hb Hl.
  pose proof (forall_byte
    (fun s => implb (status_listed s)
                    (negb (String.eqb (status_msg s) "Unknown error")))
    eq_refl status Hb) as Hc.
  cbv beta in Hc. rewrite Hl in Hc. cbn [implb] in Hc.
  apply negb_true_iff, String.eqb_neq in Hc. exact Hc.
Qed.

Lemma status_msg_unlisted (status : Z) :
  Go.is_byte status ->
  status_listed status = false -> status_msg status = "Unknown error"%string.
Proof.
  intros Hb Hl.
  pose proof (forall_byte
    (fun s => status_listed s || String.eqb (status_msg s) "Unknown error")
    eq_refl status Hb) as Hc.
  cbv beta in Hc. rewrite Hl in Hc. cbn [orb] in Hc.
  apply String.eqb_eq in Hc. exact Hc.
Qed.

(** Statuses 0x23 and 0x24 lie in the range 0x01-0x29 and get the generic
    description, the one an unlisted status such as 0x2A gets. *)
Lemma CIPStatusToError_0x23_0x24_generic :
  0x01 <= 0x23 <= 0x29 /\ 0x01 <= 0x24 <= 0x29
  /\ CIPStatusToError 0x23 = Some (CIPError 0x23 "Unknown error")
  /\ CIPStatusToError 0x24 = Some (CIPError 0x24 "Unknown error")
  /\ CIPStatusToError 0x2A = Some (CIPError 0x2A "Unknown error").
Proof. repeat split; (lia || reflexivity). Qed.

(** C3 (amended). Status 0 is success; every other status byte gives a
    [CIPError] carrying the status as its code; the description is a
    specific one exactly for the listed statuses (0x01-0x22, 0x25-0x29 and
    0xFF, the latter "General Error") and the generic "Unknown error" for
    every other status, 0x23 and 0x24 included; and the response
    [CC 01 00] parses to the CIP error 0x01 "Connection failure". *)
Theorem CIPStatusToError_table (status : Z) :
  Go.is_byte status ->
  (status = 0 -> CIPStatusToError status = None)
  /\ (status <> 0 ->
      CIPStatusToError status = Some (CIPError status (status_msg status)))
  /\ (status_listed status = true -> status_msg status <> "Unknown error"%string)
  /\ (status_listed status = false -> status_msg status = "Unknown error"%string)
  /\ CIPStatusToError 0xFF = Some (CIPError 0xFF "General Error")
  /\ ParseCIPResponse [0xCC; 0x01; 0x00] = Err (CIPError 0x01 "Connection failure").
Proof.
  intros Hb. repeat split.
  - intros ->. reflexivity.
  - intros Hnz. unfold CIPStatusToError.
    destruct (Z.eqb_spec status 0); [contradiction | reflexivity].
  - now apply status_msg_listed.
  - now apply status_msg_unlisted.
Qed.

Lemma CIPStatusToError_table_witness :
  Go.is_byte 0x26
  /\ CIPStatusToError 0x26 = Some (CIPError 0x26 "Path size invalid")
  /\ status_listed 0x26 = true.
Proof.
  assert (Hb : Go.is_byte 0x26) by (unfold Go.is_byte; lia).
  split; [exact Hb |].
  destruct (CIPStatusToError_table 0x26 Hb) as (_ & Hnz & _).
  split; [| reflexivity].
  rewrite Hnz by lia. reflexivity.
Defined.

(** ** Symbolic paths *)

Lemma length_bytes (s : string) : length (Go.bytes s) = Go.len s.
Proof.
  unfold Go.bytes, Go.len. rewrite length_map.
  induction s as [| a s IH]; cbn; [reflexivity | now rewrite IH].
Qed.

Lemma eqb_empty (s : string) : s <> EmptyString -> String.eqb s EmptyString = false.
Proof. intros Hs. now apply String.eqb_neq. Qed.

(** The path of a non-empty name, byte by byte. *)
Lemma BuildCIPPath_shape (s : string) :
  s <> EmptyString ->
  BuildCIPPath s
  = CIPPathTypeSymbolic :: Go.byte (Z.of_nat (Go.len s)) :: Go.bytes s
      ++ pad_of (Go.len s).
Proof.
  intros Hs. unfold BuildCIPPath, pad_of. rewrite (eqb_empty s Hs). cbv zeta.
  assert (E : Go.copy 2 (Go.bytes s)
                (<[1%nat := Go.byte (Z.of_nat (Go.len s))]>
                   (<[0%nat := CIPPathTypeSymbolic]> (Go.make (2 + Go.len s))))
              = CIPPathTypeSymbolic :: Go.byte (Z.of_nat (Go.len s)) :: Go.bytes s).
  { unfold Go.copy, Go.make. cbn [replicate Nat.add insert list_insert take drop].
    cbn [length Nat.sub].
    rewrite length_replicate, Nat.sub_0_r, length_bytes, Nat.min_id.
    rewrite take_0, (take_ge (Go.bytes s)) by (rewrite length_bytes; lia).
    rewrite drop_ge by (rewrite length_replicate; lia).
    cbn [app]. now rewrite app_nil_r. }
  rewrite E. destruct (negb _); [reflexivity | now rewrite app_nil_r].
Qed.

Lemma length_pad_of (n : nat) : length (pad_of n) = (n mod 2)%nat.
Proof.
  unfold pad_of. pose proof (Nat.mod_upper_bound n 2).
  destruct (Nat.eqb_spec (n mod 2) 0) as [E | E]; cbn [negb length]; lia.
Qed.

Lemma length_BuildCIPPath (s : string) :
  s <> EmptyString ->
  length (BuildCIPPath s) = (2 + Go.len s + Go.len s mod 2)%nat.
Proof.
  intros Hs. rewrite (BuildCIPPath_shape s Hs). cbn [length].
  rewrite length_app, length_bytes, length_pad_of. lia.
Qed.

Lemma BuildCIPPath_name (s : string) :
  s <> EmptyString -> slice 2 (2 + Go.len s) (BuildCIPPath s) = Go.bytes s.
Proof.
  intros Hs. rewrite (BuildCIPPath_shape s Hs). unfold slice.
  cbn [drop]. replace (2 + Go.len s - 2)%nat with (Go.len s) by lia.
  rewrite drop_0. apply take_app_length'. now rewrite length_bytes.
Qed.

Lemma BuildCIPPath_length_byte (s : string) :
  s <> EmptyString ->
  BuildCIPPath s !! 1%nat = Some (Z.of_nat (Go.len s) mod 256).
Proof. intros Hs. now rewrite (BuildCIPPath_shape s Hs). Qed.

(** A name of 256 bytes gets the length byte 0. *)
Lemma BuildCIPPath_256_length_byte :
  name_of_length 256 <> EmptyString
  /\ Go.len (name_of_length 256) = 256%nat
  /\ BuildCIPPath (name_of_length 256) !! 1%nat = Some 0
  /\ BuildCIPPath (name_of_length 256) !! 1%nat <> Some 256.
Proof. repeat split; try reflexivity; vm_compute; discriminate. Qed.

(** C6 (amended). For every non-empty tag name [s] the path has even
    length, starts with 0x91, has [len(s) mod 256] as its length byte
    (which is [len(s)] when the name has at most 255 bytes), holds the name
    bytes at [2 .. 2+len(s)], and is followed by one 0x00 pad byte exactly
    when [len(s)] is odd; the pad is not counted in the length byte; the
    empty name yields the empty path. *)
Theorem BuildCIPPath_spec (s : string) :
  s <> EmptyString ->
  (length (BuildCIPPath s) mod 2 = 0)%nat
  /\ BuildCIPPath s !! 0%nat = Some 0x91
  /\ BuildCIPPath s !! 1%nat = Some (Z.of_nat (Go.len s) mod 256)
  /\ ((Go.len s <= 255)%nat -> BuildCIPPath s !! 1%nat = Some (Z.of_nat (Go.len s)))
  /\ slice 2 (2 + Go.len s) (BuildCIPPath s) = Go.bytes s
  /\ ((Go.len s mod 2 = 1)%nat ->
      length (BuildCIPPath s) = (2 + Go.len s + 1)%nat
      /\ BuildCIPPath s !! (2 + Go.len s)%nat = Some 0)
  /\ ((Go.len s mod 2 = 0)%nat -> length (BuildCIPPath s) = (2 + Go.len s)%nat)
  /\ BuildCIPPath EmptyString = [].
Proof.
  intros Hs.
  pose proof (length_BuildCIPPath s Hs) as Hlen.
  pose proof (Nat.mod_upper_bound (Go.len s) 2) as Hm.
  split; [| split; [| split; [| split; [| split; [| split; [| split]]]]]].
  - rewrite Hlen. pose proof (Nat.div_mod_eq (Go.len s) 2) as E.
    replace (2 + Go.len s + Go.len s mod 2)%nat
      with ((1 + Go.len s / 2 + Go.len s mod 2) * 2)%nat by lia.
    apply Nat.Div0.mod_mul.
  - now rewrite (BuildCIPPath_shape s Hs).
  - now apply BuildCIPPath_length_byte.
  - intros Hle. rewrite (BuildCIPPath_length_byte s Hs).
    rewrite Z.mod_small by lia. reflexivity.
  - now apply BuildCIPPath_name.
  - intros Hodd. split; [lia |].
    rewrite (BuildCIPPath_shape s Hs). unfold pad_of. rewrite Hodd.
    cbn [Nat.eqb negb]. cbn [lookup list_lookup Nat.add].
    apply list_lookup_middle. now rewrite length_bytes.
  - intros Heven. lia.
  - reflexivity.
Qed.

Lemma BuildCIPPath_spec_witness :
  "LongTagName"%string <> EmptyString
  /\ length (BuildCIPPath "LongTagName") = 14%nat
  /\ BuildCIPPath "LongTagName" !! 1%nat = Some 11
  /\ BuildCIPPath "LongTagName" !! 13%nat = Some 0.
Proof.
  assert (Hs : "LongTagName"%string <> EmptyString) by discriminate.
  split; [exact Hs |].
  destruct (BuildCIPPath_spec "LongTagName" Hs)
    as (_ & _ & _ & Hlb & _ & Hodd & _).
  destruct (Hodd eq_refl) as [Hl Hp].
  split; [exact Hl |]. split; [| exact Hp].
  apply Hlb. apply Nat.leb_le. reflexivity.
Defined.

(** C10. For a tag name of more than 255 bytes the length byte is
    [len(name) mod 256], so it differs from the length of the name, while
    the path still holds every byte of the name; for a non-empty name of
    at most 255 bytes the length byte is the length. *)
Theorem BuildCIPPath_long_name (s : string) :
  ((255 < Go.len s)%nat ->
   BuildCIPPath s !! 1%nat = Some (Go.byte (Z.of_nat (Go.len s)))
   /\ Go.byte (Z.of_nat (Go.len s)) = Z.of_nat (Go.len s) mod 256
   /\ Go.byte (Z.of_nat (Go.len s)) <> Z.of_nat (Go.len s)
   /\ slice 2 (2 + Go.len s) (BuildCIPPath s) = Go.bytes s)
  /\ ((0 < Go.len s <= 255)%nat ->
      BuildCIPPath s !! 1%nat = Some (Z.of_nat (Go.len s))).
Proof.
  split.
  - intros Hlong.
    assert (Hs : s <> EmptyString) by (intros ->; cbn in Hlong; lia).
    repeat split.
    + now apply BuildCIPPath_length_byte.
    + pose proof (byte_range (Z.of_nat (Go.len s))). lia.
    + now apply BuildCIPPath_name.
  - intros Hshort.
    assert (Hs : s <> EmptyString) by (intros ->; cbn in Hshort; lia).
    rewrite (BuildCIPPath_length_byte s Hs).
    rewrite Z.mod_small by lia. reflexivity.
Qed.

Lemma BuildCIPPath_long_name_witness :
  (255 < Go.len (name_of_length 300))%nat
  /\ (0 < Go.len "Tag1" <= 255)%nat
  /\ BuildCIPPath (name_of_length 300) !! 1%nat = Some 44
  /\ BuildCIPPath "Tag1" !! 1%nat = Some 4.
Proof.
  assert (Hlong : (255 < Go.len (name_of_length 300))%nat)
    by (apply Nat.ltb_lt; reflexivity).
  assert (Hshort : (0 < Go.len "Tag1" <= 255)%nat) by (cbn; lia).
  split; [exact Hlong |]. split; [exact Hshort |].
  destruct (BuildCIPPath_long_name (name_of_length 300)) as [Hl _].
  destruct (BuildCIPPath_long_name "Tag1") as [_ Hsh].
  split; [| exact (Hsh Hshort)].
  destruct (Hl Hlong) as (Hb & _). rewrite Hb. reflexivity.
Defined.

(** ** The response parser *)

(** A one-byte buffer without the reply bit is rejected as too short, not
    as "not a response". *)
Lemma ParseCIPResponse_short_no_reply_bit :
  Z.land ([0x0A] !!! 0%nat) 0x80 = 0
  /\ ParseCIPResponse [0x0A] = Err (errors_New "response too short")
  /\ ParseCIPResponse [0x0A] <> Err (errors_New "not a response").
Proof. repeat split; discriminate. Qed.

(** C7 (amended). [ParseCIPResponse] fails on every buffer shorter than 2
    bytes (with "response too short"); on every buffer of at least 2 bytes
    whose first byte lacks the 0x80 reply bit it fails with
    "not a response"; on every buffer of at least 2 bytes with the reply
    bit set and status byte 0 it returns the bytes from offset 2 on. *)
Theorem ParseCIPResponse_spec (response : list Z) :
  ((length response < 2)%nat ->
   ParseCIPResponse response = Err (errors_New "response too short"))
  /\ ((2 <= length response)%nat ->
      Z.land (response !!! 0%nat) 0x80 = 0 ->
      ParseCIPResponse response = Err (errors_New "not a response"))
  /\ ((2 <= length response)%nat ->
      Z.land (response !!! 0%nat) 0x80 = 0x80 ->
      response !!! 1%nat = 0 ->
      ParseCIPResponse response = Ok (drop 2 response)
      /\ ((length response = 2)%nat -> drop 2 response = [])).
Proof.
  unfold ParseCIPResponse. split; [| split].
  - intros Hlen. destruct (Nat.ltb_spec (length response) 2); [reflexivity | lia].
  - intros Hlen Hbit.
    destruct (Nat.ltb_spec (length response) 2); [lia |].
    rewrite Hbit. reflexivity.
  - intros Hlen Hbit Hstatus.
    destruct (Nat.ltb_spec (length response) 2); [lia |].
    rewrite Hbit, Hstatus. cbn [Z.eqb CIPStatusToError].
    split.
    + destruct (Nat.leb_spec (length response) 2); [| reflexivity].
      rewrite drop_ge by lia. reflexivity.
    + intros Hl2. apply drop_ge. lia.
Qed.

Lemma ParseCIPResponse_spec_witness :
  (2 <= length [0x8A; 0x00; 68; 65; 84; 65])%nat
  /\ ParseCIPResponse [0x8A; 0x00; 68; 65; 84; 65] = Ok [68; 65; 84; 65]
  /\ ParseCIPResponse [0x0A; 0x00] = Err (errors_New "not a response")
  /\ ParseCIPResponse [] = Err (errors_New "response too short").
Proof.
  assert (Hlen : (2 <= length [0x8A; 0x00; 68; 65; 84; 65])%nat) by (cbn; lia).
  split; [exact Hlen |].
  destruct (ParseCIPResponse_spec [0x8A; 0x00; 68; 65; 84; 65]) as (_ & _ & Hok).
  destruct (ParseCIPResponse_spec [0x0A; 0x00]) as (_ & Hnr & _).
  destruct (ParseCIPResponse_spec []) as (Hshort & _).
  split; [exact (proj1 (Hok Hlen eq_refl eq_refl)) |].
  split; [apply Hnr; [cbn; lia | reflexivity] |].
  apply Hshort. cbn. lia.
Defined.

(** ** The connections keep the contract of [io.ReadFull] *)

Lemma mockConn_ReadFull_length (n : nat) (c c' : mockConn) (b : list Z) :
  mockConn_ReadFull n c = (c', Ok b) -> length b = n.
Proof.
  unfold mockConn_ReadFull.
  destruct (n =? 0)%nat eqn:E0.
  - intros [= _ <-]. apply Nat.eqb_eq in E0. now subst.
  - destruct (n <=? _)%nat eqn:E1; intros [= _ <-].
    apply Nat.leb_le in E1.
    rewrite length_take, length_drop. lia.
Qed.

#[export] Instance mockConn_NetConnLaws : NetConnLaws mockConn.
Proof. constructor. exact mockConn_ReadFull_length. Qed.

#[export] Instance resetConn_NetConnLaws : NetConnLaws resetConn.
Proof. constructor. discriminate. Qed.

(** ** The session *)

Section SessionProperties.

Context {C : Type} `{NetConnLaws C}.

(** C9. On a client whose session handle is 0, [SendRRData] and
    [SendUnitData] return the error "session not registered" and leave the
    client, its connection included, as it was: nothing is written. *)
Theorem Send_unregistered (c : Client C) (interfaceHandle timeout_ : Z)
    (data : list Z) :
  sessionHandle c = 0 ->
  SendRRData interfaceHandle timeout_ data c
  = (c, Err (errors_New "session not registered"))
  /\ SendUnitData interfaceHandle timeout_ data c
     = (c, Err (errors_New "session not registered")).
Proof.
  intros Hh. unfold SendRRData, SendUnitData, bind, get_sessionHandle, fail.
  rewrite Hh. split; reflexivity.
Qed.

(** A registered client does not talk to the server again. *)
Lemma RegisterSession_registered (c : Client C) :
  sessionHandle c <> 0 -> RegisterSession c = (c, Ok tt).
Proof.
  intros Hh. unfold RegisterSession, bind, get_sessionHandle, ret.
  destruct (Z.eqb_spec (sessionHandle c) 0); [contradiction | reflexivity].
Qed.

(** A successful registration from the unregistered state, step by step. *)
Lemma RegisterSession_success (c c' : Client C) :
  sessionHandle c = 0 ->
  RegisterSession c = (c', Ok tt) ->
  exists k0 k1 k2 k3 respHeader,
    conn_SetWriteDeadline (timeout c) (conn c) = (k0, None)
    /\ conn_Write register_request k0 = (k1, None)
    /\ conn_SetReadDeadline (timeout c) k1 = (k2, None)
    /\ io_ReadFull 28 k2 = (k3, Ok respHeader)
    /\ LittleEndian.Uint16 (slice 0 2 respHeader) = EIPCommandRegisterSession
    /\ LittleEndian.Uint32 (slice 8 12 respHeader) = 0
    /\ LittleEndian.Uint16 (slice 2 4 respHeader) = 4
    /\ c' = {| conn := k3;
               sessionHandle := LittleEndian.Uint32 (slice 4 8 respHeader);
               timeout := timeout c |}.
Proof.
  intros Hh. unfold RegisterSession, bind at 1. unfold get_sessionHandle.
  rewrite Hh. cbn [Z.eqb negb].
  change (LittleEndian.PutUint16 26 0 _) with register_request.
  unfold bind, SetWriteDeadline, SetReadDeadline, ReadFull, on_conn, bind,
    get_timeout, set_sessionHandle, ret, fail.
  cbn [conn sessionHandle timeout].
  destruct (conn_SetWriteDeadline (timeout c) (conn c)) as [k0 [e0 |]] eqn:E0;
    [discriminate |].
  cbn [conn sessionHandle timeout].
  destruct (conn_Write register_request k0) as [k1 [e1 |]] eqn:E1;
    [discriminate |].
  cbn [conn sessionHandle timeout].
  destruct (conn_SetReadDeadline (timeout c) k1) as [k2 [e2 |]] eqn:E2;
    [discriminate |].
  cbn [conn sessionHandle timeout].
  destruct (io_ReadFull 28 k2) as [k3 [respHeader | e3 | p3]] eqn:E3;
    [| discriminate | discriminate].
  destruct (Z.eqb_spec (LittleEndian.Uint16 (slice 0 2 respHeader))
                       EIPCommandRegisterSession) as [Ecmd | _];
    cbn [negb]; [| discriminate].
  destruct (Z.eqb_spec (LittleEndian.Uint32 (slice 8 12 respHeader)) 0)
    as [Est | _]; cbn [negb]; [| discriminate].
  destruct (Z.eqb_spec (LittleEndian.Uint16 (slice 2 4 respHeader)) 4)
    as [Elen | _]; cbn [negb]; [| discriminate].
  cbn [conn sessionHandle timeout].
  intros [= <-].
  exists k0, k1, k2, k3, respHeader. repeat split; assumption.
Qed.

(** C5 (amended). After [RegisterSession] succeeds from the unregistered
    state, the client's session handle is the u32 at bytes 4..8 of the
    28-byte response it read (whatever that value is: the code does not
    check it against zero); a [RegisterSession] call on a client whose
    handle is non-zero is a no-op success that leaves the client
    unchanged. *)
Theorem RegisterSession_handle (c c' : Client C) :
  (sessionHandle c = 0 ->
   RegisterSession c = (c', Ok tt) ->
   exists k k' respHeader,
     io_ReadFull 28 k = (k', Ok respHeader)
     /\ length respHeader = 28%nat
     /\ conn c' = k'
     /\ sessionHandle c' = LittleEndian.Uint32 (slice 4 8 respHeader))
  /\ (sessionHandle c <> 0 -> RegisterSession c = (c, Ok tt)).
Proof.
  split.
  - intros Hh Hok.
    destruct (RegisterSession_success c c' Hh Hok)
      as (k0 & k1 & k2 & k3 & respHeader & _ & _ & _ & Hread & _ & _ & _ & ->).
    exists k2, k3, respHeader. repeat split; [assumption |].
    eapply io_ReadFull_length. eassumption.
  - apply RegisterSession_registered.
Qed.

End SessionProperties.

Lemma Send_unregistered_witness :
  sessionHandle (mock_client [] 0) = 0
  /\ SendRRData 0 10 [84; 69; 83; 84] (mock_client [] 0)
     = (mock_client [] 0, Err (errors_New "session not registered"))
  /\ writeData (conn (fst (SendUnitData 0 10 [84; 69; 83; 84] (mock_client [] 0))))
     = [].
Proof.
  assert (Hh : sessionHandle (mock_client [] 0) = 0) by reflexivity.
  split; [exact Hh |].
  destruct (Send_unregistered (mock_client [] 0) 0 10 [84; 69; 83; 84] Hh)
    as [Hrr Hunit].
  split; [exact Hrr |]. rewrite Hunit. reflexivity.
Defined.

(** Scenario S7: the handshake against the mock server leaves the client
    with session handle 1. *)
Lemma RegisterSession_handle_witness :
  sessionHandle (mock_client (register_response 1) 0) = 0
  /\ RegisterSession (mock_client (register_response 1) 0)
     = (fst (RegisterSession (mock_client (register_response 1) 0)), Ok tt)
  /\ sessionHandle (fst (RegisterSession (mock_client (register_response 1) 0))) = 1
  /\ writeData (conn (fst (RegisterSession (mock_client (register_response 1) 0))))
     = register_request.
Proof.
  assert (Hh : sessionHandle (mock_client (register_response 1) 0) = 0)
    by reflexivity.
  assert (Hok : RegisterSession (mock_client (register_response 1) 0)
                = (fst (RegisterSession (mock_client (register_response 1) 0)), Ok tt))
    by reflexivity.
  split; [exact Hh |]. split; [exact Hok |].
  destruct (RegisterSession_handle
              (mock_client (register_response 1) 0)
              (fst (RegisterSession (mock_client (register_response 1) 0))))
    as [Hreg _].
  destruct (Hreg Hh Hok) as (k & k' & respHeader & _ & _ & _ & _).
  split; reflexivity.
Defined.

(** A server that answers Register Session with status 0 and session
    handle 0: the call succeeds and the client's handle is 0. *)
Lemma RegisterSession_zero_handle :
  sessionHandle (mock_client (register_response 0) 0) = 0
  /\ snd (RegisterSession (mock_client (register_response 0) 0)) = Ok tt
  /\ LittleEndian.Uint32 (slice 4 8 (register_response 0)) = 0
  /\ sessionHandle (fst (RegisterSession (mock_client (register_response 0) 0))) = 0.
Proof. repeat split. Qed.

(** ** Closing *)

(** On a connection whose calls succeed, [Close] closes the socket and
    leaves the handle at zero, from every state, and so does a second
    [Close]. *)
Lemma Close_mockConn (c : Client mockConn) :
  snd (Close c) = Ok tt
  /\ closed (conn (fst (Close c))) = true
  /\ sessionHandle (fst (Close c)) = 0
  /\ snd (Close (fst (Close c))) = Ok tt.
Proof.
  unfold Close, unregisterSession, bind, get_sessionHandle.
  destruct (sessionHandle c =? 0) eqn:E; cbn; rewrite ?E; cbn.
  - apply Z.eqb_eq in E. rewrite E. repeat split; reflexivity.
  - repeat split; reflexivity.
Qed.

(** C4. A registered client whose Unregister write fails: [Close] returns
    the write error, and the socket is still open and the session handle
    still 1 afterwards. *)
Theorem Close_failed_unregister_leaves_socket_open :
  sessionHandle reset_client = 1
  /\ Close reset_client
     = (reset_client,
        Err (Errorf_w "failed to send unregister session request: %w"
                      (errors_New "write: broken pipe")))
  /\ reset_closed (conn (fst (Close reset_client))) = false
  /\ sessionHandle (fst (Close reset_client)) = 1.
Proof. repeat split. Qed.

(** * Further properties of the package *)

(** ** Codec: widths, ranges and the inverse round trip *)

Lemma signed_range (w x : Z) :
  0 < w -> - 2 ^ (w - 1) <= Go.signed w x < 2 ^ (w - 1).
Proof.
  intros Hw. unfold Go.signed.
  assert (E : 2 ^ w = 2 * 2 ^ (w - 1)).
  { replace w with (Z.succ (w - 1)) at 1 by lia. apply Z.pow_succ_r. lia. }
  pose proof (Z.mod_pos_bound x (2 ^ w) ltac:(lia)) as Hm.
  destruct (Z.ltb_spec (x mod 2 ^ w) (2 ^ (w - 1))); lia.
Qed.

Lemma uint16_int16 (u : Z) : Go.is_uint16 u -> Go.uint16 (Go.int16 u) = u.
Proof.
  unfold Go.is_uint16, Go.uint16, Go.int16, Go.signed. intros Hu.
  change (2 ^ 16) with 65536 in *. change (2 ^ (16 - 1)) with 32768.
  destruct (Z.ltb_spec (u mod 65536) 32768); zdm.
Qed.

Lemma uint32_int32 (u : Z) : Go.is_uint32 u -> Go.uint32 (Go.int32 u) = u.
Proof.
  unfold Go.is_uint32, Go.uint32, Go.int32, Go.signed. intros Hu.
  change (2 ^ 32) with 4294967296 in *. change (2 ^ (32 - 1)) with 2147483648.
  destruct (Z.ltb_spec (u mod 4294967296) 2147483648); zdm.
Qed.

(** Storing the word two in-range bytes spell gives the bytes back. *)
Lemma le16_bytes (b0 b1 : Z) :
  0 <= b0 < 256 -> 0 <= b1 < 256 -> le16 (b0 + b1 * 2 ^ 8) = [b0; b1].
Proof.
  intros H0 H1. unfold le16, Go.byte. rewrite Z.shiftr_div_pow2 by lia.
  change (2 ^ 8) with 256. repeat f_equal; zdm.
Qed.

Lemma le32_bytes (b0 b1 b2 b3 : Z) :
  0 <= b0 < 256 -> 0 <= b1 < 256 -> 0 <= b2 < 256 -> 0 <= b3 < 256 ->
  le32 (b0 + b1 * 2 ^ 8 + b2 * 2 ^ 16 + b3 * 2 ^ 24) = [b0; b1; b2; b3].
Proof.
  intros H0 H1 H2 H3. unfold le32, Go.byte. rewrite !Z.shiftr_div_pow2 by lia.
  change (2 ^ 8) with 256. change (2 ^ 16) with 65536.
  change (2 ^ 24) with 16777216. repeat f_equal; zdm.
Qed.

Lemma word16_range (b0 b1 : Z) :
  0 <= b0 < 256 -> 0 <= b1 < 256 -> Go.is_uint16 (b0 + b1 * 2 ^ 8).
Proof. unfold Go.is_uint16. lia. Qed.

Lemma word32_range (b0 b1 b2 b3 : Z) :
  0 <= b0 < 256 -> 0 <= b1 < 256 -> 0 <= b2 < 256 -> 0 <= b3 < 256 ->
  Go.is_uint32 (b0 + b1 * 2 ^ 8 + b2 * 2 ^ 16 + b3 * 2 ^ 24).
Proof. unfold Go.is_uint32. lia. Qed.

(** X1. The integer decoders check the length first and read only the
    leading bytes: [DecodeInt16] fails on fewer than 2 bytes and
    [DecodeInt32] on fewer than 4; on longer input they succeed with the
    value of the leading 2 (4) bytes, which always lies in the range of
    [int16] ([int32]). *)
Theorem Decode_int_length_and_range (data : list Z) :
  ((length data < 2)%nat ->
   DecodeInt16 data = Err (errors_New "not enough data to decode int16"))
  /\ ((2 <= length data)%nat ->
      exists v, DecodeInt16 data = Ok v /\ DecodeInt16 (take 2 data) = Ok v
                /\ Go.is_int16 v)
  /\ ((length data < 4)%nat ->
      DecodeInt32 data = Err (errors_New "not enough data to decode int32"))
  /\ ((4 <= length data)%nat ->
      exists v, DecodeInt32 data = Ok v /\ DecodeInt32 (take 4 data) = Ok v
                /\ Go.is_int32 v).
Proof.
  unfold DecodeInt16, DecodeInt32. split; [| split; [| split]].
  - intros Hl. destruct (Nat.ltb_spec (length data) 2); [reflexivity | lia].
  - intros Hl. destruct data as [| b0 [| b1 rest]]; cbn in Hl; try lia.
    eexists. split; [reflexivity |]. split; [reflexivity |].
    apply (signed_range 16). lia.
  - intros Hl. destruct (Nat.ltb_spec (length data) 4); [reflexivity | lia].
  - intros Hl.
    destruct data as [| b0 [| b1 [| b2 [| b3 rest]]]]; cbn in Hl; try lia.
    eexists. split; [reflexivity |]. split; [reflexivity |].
    apply (signed_range 32). lia.
Qed.

Lemma Decode_int_length_and_range_witness :
  (4 <= length [0xFE; 0xFF; 0xFF; 0xFF; 9])%nat
  /\ DecodeInt32 [0xFE; 0xFF; 0xFF; 0xFF; 9] = Ok (-2)
  /\ DecodeInt16 [7] = Err (errors_New "not enough data to decode int16").
Proof.
  assert (Hl : (4 <= length [0xFE; 0xFF; 0xFF; 0xFF; 9])%nat) by (cbn; lia).
  split; [exact Hl |].
  destruct (Decode_int_length_and_range [0xFE; 0xFF; 0xFF; 0xFF; 9])
    as (_ & _ & _ & H32).
  destruct (Decode_int_length_and_range [7]) as (H16 & _).
  destruct (H32 Hl) as (v & Hv & _).
  split; [| apply H16; cbn; lia].
  rewrite Hv. symmetry in Hv. inversion Hv. reflexivity.
Defined.

(** X2. Encoding what was decoded gives the wire bytes back: for in-range
    bytes, [EncodeInt16] of the decoded value is the 2 bytes decoded and
    [EncodeInt32] of the decoded value is the 4 bytes decoded. *)
Theorem Encode_Decode_int (b0 b1 b2 b3 : Z) (rest : list Z) :
  0 <= b0 < 256 -> 0 <= b1 < 256 -> 0 <= b2 < 256 -> 0 <= b3 < 256 ->
  (exists v, DecodeInt16 (b0 :: b1 :: rest) = Ok v /\ EncodeInt16 v = [b0; b1])
  /\ (exists v, DecodeInt32 (b0 :: b1 :: b2 :: b3 :: rest) = Ok v
                /\ EncodeInt32 v = [b0; b1; b2; b3]).
Proof.
  intros H0 H1 H2 H3. split.
  - eexists. split; [reflexivity |].
    unfold EncodeInt16. rewrite PutUint16_make, Uint16_bytes by assumption.
    rewrite uint16_int16 by (apply word16_range; assumption).
    now apply le16_bytes.
  - eexists. split; [reflexivity |].
    unfold EncodeInt32. rewrite PutUint32_make, Uint32_bytes by assumption.
    rewrite uint32_int32 by (apply word32_range; assumption).
    now apply le32_bytes.
Qed.

Lemma Encode_Decode_int_witness :
  (0 <= 0x2A < 256)
  /\ exists v, DecodeInt32 [0x2A; 0xFF; 0; 0x80] = Ok v
               /\ EncodeInt32 v = [0x2A; 0xFF; 0; 0x80].
Proof.
  assert (Ha : 0 <= 0x2A < 256) by lia.
  assert (Hb : 0 <= 0xFF < 256) by lia.
  assert (Hc : 0 <= 0 < 256) by lia.
  assert (Hd : 0 <= 0x80 < 256) by lia.
  split; [exact Ha |].
  exact (proj2 (Encode_Decode_int 0x2A 0xFF 0 0x80 [] Ha Hb Hc Hd)).
Defined.

(** A 32-bit word is its sign bit, exponent field and fraction field. *)
Lemma bits_split (bits : Z) :
  Go.is_uint32 bits ->
  exists (s : bool) (ef frac : Z),
    0 <= ef < 256 /\ 0 <= frac < 2 ^ 23
    /\ bits = Float32.sign_bit s * 2 ^ 31 + ef * 2 ^ 23 + frac.
Proof.
  unfold Go.is_uint32. intros Hb.
  change (2 ^ 32) with 4294967296 in Hb.
  change (2 ^ 23) with 8388608. change (2 ^ 31) with 2147483648.
  exists (2147483648 <=? bits), ((bits / 8388608) mod 256), (bits mod 8388608).
  split; [zdm |]. split; [zdm |].
  destruct (Z.leb_spec 2147483648 bits); cbn [Float32.sign_bit]; zdm.
Qed.

Lemma digits2_pos_small (m : positive) (n : Z) :
  0 <= n -> Z.pos m < 2 ^ n -> Z.pos (digits2_pos m) <= n.
Proof.
  intros Hn Hm. pose proof (digits2_pos_bounds m) as [Hlo _].
  destruct (Z.le_gt_cases (Z.pos (digits2_pos m)) n) as [Hle | Hgt]; [exact Hle |].
  exfalso.
  assert (2 ^ n <= 2 ^ (Z.pos (digits2_pos m) - 1)) by (apply Z.pow_le_mono_r; lia).
  lia.
Qed.

Lemma digits2_pos_large (m : positive) (n : Z) :
  0 <= n -> 2 ^ n <= Z.pos m -> n < Z.pos (digits2_pos m).
Proof.
  intros Hn Hm. pose proof (digits2_pos_bounds m) as [_ Hhi].
  destruct (Z.lt_ge_cases n (Z.pos (digits2_pos m))) as [Hlt | Hge]; [exact Hlt |].
  exfalso.
  assert (2 ^ Z.pos (digits2_pos m) <= 2 ^ n) by (apply Z.pow_le_mono_r; lia).
  lia.
Qed.

Lemma bounded_subnormal (m : positive) :
  Z.pos m < 2 ^ 23 -> bounded Float32.prec Float32.emax m (-149) = true.
Proof.
  intros Hm. pose proof (digits2_pos_small m 23 ltac:(lia) Hm).
  unfold bounded, canonical_mantissa, fexp, emin, Float32.prec, Float32.emax.
  apply andb_true_iff. split; [apply Z.eqb_eq | apply Z.leb_le]; lia.
Qed.

Lemma bounded_normal (m : positive) (e : Z) :
  2 ^ 23 <= Z.pos m < 2 ^ 24 -> -149 <= e <= 104 ->
  bounded Float32.prec Float32.emax m e = true.
Proof.
  intros [Hlo Hhi] He.
  pose proof (digits2_pos_small m 24 ltac:(lia) Hhi).
  pose proof (digits2_pos_large m 23 ltac:(lia) Hlo).
  unfold bounded, canonical_mantissa, fexp, emin, Float32.prec, Float32.emax.
  apply andb_true_iff. split; [apply Z.eqb_eq | apply Z.leb_le]; lia.
Qed.

(** Every 32-bit word is the bit pattern of exactly the datum
    [Float32frombits] gives for it. *)
Lemma Float32bits_Float32frombits (bits : Z) :
  Go.is_uint32 bits ->
  Float32.valid (Float32.Float32frombits bits) = true
  /\ Float32.Float32bits (Float32.Float32frombits bits) = bits.
Proof.
  intros Hb. destruct (bits_split bits Hb) as (s & ef & frac & Hef & Hfrac & ->).
  rewrite Float32frombits_fields by assumption.
  destruct (Z.eqb_spec ef 0) as [-> | Hnz].
  - destruct frac as [| m | m]; cbn [Float32.valid Float32.Float32bits]; [| | lia].
    + split; [reflexivity | lia].
    + split; [now apply bounded_subnormal |].
      destruct (Z.ltb_spec (Z.pos m) (2 ^ 23)); lia.
  - destruct (Z.eqb_spec ef 255) as [-> | Hn255].
    + destruct frac as [| pl | pl]; cbn [Float32.valid Float32.Float32bits];
        [| | lia].
      * split; [reflexivity | lia].
      * split; [apply Z.ltb_lt; lia | lia].
    + destruct (frac + 2 ^ 23) as [| m | m] eqn:Em; [lia | | lia].
      cbn [Float32.valid Float32.Float32bits].
      split; [apply bounded_normal; lia |].
      destruct (Z.ltb_spec (Z.pos m) (2 ^ 23)); lia.
Qed.

(** X3. The REAL codec is a bijection between 4 wire bytes and binary32
    data: [DecodeFloat32] of four in-range bytes is a binary32 datum, and
    [EncodeFloat32] of it is those four bytes (no NaN payload or sign of
    zero is lost). *)
Theorem Encode_Decode_float32 (b0 b1 b2 b3 : Z) (rest : list Z) :
  0 <= b0 < 256 -> 0 <= b1 < 256 -> 0 <= b2 < 256 -> 0 <= b3 < 256 ->
  exists f, DecodeFloat32 (b0 :: b1 :: b2 :: b3 :: rest) = Ok f
            /\ Float32.valid f = true
            /\ EncodeFloat32 f = [b0; b1; b2; b3].
Proof.
  intros H0 H1 H2 H3. eexists. split; [reflexivity |].
  rewrite Uint32_bytes by assumption.
  pose proof (word32_range b0 b1 b2 b3 H0 H1 H2 H3) as Hw.
  destruct (Float32bits_Float32frombits _ Hw) as [Hv Hbits].
  split; [exact Hv |].
  unfold EncodeFloat32. rewrite Hbits, PutUint32_make.
  now apply le32_bytes.
Qed.

Lemma Encode_Decode_float32_witness :
  (0 <= 0x01 < 256)
  /\ exists f, DecodeFloat32 [0x01; 0x00; 0xC0; 0x7F] = Ok f
               /\ Float32.valid f = true
               /\ EncodeFloat32 f = [0x01; 0x00; 0xC0; 0x7F].
Proof.
  assert (Ha : 0 <= 0x01 < 256) by lia.
  assert (Hb : 0 <= 0x00 < 256) by lia.
  assert (Hc : 0 <= 0xC0 < 256) by lia.
  assert (Hd : 0 <= 0x7F < 256) by lia.
  split; [exact Ha |].
  exact (Encode_Decode_float32 0x01 0x00 0xC0 0x7F [] Ha Hb Hc Hd).
Defined.

(** ** Request builders: layout for every tag name *)

(** [copy(dst[len(pre):], src)] over a region of the size of [src]. *)
Lemma copy_app (pre src zs post : list Z) :
  length zs = length src ->
  Go.copy (length pre) src (pre ++ zs ++ post) = pre ++ src ++ post.
Proof.
  intros Hl. unfold Go.copy.
  rewrite !length_app.
  replace (Nat.min (length pre + (length zs + length post) - length pre)
                   (length src)) with (length src) by lia.
  rewrite take_app_length, (take_ge src) by lia.
  rewrite (app_assoc pre zs post).
  rewrite drop_app_length' by (rewrite length_app; lia).
  reflexivity.
Qed.

Lemma make_add (n m : nat) : Go.make (n + m) = Go.make n ++ Go.make m.
Proof. apply replicate_add. Qed.

Lemma PutUint16_app (pre post : list Z) (x y v : Z) :
  LittleEndian.PutUint16 (length pre) v (pre ++ x :: y :: post)
  = pre ++ le16 v ++ post.
Proof.
  unfold LittleEndian.PutUint16, le16.
  rewrite (insert_app_r_alt pre _ (length pre)) by lia.
  rewrite Nat.sub_diag. cbn [insert list_insert].
  rewrite (insert_app_r_alt pre _ (S (length pre))) by lia.
  replace (S (length pre) - length pre)%nat with 1%nat by lia.
  reflexivity.
Qed.

(** The bytes of a Read Tag request. *)
Lemma BuildCIPReadRequest_bytes (tagName : string) (elements : Z) :
  BuildCIPReadRequest tagName elements
  = [CIPServiceReadTag;
     Go.byte ((Z.of_nat (length (BuildCIPPath tagName)) + 1) / 2)]
      ++ BuildCIPPath tagName ++ le16 elements
  /\ length (BuildCIPReadRequest tagName elements)
     = (4 + length (BuildCIPPath tagName))%nat.
Proof.
  unfold BuildCIPReadRequest. cbv zeta.
  set (path := BuildCIPPath tagName).
  set (ps := Go.byte ((Z.of_nat (length path) + 1) / 2)).
  assert (E : Go.copy 2 path
                (<[1%nat := ps]> (<[0%nat := CIPServiceReadTag]>
                                    (Go.make (4 + length path))))
              = [CIPServiceReadTag; ps] ++ path ++ [0; 0]).
  { replace (4 + length path)%nat with (2 + (length path + 2))%nat by lia.
    rewrite (make_add 2), make_add. cbn [Go.make replicate app insert list_insert].
    apply (copy_app [CIPServiceReadTag; ps] path (replicate (length path) 0) [0; 0]).
    apply length_replicate. }
  rewrite E.
  replace (length ([CIPServiceReadTag; ps] ++ path ++ [0%Z; 0%Z]) - 2)%nat
    with (length ([CIPServiceReadTag; ps] ++ path))
    by (rewrite !length_app; cbn [length]; lia).
  rewrite (app_assoc [CIPServiceReadTag; ps] path).
  rewrite (PutUint16_app _ [] 0 0 elements).
  rewrite app_nil_r, <- app_assoc.
  split; [reflexivity |].
  rewrite !length_app. cbn [length le16]. lia.
Qed.

(** X4. Layout of a Read Tag request, for every tag name and element
    count: service 0x4C, the path-size byte [(len(path)+1)/2 mod 256], the
    path of [BuildCIPPath], then the element count as two little-endian
    bytes; its length is [4 + len(path)]. *)
Theorem BuildCIPReadRequest_layout (tagName : string) (elements : Z) :
  BuildCIPReadRequest tagName elements
  = [CIPServiceReadTag;
     Go.byte ((Z.of_nat (length (BuildCIPPath tagName)) + 1) / 2)]
      ++ BuildCIPPath tagName ++ le16 elements
  /\ length (BuildCIPReadRequest tagName elements)
     = (4 + length (BuildCIPPath tagName))%nat.
Proof. exact (BuildCIPReadRequest_bytes tagName elements). Qed.

(** X5. Layout of a Write Tag request, for every tag name, type code and
    value bytes: service 0x4D, the path-size byte, the path, the type
    code, the element count 1, then the value bytes unchanged. *)
Theorem BuildCIPWriteRequest_layout (tagName : string) (dataType : Z)
    (data : list Z) :
  BuildCIPWriteRequest tagName dataType data
  = [CIPServiceWriteTag;
     Go.byte ((Z.of_nat (length (BuildCIPPath tagName)) + 1) / 2)]
      ++ BuildCIPPath tagName ++ [dataType; 1] ++ data.
Proof.
  unfold BuildCIPWriteRequest. cbv zeta.
  set (path := BuildCIPPath tagName).
  set (ps := Go.byte ((Z.of_nat (length path) + 1) / 2)).
  assert (E : Go.copy 2 path
                (<[1%nat := ps]> (<[0%nat := CIPServiceWriteTag]>
                                    (Go.make (4 + length path + length data))))
              = [CIPServiceWriteTag; ps] ++ path ++ 0 :: 0 :: Go.make (length data)).
  { replace (4 + length path + length data)%nat
      with (2 + (length path + (2 + length data)))%nat by lia.
    rewrite (make_add 2), (make_add (length path)), (make_add 2 (length data)).
    cbn [Go.make replicate app insert list_insert].
    apply (copy_app [CIPServiceWriteTag; ps] path (replicate (length path) 0)).
    apply length_replicate. }
  rewrite E. clear E.
  replace (2 + length path)%nat with (length ([CIPServiceWriteTag; ps] ++ path))
    by (rewrite length_app; cbn [length]; lia).
  replace (3 + length path)%nat with (S (length ([CIPServiceWriteTag; ps] ++ path)))
    by (rewrite length_app; cbn [length]; lia).
  rewrite (app_assoc [CIPServiceWriteTag; ps] path).
  set (pre := [CIPServiceWriteTag; ps] ++ path).
  rewrite (insert_app_r_alt pre _ (length pre)) by lia.
  rewrite Nat.sub_diag. cbn [insert list_insert].
  rewrite (insert_app_r_alt pre _ (S (length pre))) by lia.
  replace (S (length pre) - length pre)%nat with 1%nat by lia.
  cbn [insert list_insert].
  replace (4 + length path)%nat with (length (pre ++ [dataType; 1]))
    by (subst pre; rewrite !length_app; cbn [length]; lia).
  replace (pre ++ dataType :: 1 :: Go.make (length data))
    with ((pre ++ [dataType; 1]) ++ Go.make (length data) ++ [])
    by (rewrite app_nil_r, <- app_assoc; reflexivity).
  rewrite copy_app by apply length_replicate.
  subst pre. rewrite app_nil_r, <- !app_assoc. reflexivity.
Qed.

(** X6. Framing of a Read Tag request for a non-empty name of at most
    255 bytes and a 16-bit element count: the path-size byte is the length
    of the path in 16-bit words (twice it is the path length in bytes),
    and the two last bytes of the request decode to the element count. *)
Theorem BuildCIPReadRequest_framing (tagName : string) (elements : Z) :
  tagName <> EmptyString -> (Go.len tagName <= 255)%nat ->
  Go.is_uint16 elements ->
  exists ps,
    BuildCIPReadRequest tagName elements !! 1%nat = Some ps
    /\ 2 * ps = Z.of_nat (length (BuildCIPPath tagName))
    /\ LittleEndian.Uint16
         (drop (length (BuildCIPReadRequest tagName elements) - 2)
               (BuildCIPReadRequest tagName elements))
       = elements.
Proof.
  intros Hs Hshort He.
  destruct (BuildCIPReadRequest_bytes tagName elements) as [Hlay Hlen].
  pose proof (length_BuildCIPPath tagName Hs) as Hp.
  pose proof (Nat.div_mod_eq (Go.len tagName) 2) as Hdm.
  pose proof (Nat.mod_upper_bound (Go.len tagName) 2 ltac:(lia)) as Hm.
  set (w := (1 + Go.len tagName / 2 + Go.len tagName mod 2)%nat).
  assert (Hw : length (BuildCIPPath tagName) = (2 * w)%nat) by (subst w; lia).
  exists (Z.of_nat w).
  rewrite Hlen, Hlay.
  split; [| split].
  - cbn [app lookup list_lookup]. f_equal. rewrite Hw.
    unfold Go.byte. change (2 ^ 8) with 256.
    replace ((Z.of_nat (2 * w) + 1) / 2) with (Z.of_nat w) by zdm.
    apply Z.mod_small. subst w. lia.
  - lia.
  - replace (4 + length (BuildCIPPath tagName) - 2)%nat
      with (length ([CIPServiceReadTag;
                     Go.byte ((Z.of_nat (length (BuildCIPPath tagName)) + 1) / 2)]
                      ++ BuildCIPPath tagName))
      by (rewrite length_app; cbn [length]; lia).
    rewrite app_assoc, drop_app_length.
    unfold le16. rewrite Uint16_bytes by apply byte_range.
    unfold Go.is_uint16 in He. unfold Go.byte.
    rewrite Z.shiftr_div_pow2 by lia.
    change (2 ^ 8) with 256. change (2 ^ 16) with 65536 in He. zdm.
Qed.

Lemma BuildCIPReadRequest_framing_witness :
  "Tag1"%string <> EmptyString /\ (Go.len "Tag1" <= 255)%nat /\ Go.is_uint16 3
  /\ exists ps,
       BuildCIPReadRequest "Tag1" 3 !! 1%nat = Some ps
       /\ 2 * ps = Z.of_nat (length (BuildCIPPath "Tag1"))
       /\ LittleEndian.Uint16
            (drop (length (BuildCIPReadRequest "Tag1" 3) - 2)
                  (BuildCIPReadRequest "Tag1" 3))
          = 3.
Proof.
  assert (Hs : "Tag1"%string <> EmptyString) by discriminate.
  assert (Hl : (Go.len "Tag1" <= 255)%nat) by (cbn; lia).
  assert (He : Go.is_uint16 3) by (unfold Go.is_uint16; lia).
  split; [exact Hs |]. split; [exact Hl |]. split; [exact He |].
  exact (BuildCIPReadRequest_framing "Tag1" 3 Hs Hl He).
Defined.

(** ** Response parsers: every outcome *)

(** X7. The outcomes of [ParseCIPResponse]: it succeeds exactly on the
    buffers of at least 2 bytes with the reply bit set and status 0, and
    then returns the bytes after the first two; with the reply bit set and
    a non-zero status it returns the [CIPError] carrying that status and
    its table description, whatever follows; it never panics. *)
Theorem ParseCIPResponse_outcome (response : list Z) :
  (forall data,
      ParseCIPResponse response = Ok data
      <-> ((2 <= length response)%nat
           /\ Z.land (response !!! 0%nat) 0x80 <> 0
           /\ response !!! 1%nat = 0
           /\ data = drop 2 response))
  /\ ((2 <= length response)%nat ->
      Z.land (response !!! 0%nat) 0x80 <> 0 ->
      response !!! 1%nat <> 0 ->
      ParseCIPResponse response
      = Err (CIPError (response !!! 1%nat) (status_msg (response !!! 1%nat))))
  /\ (forall reason, ParseCIPResponse response <> Panic reason).
Proof.
  unfold ParseCIPResponse, CIPStatusToError.
  destruct (Nat.ltb_spec (length response) 2) as [Hl | Hl].
  { split; [| split].
    - intros data. split; [discriminate | intros (? & _); lia].
    - intros; lia.
    - discriminate. }
  destruct (Z.eqb_spec (Z.land (response !!! 0%nat) 0x80) 0) as [Hb | Hb].
  { split; [| split].
    - intros data. split; [discriminate | intros (_ & ? & _); contradiction].
    - intros; contradiction.
    - discriminate. }
  destruct (Z.eqb_spec (response !!! 1%nat) 0) as [Hs | Hs].
  - split; [| split].
    + intros data. split.
      * destruct (Nat.leb_spec (length response) 2); intros [= <-];
          repeat split; try assumption.
        symmetry. apply drop_ge. lia.
      * intros (_ & _ & _ & ->).
        destruct (Nat.leb_spec (length response) 2); [| reflexivity].
        rewrite drop_ge by lia. reflexivity.
    + intros; contradiction.
    + destruct (length response <=? 2)%nat; discriminate.
  - split; [| split].
    + intros data. split; [discriminate | intros (_ & _ & ? & _); contradiction].
    + reflexivity.
    + discriminate.
Qed.

Lemma ParseCIPResponse_outcome_witness :
  (2 <= length [0xCD; 0x04; 0x00])%nat
  /\ ParseCIPResponse [0xCD; 0x04; 0x00] = Err (CIPError 0x04 "Path segment error").
Proof.
  assert (Hl : (2 <= length [0xCD; 0x04; 0x00])%nat) by (cbn; lia).
  split; [exact Hl |].
  destruct (ParseCIPResponse_outcome [0xCD; 0x04; 0x00]) as (_ & Herr & _).
  apply Herr; [exact Hl | discriminate | discriminate].
Defined.

(** X8. The type check of a typed read: [ParseCIPReadResponse] succeeds
    only if the generic parser succeeded with at least 2 data bytes whose
    first is the declared type code; when the first data byte differs it
    returns the mismatch error naming the declared and the received code;
    an error of the generic parser is returned as it is. *)
Theorem ParseCIPReadResponse_type_check (response : list Z) (dataType : Z) :
  (forall v, ParseCIPReadResponse response dataType = Ok v ->
             exists data, ParseCIPResponse response = Ok data
                          /\ (2 <= length data)%nat
                          /\ data !!! 0%nat = dataType)
  /\ (forall data, ParseCIPResponse response = Ok data ->
                   (2 <= length data)%nat ->
                   data !!! 0%nat <> dataType ->
                   ParseCIPReadResponse response dataType
                   = Err (Errorf_x2 "data type mismatch: expected %#x, got %#x"
                                    dataType (data !!! 0%nat)))
  /\ (forall data, ParseCIPResponse response = Ok data ->
                   (length data < 2)%nat ->
                   ParseCIPReadResponse response dataType
                   = Err (errors_New "response data too short"))
  /\ (forall e, ParseCIPResponse response = Err e ->
                ParseCIPReadResponse response dataType = Err e).
Proof.
  unfold ParseCIPReadResponse.
  destruct (ParseCIPResponse response) as [data | e | p].
  - destruct (Nat.ltb_spec (length data) 2) as [Hl | Hl].
    + split; [discriminate |]. split; [intros d [= <-]; lia |].
      split; [reflexivity | discriminate].
    + destruct (Z.eqb_spec (data !!! 0%nat) dataType) as [Ht | Ht]; cbn [negb].
      * split; [intros v _; exists data; auto |].
        split; [intros d [= <-] _ Hne; contradiction |].
        split; [intros d [= <-]; lia | discriminate].
      * split; [discriminate |].
        split; [intros d [= <-] _ _; reflexivity |].
        split; [intros d [= <-]; lia | discriminate].
  - split; [discriminate |]. split; [discriminate |]. split; [discriminate |].
    intros e' [= <-]. reflexivity.
  - repeat split; discriminate.
Qed.

Lemma ParseCIPReadResponse_type_check_witness :
  ParseCIPResponse [0xCC; 0; 0xCA; 1; 0; 0; 0; 0] = Ok [0xCA; 1; 0; 0; 0; 0]
  /\ ParseCIPReadResponse [0xCC; 0; 0xCA; 1; 0; 0; 0; 0] CIPDataTypeDINT
     = Err (Errorf_x2 "data type mismatch: expected %#x, got %#x" 0xC4 0xCA).
Proof.
  assert (Hp : ParseCIPResponse [0xCC; 0; 0xCA; 1; 0; 0; 0; 0]
               = Ok [0xCA; 1; 0; 0; 0; 0]) by reflexivity.
  split; [exact Hp |].
  destruct (ParseCIPReadResponse_type_check [0xCC; 0; 0xCA; 1; 0; 0; 0; 0]
              CIPDataTypeDINT) as (_ & Hmis & _).
  apply (Hmis _ Hp); [cbn; lia | discriminate].
Defined.

Lemma ParseCIPResponse_ok (svc : Z) (tail : list Z) :
  Z.land svc 0x80 <> 0 -> ParseCIPResponse (svc :: 0 :: tail) = Ok tail.
Proof.
  intros Hb. unfold ParseCIPResponse.
  cbn [length Nat.ltb Nat.leb lookup_total list_lookup_total].
  destruct (Z.eqb_spec (Z.land svc 0x80) 0); [contradiction |].
  cbn [CIPStatusToError Z.eqb]. now destruct tail.
Qed.

Lemma Uint16_le16 (v : Z) (rest : list Z) :
  Go.is_uint16 v -> LittleEndian.Uint16 (le16 v ++ rest) = v.
Proof.
  unfold Go.is_uint16, le16. intros Hv. cbn [app].
  rewrite Uint16_bytes by apply byte_range.
  unfold Go.byte. rewrite Z.shiftr_div_pow2 by lia.
  change (2 ^ 8) with 256 in *. change (2 ^ 16) with 65536 in *. zdm.
Qed.

Lemma Uint32_le32 (v : Z) (rest : list Z) :
  Go.is_uint32 v -> LittleEndian.Uint32 (le32 v ++ rest) = v.
Proof.
  unfold Go.is_uint32, le32. intros Hv. cbn [app].
  rewrite Uint32_bytes by apply byte_range.
  unfold Go.byte. rewrite !Z.shiftr_div_pow2 by lia.
  change (2 ^ 8) with 256 in *. change (2 ^ 16) with 65536 in *.
  change (2 ^ 24) with 16777216 in *. change (2 ^ 32) with 4294967296 in *.
  zdm.
Qed.

Lemma int8_byte (v : Z) : - 2 ^ 7 <= v < 2 ^ 7 -> Go.int8 (Go.byte v) = v.
Proof.
  unfold Go.int8, Go.signed, Go.byte. intros Hv.
  rewrite Z.mod_mod by lia.
  change (2 ^ 8) with 256. change (2 ^ (8 - 1)) with 128. change (2 ^ 7) with 128 in Hv.
  destruct (Z.ltb_spec (v mod 256) 128); zdm.
Qed.

(** X9. The dynamic type of the value a typed read returns is fixed by
    the declared type code: a [bool] only for BOOL, an [int8] only for
    SINT, an [int16] only for INT, an [int32] only for DINT, a [float32]
    only for REAL, a [uint32] only for DWORD, a string only for STRING and
    raw bytes only for a code without a case; the signed values lie in the
    range of their type. *)
Theorem ParseCIPReadResponse_value_type (response : list Z) (dataType : Z)
    (v : Value) :
  ParseCIPReadResponse response dataType = Ok v ->
  match v with
  | VBool _ => dataType = CIPDataTypeBOOL
  | VInt8 n => dataType = CIPDataTypeSINT /\ - 2 ^ 7 <= n < 2 ^ 7
  | VInt16 n => dataType = CIPDataTypeINT /\ Go.is_int16 n
  | VInt32 n => dataType = CIPDataTypeDINT /\ Go.is_int32 n
  | VFloat32 _ => dataType = CIPDataTypeREAL
  | VUint32 _ => dataType = CIPDataTypeDWORD
  | VString _ => dataType = CIPDataTypeSTRING
  | VBytes _ => known_data_type dataType = false
  end.
Proof.
  unfold ParseCIPReadResponse, known_data_type.
  destruct (ParseCIPResponse response) as [data | e | p]; [| discriminate ..].
  destruct (length data <? 2)%nat; [discriminate |].
  destruct (negb (data !!! 0%nat =? dataType)); [discriminate |].
  destruct (Z.eqb_spec dataType CIPDataTypeBOOL) as [-> | _].
  { destruct (length data <? 3)%nat; intros [= <-]. reflexivity. }
  destruct (Z.eqb_spec dataType CIPDataTypeSINT) as [-> | _].
  { destruct (length data <? 3)%nat; intros [= <-].
    split; [reflexivity | apply (signed_range 8); lia]. }
  destruct (Z.eqb_spec dataType CIPDataTypeINT) as [-> | _].
  { destruct (length data <? 4)%nat; intros [= <-].
    split; [reflexivity | apply (signed_range 16); lia]. }
  destruct (Z.eqb_spec dataType CIPDataTypeDINT) as [-> | _].
  { destruct (length data <? 6)%nat; intros [= <-].
    split; [reflexivity | apply (signed_range 32); lia]. }
  destruct (Z.eqb_spec dataType CIPDataTypeREAL) as [-> | _].
  { destruct (length data <? 6)%nat; intros [= <-]. reflexivity. }
  destruct (Z.eqb_spec dataType CIPDataTypeDWORD) as [-> | _].
  { destruct (length data <? 6)%nat; intros [= <-]. reflexivity. }
  destruct (Z.eqb_spec dataType CIPDataTypeSTRING) as [-> | _].
  { destruct (length data <? 4)%nat; [discriminate |]. cbv zeta.
    destruct (_ <? _); [discriminate |].
    destruct (_ <? _); intros [= <-]. reflexivity. }
  intros [= <-]. reflexivity.
Qed.

Lemma ParseCIPReadResponse_value_type_witness :
  ParseCIPReadResponse [0xCC; 0; 0xC3; 1; 0xFE; 0xFF] CIPDataTypeINT = Ok (VInt16 (-2))
  /\ Go.is_int16 (-2).
Proof.
  assert (Hp : ParseCIPReadResponse [0xCC; 0; 0xC3; 1; 0xFE; 0xFF] CIPDataTypeINT
               = Ok (VInt16 (-2))) by reflexivity.
  split; [exact Hp |].
  exact (proj2 (ParseCIPReadResponse_value_type _ _ _ Hp)).
Defined.

(** X10. What [WriteTag] puts on the wire for a value, the typed read
    parser reads back as that value: for every declared type other than
    REAL and every in-range value [WriteTag] accepts for it, a successful
    response carrying the type code, a count byte and the bytes
    [WriteTag] produced parses to the value, whatever follows. *)
Theorem WriteTag_data_read_back (dataType : Z) (value : Value)
    (data rest : list Z) (svc cnt : Z) :
  WriteTag_data dataType value = Ok data ->
  dataType <> CIPDataTypeREAL ->
  value_in_range value ->
  Z.land svc 0x80 <> 0 ->
  ParseCIPReadResponse (svc :: 0 :: dataType :: cnt :: data ++ rest) dataType
  = Ok value.
Proof.
  intros Hw Hreal Hrange Hsvc. unfold ParseCIPReadResponse.
  rewrite (ParseCIPResponse_ok svc _ Hsvc).
  cbn [length Nat.ltb Nat.leb lookup_total list_lookup_total].
  rewrite Z.eqb_refl. cbn [negb].
  unfold WriteTag_data in Hw.
  destruct (Z.eqb_spec dataType CIPDataTypeBOOL) as [-> | _].
  { destruct value; try discriminate. injection Hw as <-. now destruct b. }
  destruct (Z.eqb_spec dataType CIPDataTypeSINT) as [-> | _].
  { destruct value; try discriminate. injection Hw as <-.
    cbn [app length Nat.ltb Nat.leb lookup_total list_lookup_total].
    cbn [value_in_range] in Hrange. now rewrite int8_byte. }
  destruct (Z.eqb_spec dataType CIPDataTypeINT) as [-> | _].
  { destruct value; try discriminate. injection Hw as <-.
    rewrite PutUint16_make.
    cbn [app length Nat.ltb Nat.leb slice drop take Nat.sub].
    rewrite take_0.
    change [Go.byte (Go.uint16 n); Go.byte (Z.shiftr (Go.uint16 n) 8)]
      with (le16 (Go.uint16 n) ++ []).
    rewrite Uint16_le16 by apply uint16_range.
    cbn [value_in_range] in Hrange. now rewrite int16_uint16. }
  destruct (Z.eqb_spec dataType CIPDataTypeDINT) as [-> | _].
  { destruct value; try discriminate. injection Hw as <-.
    rewrite PutUint32_make.
    cbn [app length Nat.ltb Nat.leb slice drop take Nat.sub].
    rewrite take_0.
    change [Go.byte (Go.uint32 n); Go.byte (Z.shiftr (Go.uint32 n) 8);
            Go.byte (Z.shiftr (Go.uint32 n) 16); Go.byte (Z.shiftr (Go.uint32 n) 24)]
      with (le32 (Go.uint32 n) ++ []).
    rewrite Uint32_le32 by apply uint32_range.
    cbn [value_in_range] in Hrange. now rewrite int32_uint32. }
  destruct (Z.eqb_spec dataType CIPDataTypeREAL) as [-> | _];
    [contradiction | discriminate].
Qed.

Lemma WriteTag_data_read_back_witness :
  WriteTag_data CIPDataTypeDINT (VInt32 (-5)) = Ok [0xFB; 0xFF; 0xFF; 0xFF]
  /\ ParseCIPReadResponse [0xCC; 0; 0xC4; 1; 0xFB; 0xFF; 0xFF; 0xFF; 9] CIPDataTypeDINT
     = Ok (VInt32 (-5)).
Proof.
  assert (Hw : WriteTag_data CIPDataTypeDINT (VInt32 (-5))
               = Ok [0xFB; 0xFF; 0xFF; 0xFF]) by reflexivity.
  split; [exact Hw |].
  apply (WriteTag_data_read_back CIPDataTypeDINT (VInt32 (-5))
           [0xFB; 0xFF; 0xFF; 0xFF] [9] 0xCC 1 Hw).
  - discriminate.
  - unfold value_in_range, Go.is_int32. lia.
  - discriminate.
Defined.

(** X11. A typed read whose value bytes are fewer than the declared type
    needs fails with the shortage error of that type: fewer than 1 byte
    for BOOL and SINT, than 2 for INT and for the STRING length, than 4
    for DINT, REAL and DWORD. *)
Theorem ParseCIPReadResponse_short_value (svc cnt : Z) (value : list Z) :
  Z.land svc 0x80 <> 0 ->
  ((length value < 1)%nat ->
   ParseCIPReadResponse (svc :: 0 :: CIPDataTypeBOOL :: cnt :: value) CIPDataTypeBOOL
   = Err (errors_New "not enough data for BOOL")
   /\ ParseCIPReadResponse (svc :: 0 :: CIPDataTypeSINT :: cnt :: value) CIPDataTypeSINT
      = Err (errors_New "not enough data for SINT"))
  /\ ((length value < 2)%nat ->
      ParseCIPReadResponse (svc :: 0 :: CIPDataTypeINT :: cnt :: value) CIPDataTypeINT
      = Err (errors_New "not enough data for INT")
      /\ ParseCIPReadResponse (svc :: 0 :: CIPDataTypeSTRING :: cnt :: value)
                              CIPDataTypeSTRING
         = Err (errors_New "not enough data for STRING header"))
  /\ ((length value < 4)%nat ->
      ParseCIPReadResponse (svc :: 0 :: CIPDataTypeDINT :: cnt :: value) CIPDataTypeDINT
      = Err (errors_New "not enough data for DINT")
      /\ ParseCIPReadResponse (svc :: 0 :: CIPDataTypeREAL :: cnt :: value) CIPDataTypeREAL
         = Err (errors_New "not enough data for REAL")
      /\ ParseCIPReadResponse (svc :: 0 :: CIPDataTypeDWORD :: cnt :: value)
                              CIPDataTypeDWORD
         = Err (errors_New "not enough data for DWORD")).
Proof.
  intros Hsvc. unfold ParseCIPReadResponse.
  rewrite !(ParseCIPResponse_ok svc _ Hsvc).
  split; [| split]; intros Hl.
  - destruct value; [| cbn in Hl; lia]. split; reflexivity.
  - destruct value as [| b0 [| b1 value]]; [| | cbn in Hl; lia]; split; reflexivity.
  - destruct value as [| b0 [| b1 [| b2 [| b3 value]]]]; [| | | | cbn in Hl; lia];
      repeat split; reflexivity.
Qed.

Lemma ParseCIPReadResponse_short_value_witness :
  Z.land 0xCC 0x80 <> 0 /\ (length [0x2A; 0; 0] < 4)%nat
  /\ ParseCIPReadResponse [0xCC; 0; 0xC4; 1; 0x2A; 0; 0] CIPDataTypeDINT
     = Err (errors_New "not enough data for DINT").
Proof.
  assert (Hs : Z.land 0xCC 0x80 <> 0) by discriminate.
  assert (Hl : (length [0x2A; 0; 0] < 4)%nat) by (cbn; lia).
  split; [exact Hs |]. split; [exact Hl |].
  destruct (ParseCIPReadResponse_short_value 0xCC 1 [0x2A; 0; 0] Hs) as (_ & _ & H4).
  exact (proj1 (H4 Hl)).
Defined.

(** X12. A typed read of a STRING with length field [n] up to 65531:
    when [n] text bytes follow the length, they are returned, whatever
    comes after them; when fewer than [n] bytes follow, the read fails
    with "string data truncated". *)
Theorem ParseCIPReadResponse_STRING (svc cnt n : Z) (text rest : list Z) :
  Z.land svc 0x80 <> 0 -> 0 <= n <= 65531 ->
  (length text = Z.to_nat n ->
   ParseCIPReadResponse
     (svc :: 0 :: CIPDataTypeSTRING :: cnt :: le16 n ++ text ++ rest)
     CIPDataTypeSTRING
   = Ok (VString text))
  /\ ((length text < Z.to_nat n)%nat ->
      ParseCIPReadResponse
        (svc :: 0 :: CIPDataTypeSTRING :: cnt :: le16 n ++ text) CIPDataTypeSTRING
      = Err (errors_New "string data truncated")).
Proof.
  intros Hsvc Hn.
  assert (Hu : Go.is_uint16 n) by (unfold Go.is_uint16; lia).
  assert (Hhi : Go.uint16 (4 + n) = 4 + n).
  { unfold Go.uint16. apply Z.mod_small. lia. }
  unfold ParseCIPReadResponse. rewrite !(ParseCIPResponse_ok svc _ Hsvc).
  cbn [length app le16 Nat.ltb Nat.leb lookup_total list_lookup_total
       Z.eqb negb Pos.eqb CIPDataTypeSTRING CIPDataTypeBOOL CIPDataTypeSINT
       CIPDataTypeINT CIPDataTypeDINT CIPDataTypeREAL CIPDataTypeDWORD].
  cbv zeta.
  assert (Hs : forall tl, slice 2 4 (208 :: cnt :: Go.byte n :: Go.byte (Z.shiftr n 8) :: tl)
                          = le16 n ++ []) by reflexivity.
  rewrite !Hs, Uint16_le16, Hhi by assumption.
  split; intros Hl.
  - rewrite length_app.
    destruct (Z.ltb_spec (Z.of_nat (S (S (S (S (length text + length rest))))))
                         (4 + n)); [lia |].
    destruct (Z.ltb_spec (4 + n) 4); [lia |].
    unfold slice. cbn [drop].
    replace (Z.to_nat (4 + n) - 4)%nat with (length text) by lia.
    now rewrite drop_0, take_app_length.
  - destruct (Z.ltb_spec (Z.of_nat (S (S (S (S (length text)))))) (4 + n));
      [reflexivity | lia].
Qed.

Lemma ParseCIPReadResponse_STRING_witness :
  Z.land 0xCC 0x80 <> 0 /\ 0 <= 2 <= 65531
  /\ ParseCIPReadResponse [0xCC; 0; 0xD0; 1; 2; 0; 79; 75; 33] CIPDataTypeSTRING
     = Ok (VString [79; 75])
  /\ ParseCIPReadResponse [0xCC; 0; 0xD0; 1; 2; 0; 79] CIPDataTypeSTRING
     = Err (errors_New "string data truncated").
Proof.
  assert (Hs : Z.land 0xCC 0x80 <> 0) by discriminate.
  assert (Hn : 0 <= 2 <= 65531) by lia.
  split; [exact Hs |]. split; [exact Hn |].
  destruct (ParseCIPReadResponse_STRING 0xCC 1 2 [79; 75] [33] Hs Hn) as [Hok _].
  destruct (ParseCIPReadResponse_STRING 0xCC 1 2 [79] [] Hs Hn) as [_ Htr].
  split; [exact (Hok eq_refl) |].
  apply Htr. cbn. lia.
Defined.

(** X13. A STRING response whose length field is 65532 or more makes the
    parser panic: [4+length] wraps in [uint16] to less than 4, the
    truncation check passes, and the slice [data[4:4+length]] has its
    upper bound below its lower bound. *)
Theorem ParseCIPReadResponse_STRING_length_wraps (svc cnt n : Z) (rest : list Z) :
  Z.land svc 0x80 <> 0 -> 65532 <= n <= 65535 ->
  ParseCIPReadResponse
    (svc :: 0 :: CIPDataTypeSTRING :: cnt :: le16 n ++ rest) CIPDataTypeSTRING
  = Panic "slice bounds out of range".
Proof.
  intros Hsvc Hn.
  assert (Hu : Go.is_uint16 n) by (unfold Go.is_uint16; lia).
  assert (Hhi : Go.uint16 (4 + n) = n - 65532).
  { unfold Go.uint16. change (2 ^ 16) with 65536. zdm. }
  unfold ParseCIPReadResponse. rewrite (ParseCIPResponse_ok svc _ Hsvc).
  cbn [length app le16 Nat.ltb Nat.leb lookup_total list_lookup_total
       Z.eqb negb Pos.eqb CIPDataTypeSTRING CIPDataTypeBOOL CIPDataTypeSINT
       CIPDataTypeINT CIPDataTypeDINT CIPDataTypeREAL CIPDataTypeDWORD].
  cbv zeta.
  assert (Hs : forall tl, slice 2 4 (208 :: cnt :: Go.byte n :: Go.byte (Z.shiftr n 8) :: tl)
                          = le16 n ++ []) by reflexivity.
  rewrite !Hs, Uint16_le16, Hhi by assumption.
  destruct (Z.ltb_spec (Z.of_nat (S (S (S (S (length rest)))))) (n - 65532)); [lia |].
  destruct (Z.ltb_spec (n - 65532) 4); [reflexivity | lia].
Qed.

Lemma ParseCIPReadResponse_STRING_length_wraps_witness :
  Z.land 0xCC 0x80 <> 0 /\ 65532 <= 65535 <= 65535
  /\ ParseCIPReadResponse [0xCC; 0; 0xD0; 1; 0xFF; 0xFF; 65; 66] CIPDataTypeSTRING
     = Panic "slice bounds out of range".
Proof.
  assert (Hs : Z.land 0xCC 0x80 <> 0) by discriminate.
  assert (Hn : 65532 <= 65535 <= 65535) by lia.
  split; [exact Hs |]. split; [exact Hn |].
  exact (ParseCIPReadResponse_STRING_length_wraps 0xCC 1 65535 [65; 66] Hs Hn).
Defined.

(** X14. For a declared type code without a case of its own, a typed read
    whose response carries that code returns every byte after the count
    byte as raw bytes, none included. *)
Theorem ParseCIPReadResponse_unknown_type (svc cnt dataType : Z) (value : list Z) :
  Z.land svc 0x80 <> 0 -> known_data_type dataType = false ->
  ParseCIPReadResponse (svc :: 0 :: dataType :: cnt :: value) dataType
  = Ok (VBytes value).
Proof.
  intros Hsvc Hk. unfold known_data_type in Hk.
  repeat (apply orb_false_iff in Hk; destruct Hk as [Hk ?]).
  unfold ParseCIPReadResponse. rewrite (ParseCIPResponse_ok svc _ Hsvc).
  cbn [length Nat.ltb Nat.leb lookup_total list_lookup_total].
  rewrite Z.eqb_refl. cbn [negb].
  repeat match goal with E : (_ =? _) = false |- _ => rewrite E; clear E end.
  reflexivity.
Qed.

Lemma ParseCIPReadResponse_unknown_type_witness :
  Z.land 0xCC 0x80 <> 0 /\ known_data_type 0xC7 = false
  /\ ParseCIPReadResponse [0xCC; 0; 0xC7; 1; 5; 6] 0xC7 = Ok (VBytes [5; 6]).
Proof.
  assert (Hs : Z.land 0xCC 0x80 <> 0) by discriminate.
  assert (Hk : known_data_type 0xC7 = false) by reflexivity.
  split; [exact Hs |]. split; [exact Hk |].
  exact (ParseCIPReadResponse_unknown_type 0xCC 1 0xC7 [5; 6] Hs Hk).
Defined.

(** ** The session: what every connection guarantees *)

Section SessionInvariants.

Context {C : Type} `{NetConn C}.

Lemma keeps_ret {T} (v : T) : keeps_session (C := C) (ret v).
Proof. intros c. split; reflexivity. Qed.

Lemma keeps_fail {T} (e : error) : keeps_session (C := C) (fail (T := T) e).
Proof. intros c. split; reflexivity. Qed.


Lemma keeps_get_sessionHandle : keeps_session (C := C) get_sessionHandle.
Proof. intros c. split; reflexivity. Qed.

Lemma keeps_get_timeout : keeps_session (C := C) get_timeout.
Proof. intros c. split; reflexivity. Qed.

Lemma keeps_on_conn (op : C -> C * option error) (wrap : error -> error) :
  keeps_session (on_conn op wrap).
Proof. intros c. unfold on_conn. destruct (op (conn c)). split; reflexivity. Qed.

Lemma keeps_ReadFull (n : nat) (wrap : error -> error) :
  keeps_session (ReadFull n wrap).
Proof.
  intros c. unfold ReadFull. destruct (io_ReadFull n (conn c)). split; reflexivity.
Qed.

Lemma keeps_bind {T U} (m : @M C T) (k : T -> @M C U) :
  keeps_session m -> (forall v, keeps_session (k v)) -> keeps_session (bind m k).
Proof.
  intros Hm Hk c. unfold bind. specialize (Hm c).
  destruct (m c) as [c' [v | e | p]]; cbn [fst] in *; try exact Hm.
  destruct (Hk v c') as [H1 H2]. destruct Hm as [H3 H4].
  split; congruence.
Qed.

Lemma keeps_SetWriteDeadline : keeps_session (C := C) SetWriteDeadline.
Proof.
  apply keeps_bind; [apply keeps_get_timeout | intros; apply keeps_on_conn].
Qed.

Lemma keeps_SetReadDeadline : keeps_session (C := C) SetReadDeadline.
Proof.
  apply keeps_bind; [apply keeps_get_timeout | intros; apply keeps_on_conn].
Qed.






Lemma on_error_of_keeps {T} (m : @M C T) :
  keeps_session m -> keeps_session_on_error m.
Proof. intros Hm c. right. apply Hm. Qed.

Lemma on_error_bind {T U} (m : @M C T) (k : T -> @M C U) :
  keeps_session m -> (forall v, keeps_session_on_error (k v)) ->
  keeps_session_on_error (bind m k).
Proof.
  intros Hm Hk c. unfold bind. specialize (Hm c).
  destruct (m c) as [c' [v | e | p]]; cbn [fst] in *; [| now right ..].
  destruct (Hk v c') as [Hok | [H1 H2]]; [now left | right].
  destruct Hm. split; congruence.
Qed.

Lemma on_error_set_sessionHandle (h : Z) :
  keeps_session_on_error (C := C) (bind (set_sessionHandle h) (fun _ => ret tt)).
Proof. intros c. left. exists tt. reflexivity. Qed.

Lemma on_error_RegisterSession : keeps_session_on_error (C := C) RegisterSession.
Proof.
  unfold RegisterSession.
  apply on_error_bind; [apply keeps_get_sessionHandle | intros h].
  destruct (negb (h =? 0)); [apply on_error_of_keeps, keeps_ret |]. cbv zeta.
  apply on_error_bind; [apply keeps_SetWriteDeadline | intros _].
  apply on_error_bind; [apply keeps_on_conn | intros _].
  apply on_error_bind; [apply keeps_SetReadDeadline | intros _].
  apply on_error_bind; [apply keeps_ReadFull | intros respHeader].
  repeat match goal with
         | |- keeps_session_on_error (if ?b then _ else _) =>
             destruct b; [apply on_error_of_keeps, keeps_fail |]
         end.
  apply on_error_set_sessionHandle.
Qed.

Lemma on_error_unregisterSession :
  keeps_session_on_error (C := C) unregisterSession.
Proof.
  unfold unregisterSession.
  apply on_error_bind; [apply keeps_get_sessionHandle | intros h].
  destruct (h =? 0); [apply on_error_of_keeps, keeps_ret |]. cbv zeta.
  apply on_error_bind; [apply keeps_SetWriteDeadline | intros _].
  apply on_error_bind; [apply keeps_on_conn | intros _].
  apply on_error_set_sessionHandle.
Qed.

(** X16. The session handle changes only on success: when
    [RegisterSession] or [unregisterSession] returns an error, on any
    connection, the handle (and the timeout) of the client are what they
    were before the call. *)
Theorem handle_changes_only_on_success (c : Client C) :
  (snd (RegisterSession c) <> Ok tt ->
   sessionHandle (fst (RegisterSession c)) = sessionHandle c
   /\ timeout (fst (RegisterSession c)) = timeout c)
  /\ (snd (unregisterSession c) <> Ok tt ->
      sessionHandle (fst (unregisterSession c)) = sessionHandle c
      /\ timeout (fst (unregisterSession c)) = timeout c).
Proof.
  split; intros Hne.
  - destruct (on_error_RegisterSession c) as [[[] Hok] | Hk];
      [contradiction | exact Hk].
  - destruct (on_error_unregisterSession c) as [[[] Hok] | Hk];
      [contradiction | exact Hk].
Qed.

(** X17. A [Close] that returns nil has closed the socket and left the
    session handle at zero, on every connection: its last step is a
    successful [conn.Close()], and the handle of the client is 0
    afterwards. On a client that is not registered [Close] does nothing
    but [conn.Close()] and returns its result. *)
Theorem Close_success (c c' : Client C) :
  (Close c = (c', Ok tt) ->
   sessionHandle c' = 0
   /\ exists k, conn_Close k = (conn c', None))
  /\ (sessionHandle c = 0 ->
      Close c = (with_conn (fst (conn_Close (conn c))) c,
                 match snd (conn_Close (conn c)) with
                 | None => Ok tt
                 | Some e => Err e
                 end)).
Proof.
  split.
  - unfold Close, bind at 1. unfold get_sessionHandle.
    destruct (Z.eqb_spec (sessionHandle c) 0) as [E | E]; cbn [negb].
    + unfold bind, ret, on_conn.
      destruct (conn_Close (conn c)) as [k [e |]] eqn:Ek; [discriminate |].
      intros [= <-]. cbn [sessionHandle conn]. split; [exact E |].
      exists (conn c). exact Ek.
    + unfold bind at 1.
      destruct (unregisterSession c) as [c1 [[] | e | p]] eqn:Eu;
        [| discriminate ..].
      assert (H0 : sessionHandle c1 = 0).
      { revert Eu. unfold unregisterSession, bind at 1. unfold get_sessionHandle.
        destruct (Z.eqb_spec (sessionHandle c) 0); [contradiction |]. cbv zeta.
        unfold bind at 1.
        destruct (SetWriteDeadline c) as [c2 [[] | ? | ?]]; [| discriminate ..].
        unfold bind at 1.
        destruct (on_conn _ _ c2) as [c3 [[] | ? | ?]]; [| discriminate ..].
        unfold bind, set_sessionHandle, ret. intros [= <-]. reflexivity. }
      unfold on_conn.
      destruct (conn_Close (conn c1)) as [k [e |]] eqn:Ek; [discriminate |].
      intros [= <-]. cbn [sessionHandle conn]. split; [exact H0 |].
      exists (conn c1). exact Ek.
  - intros E. unfold Close, bind, get_sessionHandle, ret, on_conn, with_conn.
    cbv beta.
    destruct (Z.eqb_spec (sessionHandle c) 0); [| contradiction]. cbn [negb].
    destruct (conn_Close (conn c)) as [k [err |]]; reflexivity.
Qed.

End SessionInvariants.

Lemma Close_success_witness :
  Close (mock_client [] 7) = (fst (Close (mock_client [] 7)), Ok tt)
  /\ sessionHandle (fst (Close (mock_client [] 7))) = 0
  /\ closed (conn (fst (Close (mock_client [] 7)))) = true.
Proof.
  assert (Hc : Close (mock_client [] 7) = (fst (Close (mock_client [] 7)), Ok tt))
    by reflexivity.
  split; [exact Hc |].
  destruct (Close_success (mock_client [] 7) (fst (Close (mock_client [] 7))))
    as [Hok _].
  destruct (Hok Hc) as [Hz _].
  split; [exact Hz | reflexivity].
Defined.

Lemma handle_changes_only_on_success_witness :
  snd (RegisterSession (mock_client [0x65; 0] 0)) <> Ok tt
  /\ sessionHandle (fst (RegisterSession (mock_client [0x65; 0] 0))) = 0.
Proof.
  assert (Hne : snd (RegisterSession (mock_client [0x65; 0] 0)) <> Ok tt)
    by discriminate.
  split; [exact Hne |].
  destruct (handle_changes_only_on_success (mock_client [0x65; 0] 0)) as [Hreg _].
  exact (proj1 (Hreg Hne)).
Defined.

(** ** The session run on the test connection *)

Lemma bind_ok {C T U} (m : @M C T) (k : T -> @M C U) (c c' : Client C) (v : T) :
  m c = (c', Ok v) -> bind m k c = k v c'.
Proof. intros E. unfold bind. now rewrite E. Qed.

Lemma bind_err {C T U} (m : @M C T) (k : T -> @M C U) (c c' : Client C) (e : error) :
  m c = (c', Err e) -> bind m k c = (c', Err e).
Proof. intros E. unfold bind. now rewrite E. Qed.

Lemma mock_state_start (c : Client mockConn) : c = mock_state 0 [] c.
Proof.
  destruct c as [[rd wd cl ri] h t]. unfold mock_state, with_conn, mockConn_after.
  cbn. now rewrite app_nil_r, Nat.add_0_r.
Qed.

Lemma mock_SetWriteDeadline (c : Client mockConn) : SetWriteDeadline c = (c, Ok tt).
Proof. now destruct c. Qed.

Lemma mock_SetReadDeadline (c : Client mockConn) : SetReadDeadline c = (c, Ok tt).
Proof. now destruct c. Qed.

Lemma mock_Write (c : Client mockConn) (n : nat) (w b : list Z)
    (wrap : error -> error) :
  on_conn (conn_Write b) wrap (mock_state n w c) = (mock_state n (w ++ b) c, Ok tt).
Proof.
  unfold on_conn, mock_state, with_conn, mockConn_after. cbn.
  now rewrite app_assoc.
Qed.

Lemma mock_ReadFull (c : Client mockConn) (n0 n : nat) (w chunk rest : list Z)
    (wrap : error -> error) :
  drop n0 (drop (readIndex (conn c)) (readData (conn c))) = chunk ++ rest ->
  length chunk = n ->
  ReadFull n wrap (mock_state n0 w c) = (mock_state (n0 + n) w c, Ok chunk).
Proof.
  intros Hd Hl. rewrite drop_drop in Hd.
  unfold ReadFull, mock_state, with_conn, mockConn_after. cbn.
  unfold mockConn_ReadFull. cbn [readData readIndex writeData closed].
  destruct (Nat.eqb_spec n 0) as [-> | Hn].
  - destruct chunk; [| discriminate]. now rewrite Nat.add_0_r.
  - assert (Ha : (n <= length (readData (conn c)) - (readIndex (conn c) + n0))%nat).
    { rewrite <- length_drop, Hd, length_app. lia. }
    destruct (Nat.leb_spec n (length (readData (conn c)) - (readIndex (conn c) + n0)));
      [| lia].
    rewrite Hd, take_app_length' by (symmetry; exact Hl).
    now rewrite Nat.add_assoc.
Qed.

Lemma length_eip_header (command len_ handle status : Z) :
  length (eip_header command len_ handle status) = 24%nat.
Proof. reflexivity. Qed.

(** The fields the client reads out of a response header. *)
Lemma eip_header_fields (command len_ handle status : Z) :
  Go.is_uint16 command -> Go.is_uint16 len_ -> Go.is_uint32 handle ->
  Go.is_uint32 status ->
  LittleEndian.Uint16 (slice 0 2 (eip_header command len_ handle status)) = command
  /\ LittleEndian.Uint16 (slice 2 4 (eip_header command len_ handle status)) = len_
  /\ LittleEndian.Uint32 (slice 4 8 (eip_header command len_ handle status)) = handle
  /\ LittleEndian.Uint32 (slice 8 12 (eip_header command len_ handle status)) = status.
Proof.
  intros Hc Hl Hh Hs.
  change (slice 0 2 (eip_header command len_ handle status)) with (le16 command ++ []).
  change (slice 2 4 (eip_header command len_ handle status)) with (le16 len_ ++ []).
  change (slice 4 8 (eip_header command len_ handle status)) with (le32 handle ++ []).
  change (slice 8 12 (eip_header command len_ handle status)) with (le32 status ++ []).
  rewrite !Uint16_le16, !Uint32_le32 by assumption. auto.
Qed.

Lemma copy_app_end (pre src zs : list Z) :
  length zs = length src -> Go.copy (length pre) src (pre ++ zs) = pre ++ src.
Proof.
  intros Hl. pose proof (copy_app pre src zs [] Hl) as E.
  now rewrite !app_nil_r in E.
Qed.

(** The frame [SendRRData] and [SendUnitData] build. *)
Lemma send_buffer_layout (command h interfaceHandle timeout_ : Z) (data : list Z) :
  send_buffer command h interfaceHandle timeout_ data
  = le16 command ++ le16 (Go.uint16 (Z.of_nat (6 + length data))) ++ le32 h
      ++ replicate 16 0 ++ le32 interfaceHandle ++ le16 timeout_ ++ data.
Proof.
  unfold send_buffer. cbv zeta.
  set (len_ := Go.uint16 (Z.of_nat (6 + length data))).
  replace (24 + (6 + length data))%nat with (30 + length data)%nat by lia.
  rewrite (make_add 30).
  unfold put_header, LittleEndian.PutUint16, LittleEndian.PutUint32.
  cbn [Command Length SessionHandle Status SenderContext Options
       Go.make replicate Nat.add app insert list_insert take drop le16 le32].
  change (Go.byte 0) with 0. change (Go.byte (Z.shiftr 0 8)) with 0.
  change (Go.byte (Z.shiftr 0 16)) with 0. change (Go.byte (Z.shiftr 0 24)) with 0.
  match goal with
  | |- Go.copy 30 data (?a0 :: ?a1 :: ?a2 :: ?a3 :: ?a4 :: ?a5 :: ?a6 :: ?a7 :: ?a8
                          :: ?a9 :: ?a10 :: ?a11 :: ?a12 :: ?a13 :: ?a14 :: ?a15
                          :: ?a16 :: ?a17 :: ?a18 :: ?a19 :: ?a20 :: ?a21 :: ?a22
                          :: ?a23 :: ?a24 :: ?a25 :: ?a26 :: ?a27 :: ?a28 :: ?a29
                          :: ?tl) = _ =>
      apply (copy_app_end
               [a0; a1; a2; a3; a4; a5; a6; a7; a8; a9; a10; a11; a12; a13;
                a14; a15; a16; a17; a18; a19; a20; a21; a22; a23; a24; a25;
                a26; a27; a28; a29] data tl)
  end.
  apply length_replicate.
Qed.

(** X18. [SendUnitData] on a registered client: it writes one frame and
    reads nothing. The frame is the command 0x70, the length
    [(6 + len(data)) mod 65536], the session handle, 16 zero bytes
    (status, sender context, options), the interface handle, the timeout
    and then every byte of [data]; on the test connection the call
    returns nil. *)
Theorem SendUnitData_frame (c : Client mockConn) (interfaceHandle timeout_ : Z)
    (data : list Z) :
  sessionHandle c <> 0 ->
  SendUnitData interfaceHandle timeout_ data c
  = (mock_state 0
       (le16 0x70 ++ le16 (Z.of_nat (6 + length data) mod 65536)
          ++ le32 (sessionHandle c) ++ replicate 16 0
          ++ le32 interfaceHandle ++ le16 timeout_ ++ data) c,
     Ok tt).
Proof.
  intros Hh.
  transitivity (SendUnitData interfaceHandle timeout_ data (mock_state 0 [] c));
    [f_equal; apply mock_state_start |].
  unfold SendUnitData.
  rewrite (bind_ok _ _ _ (mock_state 0 [] c) (sessionHandle c)) by reflexivity.
  destruct (Z.eqb_spec (sessionHandle c) 0); [contradiction |]. cbv zeta.
  rewrite (bind_ok _ _ _ _ tt (mock_SetWriteDeadline _)).
  rewrite (bind_ok _ _ _ _ tt (mock_Write c 0 [] _ _)).
  rewrite send_buffer_layout. reflexivity.
Qed.

Lemma SendUnitData_frame_witness :
  sessionHandle (mock_client [] 1) <> 0
  /\ writeData (conn (fst (SendUnitData 0 10 [84; 69] (mock_client [] 1))))
     = [0x70; 0; 8; 0; 1; 0; 0; 0; 0; 0; 0; 0; 0; 0; 0; 0; 0; 0; 0; 0; 0; 0; 0; 0;
        0; 0; 0; 0; 10; 0; 84; 69].
Proof.
  assert (Hh : sessionHandle (mock_client [] 1) <> 0) by discriminate.
  split; [exact Hh |].
  rewrite (SendUnitData_frame (mock_client [] 1) 0 10 [84; 69] Hh). reflexivity.
Defined.

(** [SendRRData] up to the checks of the response header. *)
Lemma SendRRData_mock_header (c : Client mockConn) (interfaceHandle timeout_ : Z)
    (data : list Z) (command len_ handle status : Z) (rest : list Z) :
  sessionHandle c <> 0 ->
  drop (readIndex (conn c)) (readData (conn c))
  = eip_header command len_ handle status ++ rest ->
  Go.is_uint16 command -> Go.is_uint16 len_ -> Go.is_uint32 handle ->
  Go.is_uint32 status ->
  SendRRData interfaceHandle timeout_ data c
  = let frame :=
      send_buffer EIPCommandSendRRData (sessionHandle c) interfaceHandle timeout_ data in
    if negb (command =? EIPCommandSendRRData) then
      (mock_state 24 frame c, Err (Errorf_d "unexpected response command: %d" command))
    else if negb (status =? 0) then
      (mock_state 24 frame c, Err (Errorf_d "request failed with status: %d" status))
    else
      bind (ReadFull 6 (Errorf_w "failed to read interface handle and timeout: %w"))
           (fun _ =>
              if len_ - 6 <=? 0 then ret []
              else bind (ReadFull (Z.to_nat (len_ - 6))
                                  (Errorf_w "failed to read response data: %w"))
                        (fun respPayload => ret respPayload))
           (mock_state 24 frame c).
Proof.
  intros Hh Hd Hc Hl Hha Hs.
  destruct (eip_header_fields command len_ handle status Hc Hl Hha Hs)
    as (Fc & Fl & _ & Fs).
  transitivity (SendRRData interfaceHandle timeout_ data (mock_state 0 [] c));
    [f_equal; apply mock_state_start |].
  unfold SendRRData.
  rewrite (bind_ok _ _ _ (mock_state 0 [] c) (sessionHandle c)) by reflexivity.
  destruct (Z.eqb_spec (sessionHandle c) 0); [contradiction |]. cbv zeta.
  rewrite (bind_ok _ _ _ _ tt (mock_SetWriteDeadline _)).
  rewrite (bind_ok _ _ _ _ tt (mock_Write c 0 [] _ _)).
  rewrite (bind_ok _ _ _ _ tt (mock_SetReadDeadline _)).
  rewrite (bind_ok _ _ _ _ _
             (mock_ReadFull c 0 24 _ (eip_header command len_ handle status) rest _
                            Hd (length_eip_header _ _ _ _))).
  rewrite Fc, Fl, Fs. cbv zeta.
  destruct (negb (command =? EIPCommandSendRRData)); [reflexivity |].
  destruct (negb (status =? 0)); reflexivity.
Qed.

(** A complete Send RR Data exchange on the test connection. *)
Lemma SendRRData_mock_reply (c : Client mockConn) (interfaceHandle timeout_ : Z)
    (data : list Z) (handle : Z) (prefix payload post : list Z) :
  sessionHandle c <> 0 ->
  Go.is_uint32 handle -> length prefix = 6%nat -> payload <> [] ->
  Z.of_nat (6 + length payload) < 65536 ->
  drop (readIndex (conn c)) (readData (conn c))
  = eip_frame EIPCommandSendRRData (Z.of_nat (6 + length payload)) handle 0
              (prefix ++ payload) ++ post ->
  SendRRData interfaceHandle timeout_ data c
  = (mock_state (30 + length payload)
       (send_buffer EIPCommandSendRRData (sessionHandle c) interfaceHandle timeout_ data)
       c,
     Ok payload).
Proof.
  intros Hh Hha Hp Hne Hlen Hd. unfold eip_frame in Hd.
  rewrite <- !app_assoc in Hd.
  rewrite (SendRRData_mock_header c interfaceHandle timeout_ data _ _ _ _ _ Hh Hd);
    [| unfold Go.is_uint16, EIPCommandSendRRData; lia
     | unfold Go.is_uint16; lia | assumption | unfold Go.is_uint32; lia ].
  cbv zeta. cbn [Z.eqb negb EIPCommandSendRRData Pos.eqb].
  assert (Hd6 : drop 24 (drop (readIndex (conn c)) (readData (conn c)))
                = prefix ++ payload ++ post).
  { rewrite Hd. now rewrite drop_app_length' by reflexivity. }
  rewrite (bind_ok _ _ _ _ _ (mock_ReadFull c 24 6 _ prefix _ _ Hd6 Hp)).
  assert (Hpos : length payload <> 0%nat) by (destruct payload; [contradiction | discriminate]).
  destruct (Z.leb_spec (Z.of_nat (6 + length payload) - 6) 0) as [Hle | _]; [lia |].
  assert (Hd30 : drop (24 + 6) (drop (readIndex (conn c)) (readData (conn c)))
                 = payload ++ post).
  { rewrite <- drop_drop, Hd6. now rewrite drop_app_length' by (symmetry; exact Hp). }
  rewrite (bind_ok _ _ _ _ _
             (mock_ReadFull c (24 + 6)
                (Z.to_nat (Z.of_nat (6 + length payload) - 6)) _ payload post _
                Hd30 ltac:(lia))).
  replace (24 + 6 + Z.to_nat (Z.of_nat (6 + length payload) - 6))%nat
    with (30 + length payload)%nat by lia.
  reflexivity.
Qed.

(** X19. [SendRRData] on a registered client whose peer answers with a
    Send RR Data frame of status 0 carrying a 6-byte prefix and a
    non-empty payload, the length field being 6 plus the payload length:
    the call returns exactly the payload (the prefix stripped), has
    written its one request frame, and has consumed the 30 + len(payload)
    bytes of the reply and no more. *)
Theorem SendRRData_reply (c : Client mockConn) (interfaceHandle timeout_ : Z)
    (data : list Z) (handle : Z) (prefix payload post : list Z) :
  sessionHandle c <> 0 ->
  Go.is_uint32 handle -> length prefix = 6%nat -> payload <> [] ->
  Z.of_nat (6 + length payload) < 65536 ->
  drop (readIndex (conn c)) (readData (conn c))
  = eip_frame EIPCommandSendRRData (Z.of_nat (6 + length payload)) handle 0
              (prefix ++ payload) ++ post ->
  SendRRData interfaceHandle timeout_ data c
  = (mock_state (30 + length payload)
       (send_buffer EIPCommandSendRRData (sessionHandle c) interfaceHandle timeout_ data)
       c,
     Ok payload).
Proof.
  apply SendRRData_mock_reply.
Qed.

Lemma SendRRData_reply_witness :
  sessionHandle (mock_client (eip_frame 0x6F 10 1 0 (replicate 6 0 ++ [68; 65; 84; 65])) 1)
  <> 0
  /\ snd (SendRRData 0 10 [84; 69; 83; 84]
            (mock_client (eip_frame 0x6F 10 1 0 (replicate 6 0 ++ [68; 65; 84; 65])) 1))
     = Ok [68; 65; 84; 65].
Proof.
  assert (Hh : sessionHandle
                 (mock_client (eip_frame 0x6F 10 1 0 (replicate 6 0 ++ [68; 65; 84; 65])) 1)
               <> 0) by discriminate.
  split; [exact Hh |].
  rewrite (SendRRData_reply _ 0 10 [84; 69; 83; 84] 1 (replicate 6 0) [68; 65; 84; 65] []
             Hh).
  - reflexivity.
  - unfold Go.is_uint32. lia.
  - reflexivity.
  - discriminate.
  - cbn. lia.
  - reflexivity.
Defined.

(** X20. [SendRRData] does not reject a reply whose length field is 6 or
    less: with status 0 and the right command it still reads 6 prefix
    bytes and then returns an empty payload with a nil error, leaving
    whatever follows unread. *)
Theorem SendRRData_short_length_field (c : Client mockConn)
    (interfaceHandle timeout_ : Z) (data : list Z) (len_ handle : Z)
    (prefix post : list Z) :
  sessionHandle c <> 0 ->
  Go.is_uint32 handle -> length prefix = 6%nat -> 0 <= len_ <= 6 ->
  drop (readIndex (conn c)) (readData (conn c))
  = eip_frame EIPCommandSendRRData len_ handle 0 prefix ++ post ->
  SendRRData interfaceHandle timeout_ data c
  = (mock_state 30
       (send_buffer EIPCommandSendRRData (sessionHandle c) interfaceHandle timeout_ data)
       c,
     Ok []).
Proof.
  intros Hh Hha Hp Hlen Hd. unfold eip_frame in Hd.
  rewrite <- !app_assoc in Hd.
  rewrite (SendRRData_mock_header c interfaceHandle timeout_ data _ _ _ _ _ Hh Hd);
    [| unfold Go.is_uint16, EIPCommandSendRRData; lia
     | unfold Go.is_uint16; lia | assumption | unfold Go.is_uint32; lia ].
  cbv zeta. cbn [Z.eqb negb EIPCommandSendRRData Pos.eqb].
  assert (Hd6 : drop 24 (drop (readIndex (conn c)) (readData (conn c)))
                = prefix ++ post).
  { rewrite Hd. now rewrite drop_app_length' by reflexivity. }
  rewrite (bind_ok _ _ _ _ _ (mock_ReadFull c 24 6 _ prefix _ _ Hd6 Hp)).
  destruct (Z.leb_spec (len_ - 6) 0); [reflexivity | lia].
Qed.

Lemma SendRRData_short_length_field_witness :
  sessionHandle (mock_client (eip_frame 0x6F 2 1 0 (replicate 6 0) ++ [9; 9]) 1) <> 0
  /\ 0 <= 2 <= 6
  /\ snd (SendRRData 0 10 [] (mock_client (eip_frame 0x6F 2 1 0 (replicate 6 0) ++ [9; 9]) 1))
     = Ok [].
Proof.
  assert (Hh : sessionHandle
                 (mock_client (eip_frame 0x6F 2 1 0 (replicate 6 0) ++ [9; 9]) 1) <> 0)
    by discriminate.
  assert (Hl : 0 <= 2 <= 6) by lia.
  split; [exact Hh |]. split; [exact Hl |].
  rewrite (SendRRData_short_length_field _ 0 10 [] 2 1 (replicate 6 0) [9; 9] Hh).
  - reflexivity.
  - unfold Go.is_uint32. lia.
  - reflexivity.
  - exact Hl.
  - reflexivity.
Defined.

(** X21. [SendRRData] checks the response header before it reads on: a
    response whose command is not 0x6F fails with "unexpected response
    command" carrying the command, and one with command 0x6F and a
    non-zero status fails with "request failed with status" carrying the
    status; in both cases the request has been written, only the 24
    header bytes have been read, and the session handle is kept. *)
Theorem SendRRData_header_rejected (c : Client mockConn)
    (interfaceHandle timeout_ : Z) (data : list Z) (command len_ handle status : Z)
    (rest : list Z) :
  sessionHandle c <> 0 ->
  Go.is_uint16 command -> Go.is_uint16 len_ -> Go.is_uint32 handle ->
  Go.is_uint32 status ->
  drop (readIndex (conn c)) (readData (conn c))
  = eip_header command len_ handle status ++ rest ->
  (command <> EIPCommandSendRRData ->
   SendRRData interfaceHandle timeout_ data c
   = (mock_state 24
        (send_buffer EIPCommandSendRRData (sessionHandle c) interfaceHandle timeout_ data)
        c,
      Err (Errorf_d "unexpected response command: %d" command)))
  /\ (command = EIPCommandSendRRData -> status <> 0 ->
      SendRRData interfaceHandle timeout_ data c
      = (mock_state 24
           (send_buffer EIPCommandSendRRData (sessionHandle c) interfaceHandle timeout_
                        data)
           c,
         Err (Errorf_d "request failed with status: %d" status))).
Proof.
  intros Hh Hc Hl Hha Hs Hd.
  rewrite (SendRRData_mock_header c interfaceHandle timeout_ data _ _ _ _ _
             Hh Hd Hc Hl Hha Hs).
  cbv zeta. split.
  - intros Hne. destruct (Z.eqb_spec command EIPCommandSendRRData);
      [contradiction | reflexivity].
  - intros -> Hst. rewrite Z.eqb_refl. cbn [negb].
    destruct (Z.eqb_spec status 0); [contradiction | reflexivity].
Qed.

Lemma SendRRData_header_rejected_witness :
  sessionHandle (mock_client (eip_header 0x6F 0 1 3) 1) <> 0
  /\ snd (SendRRData 0 10 [] (mock_client (eip_header 0x6F 0 1 3) 1))
     = Err (Errorf_d "request failed with status: %d" 3)
  /\ snd (SendRRData 0 10 [] (mock_client (eip_header 0x65 0 1 0) 1))
     = Err (Errorf_d "unexpected response command: %d" 0x65).
Proof.
  assert (Hh : sessionHandle (mock_client (eip_header 0x6F 0 1 3) 1) <> 0)
    by discriminate.
  assert (H16 : forall x, 0 <= x < 65536 -> Go.is_uint16 x)
    by (unfold Go.is_uint16; intros; lia).
  assert (H32 : forall x, 0 <= x < 65536 -> Go.is_uint32 x)
    by (unfold Go.is_uint32; intros; lia).
  split; [exact Hh |].
  destruct (SendRRData_header_rejected (mock_client (eip_header 0x6F 0 1 3) 1)
              0 10 [] 0x6F 0 1 3 [] Hh) as [_ Hst];
    [apply H16; lia | apply H16; lia | apply H32; lia | apply H32; lia | reflexivity |].
  destruct (SendRRData_header_rejected (mock_client (eip_header 0x65 0 1 0) 1)
              0 10 [] 0x65 0 1 0 [] Hh) as [Hcmd _];
    [apply H16; lia | apply H16; lia | apply H32; lia | apply H32; lia | reflexivity |].
  split.
  - rewrite Hst; [reflexivity | reflexivity | discriminate].
  - rewrite Hcmd; [reflexivity | discriminate].
Defined.

(** X22. [ListIdentity] needs no registered session and always sends the
    header with command 0x63, length 0 and session handle 0, even on a
    registered client; when the peer answers with a List Identity frame
    of status 0, it returns the payload verbatim: exactly as many bytes
    as the length field says (none for 0). *)
Theorem ListIdentity_reply (c : Client mockConn) (handle : Z)
    (payload post : list Z) :
  Go.is_uint32 handle -> Z.of_nat (length payload) < 65536 ->
  drop (readIndex (conn c)) (readData (conn c))
  = eip_frame EIPCommandListIdentity (Z.of_nat (length payload)) handle 0 payload
      ++ post ->
  ListIdentity c
  = (mock_state (24 + length payload) (eip_header EIPCommandListIdentity 0 0 0) c,
     Ok payload).
Proof.
  intros Hha Hlen Hd. unfold eip_frame in Hd. rewrite <- app_assoc in Hd.
  assert (H16 : forall x, 0 <= x < 65536 -> Go.is_uint16 x)
    by (unfold Go.is_uint16; intros; lia).
  destruct (eip_header_fields EIPCommandListIdentity (Z.of_nat (length payload))
              handle 0) as (Fc & Fl & _ & Fs);
    [apply H16; unfold EIPCommandListIdentity; lia | apply H16; lia | assumption
     | unfold Go.is_uint32; lia |].
  transitivity (ListIdentity (mock_state 0 [] c));
    [f_equal; apply mock_state_start |].
  unfold ListIdentity. cbv zeta.
  rewrite (bind_ok _ _ _ _ tt (mock_SetWriteDeadline _)).
  rewrite (bind_ok _ _ _ _ tt (mock_Write c 0 [] _ _)).
  rewrite (bind_ok _ _ _ _ tt (mock_SetReadDeadline _)).
  rewrite (bind_ok _ _ _ _ _
             (mock_ReadFull c 0 24 _ _ _ _ Hd (length_eip_header _ _ _ _))).
  rewrite Fc, Fl, Fs. cbn [Z.eqb negb EIPCommandListIdentity Pos.eqb].
  assert (Hd24 : drop (0 + 24) (drop (readIndex (conn c)) (readData (conn c)))
                 = payload ++ post).
  { rewrite Hd. now rewrite drop_app_length' by reflexivity. }
  rewrite (bind_ok _ _ _ _ _
             (mock_ReadFull c (0 + 24) (Z.to_nat (Z.of_nat (length payload))) _
                            payload post _ Hd24 ltac:(lia))).
  rewrite Nat2Z.id. reflexivity.
Qed.

Lemma ListIdentity_reply_witness :
  Go.is_uint32 0
  /\ ListIdentity (mock_client (eip_frame 0x63 8 0 0 [1; 0; 0; 0; 4; 0; 84; 69]) 5)
     = (mock_state 32 (eip_header 0x63 0 0 0)
          (mock_client (eip_frame 0x63 8 0 0 [1; 0; 0; 0; 4; 0; 84; 69]) 5),
        Ok [1; 0; 0; 0; 4; 0; 84; 69]).
Proof.
  assert (Hu : Go.is_uint32 0) by (unfold Go.is_uint32; lia).
  split; [exact Hu |].
  apply (ListIdentity_reply
           (mock_client (eip_frame 0x63 8 0 0 [1; 0; 0; 0; 4; 0; 84; 69]) 5)
           0 [1; 0; 0; 0; 4; 0; 84; 69] [] Hu).
  - cbn. lia.
  - reflexivity.
Defined.

(** X23. How [RegisterSession] judges the 28-byte reply on an
    unregistered client: it sends the Register Session request, reads 28
    bytes, and fails with "unexpected response command" when the command
    is not 0x65, else with "registration failed with status" when the
    status is not 0, else with "unexpected response length" when the
    length field is not 4; in these cases the handle stays 0. Otherwise
    it adopts the handle of the reply, whatever the four payload bytes
    are. *)
Theorem RegisterSession_reply_checks (c : Client mockConn)
    (command len_ handle status : Z) (body rest : list Z) :
  sessionHandle c = 0 ->
  Go.is_uint16 command -> Go.is_uint16 len_ -> Go.is_uint32 handle ->
  Go.is_uint32 status -> length body = 4%nat ->
  drop (readIndex (conn c)) (readData (conn c))
  = eip_frame command len_ handle status body ++ rest ->
  RegisterSession c
  = if negb (command =? EIPCommandRegisterSession) then
      (mock_state 28 register_request c,
       Err (Errorf_d "unexpected response command: %d" command))
    else if negb (status =? 0) then
      (mock_state 28 register_request c,
       Err (Errorf_d "registration failed with status: %d" status))
    else if negb (len_ =? 4) then
      (mock_state 28 register_request c,
       Err (Errorf_d "unexpected response length: %d" len_))
    else
      ({| conn := mockConn_after 28 register_request (conn c);
          sessionHandle := handle; timeout := timeout c |}, Ok tt).
Proof.
  intros Hh Hc Hl Hha Hs Hb Hd.
  destruct (eip_header_fields command len_ handle status Hc Hl Hha Hs)
    as (Fc & Fl & Fh & Fs).
  transitivity (RegisterSession (mock_state 0 [] c));
    [f_equal; apply mock_state_start |].
  unfold RegisterSession.
  rewrite (bind_ok _ _ _ (mock_state 0 [] c) (sessionHandle c)) by reflexivity.
  rewrite Hh. cbn [Z.eqb negb]. cbv zeta.
  change (LittleEndian.PutUint16 26 0 _) with register_request.
  rewrite (bind_ok _ _ _ _ tt (mock_SetWriteDeadline _)).
  rewrite (bind_ok _ _ _ _ tt (mock_Write c 0 [] _ _)).
  rewrite (bind_ok _ _ _ _ tt (mock_SetReadDeadline _)).
  assert (Hl28 : length (eip_frame command len_ handle status body) = 28%nat).
  { unfold eip_frame. rewrite length_app, length_eip_header. lia. }
  rewrite (bind_ok _ _ _ _ _ (mock_ReadFull c 0 28 _ _ _ _ Hd Hl28)).
  change (slice 0 2 (eip_frame command len_ handle status body))
    with (slice 0 2 (eip_header command len_ handle status)).
  change (slice 2 4 (eip_frame command len_ handle status body))
    with (slice 2 4 (eip_header command len_ handle status)).
  change (slice 4 8 (eip_frame command len_ handle status body))
    with (slice 4 8 (eip_header command len_ handle status)).
  change (slice 8 12 (eip_frame command len_ handle status body))
    with (slice 8 12 (eip_header command len_ handle status)).
  rewrite Fc, Fl, Fh, Fs.
  destruct (negb (command =? EIPCommandRegisterSession)); [reflexivity |].
  destruct (negb (status =? 0)); [reflexivity |].
  destruct (negb (len_ =? 4)); reflexivity.
Qed.

Lemma RegisterSession_reply_checks_witness :
  sessionHandle (mock_client (eip_frame 0x65 8 9 0 [1; 0; 0; 0]) 0) = 0
  /\ RegisterSession (mock_client (eip_frame 0x65 8 9 0 [1; 0; 0; 0]) 0)
     = (mock_state 28 register_request
          (mock_client (eip_frame 0x65 8 9 0 [1; 0; 0; 0]) 0),
        Err (Errorf_d "unexpected response length: %d" 8)).
Proof.
  assert (Hh : sessionHandle (mock_client (eip_frame 0x65 8 9 0 [1; 0; 0; 0]) 0) = 0)
    by reflexivity.
  assert (H16 : forall x, 0 <= x < 65536 -> Go.is_uint16 x)
    by (unfold Go.is_uint16; intros; lia).
  assert (H32 : forall x, 0 <= x < 65536 -> Go.is_uint32 x)
    by (unfold Go.is_uint32; intros; lia).
  split; [exact Hh |].
  rewrite (RegisterSession_reply_checks _ 0x65 8 9 0 [1; 0; 0; 0] [] Hh);
    [reflexivity | apply H16; lia | apply H16; lia | apply H32; lia | apply H32; lia
     | reflexivity | reflexivity].
Defined.

(** X24. [Close] on a registered client whose writes succeed: it writes
    one 24-byte Unregister Session frame (command 0x66, length 0, the
    session handle, zero status, context and options), reads nothing,
    closes the socket and leaves the handle at 0. *)
Theorem Close_unregister_frame (c : Client mockConn) :
  sessionHandle c <> 0 ->
  Close c
  = ({| conn := {| readData := readData (conn c);
                   writeData := writeData (conn c)
                                ++ eip_header EIPCommandUnregister 0 (sessionHandle c) 0;
                   closed := true;
                   readIndex := readIndex (conn c) |};
        sessionHandle := 0;
        timeout := timeout c |},
     Ok tt).
Proof.
  intros Hh. destruct c as [[rd wd cl ri] h t]. cbn [sessionHandle] in Hh.
  apply Z.eqb_neq in Hh.
  set (c := {| conn := {| readData := rd; writeData := wd; closed := cl;
                          readIndex := ri |};
               sessionHandle := h; timeout := t |}).
  assert (Hu : unregisterSession c
               = ({| conn := {| readData := rd;
                                writeData := wd ++ eip_header EIPCommandUnregister 0 h 0;
                                closed := cl; readIndex := ri |};
                     sessionHandle := 0; timeout := t |}, Ok tt)).
  { unfold unregisterSession.
    rewrite (bind_ok _ _ c c h) by reflexivity. rewrite Hh. cbv zeta.
    rewrite (bind_ok _ _ _ _ tt (mock_SetWriteDeadline _)).
    reflexivity. }
  unfold Close. rewrite (bind_ok _ _ c c h) by reflexivity. rewrite Hh. cbn [negb].
  rewrite (bind_ok _ _ _ _ _ Hu). reflexivity.
Qed.

Lemma Close_unregister_frame_witness :
  sessionHandle (mock_client [] 0x01020304) <> 0
  /\ writeData (conn (fst (Close (mock_client [] 0x01020304))))
     = [0x66; 0; 0; 0; 4; 3; 2; 1; 0; 0; 0; 0; 0; 0; 0; 0; 0; 0; 0; 0; 0; 0; 0; 0].
Proof.
  assert (Hh : sessionHandle (mock_client [] 0x01020304) <> 0) by discriminate.
  split; [exact Hh |].
  rewrite (Close_unregister_frame _ Hh). reflexivity.
Defined.

(** ** The typed tag client *)

(** X25. [ReadTag] end to end on a registered client: it sends one Send
    RR Data frame holding the Read Tag request for the tag with element
    count 1, interface handle 0 and timeout 10, and when the peer answers
    with a Send RR Data frame carrying a non-empty CIP response, it
    returns what [ParseCIPReadResponse] makes of that response for the
    declared type. *)
Theorem ReadTag_reply (c : Client mockConn) (tagName : string) (dataType : Z)
    (handle : Z) (prefix response post : list Z) :
  sessionHandle c <> 0 ->
  Go.is_uint32 handle -> length prefix = 6%nat -> response <> [] ->
  Z.of_nat (6 + length response) < 65536 ->
  drop (readIndex (conn c)) (readData (conn c))
  = eip_frame EIPCommandSendRRData (Z.of_nat (6 + length response)) handle 0
              (prefix ++ response) ++ post ->
  PLCClient_ReadTag tagName dataType c
  = (mock_state (30 + length response)
       (send_buffer EIPCommandSendRRData (sessionHandle c) 0 10
                    (BuildCIPReadRequest tagName 1)) c,
     ParseCIPReadResponse response dataType).
Proof.
  intros Hh Hha Hp Hne Hlen Hd. unfold PLCClient_ReadTag. cbv zeta.
  rewrite (bind_ok _ _ _ _ _
             (SendRRData_mock_reply c 0 10 _ handle prefix response post
                               Hh Hha Hp Hne Hlen Hd)).
  reflexivity.
Qed.

Lemma ReadTag_reply_witness :
  sessionHandle
    (mock_client (eip_frame 0x6F 14 1 0
                    (replicate 6 0 ++ [0xCC; 0; 0xC4; 1; 0x2A; 0; 0; 0])) 1) <> 0
  /\ snd (PLCClient_ReadTag "Counter" CIPDataTypeDINT
            (mock_client (eip_frame 0x6F 14 1 0
                            (replicate 6 0 ++ [0xCC; 0; 0xC4; 1; 0x2A; 0; 0; 0])) 1))
     = Ok (VInt32 42).
Proof.
  assert (Hh : sessionHandle
                 (mock_client (eip_frame 0x6F 14 1 0
                    (replicate 6 0 ++ [0xCC; 0; 0xC4; 1; 0x2A; 0; 0; 0])) 1) <> 0)
    by discriminate.
  split; [exact Hh |].
  rewrite (ReadTag_reply _ "Counter" CIPDataTypeDINT 1 (replicate 6 0)
             [0xCC; 0; 0xC4; 1; 0x2A; 0; 0; 0] [] Hh).
  - reflexivity.
  - unfold Go.is_uint32. lia.
  - reflexivity.
  - discriminate.
  - cbn. lia.
  - reflexivity.
Defined.

(** X26. [WriteTag] checks the value against the declared type before it
    does any I/O: it accepts exactly a [bool] for BOOL, an [int8] for
    SINT, an [int16] for INT, an [int32] for DINT and a [float32] for
    REAL; for every other pair (a value of another dynamic type, or a
    declared type such as DWORD or STRING) it returns the error and the
    client, its connection included, is untouched, on every connection. *)
Theorem WriteTag_precondition {C : Type} `{NetConn C} (c : Client C)
    (tagName : string) (dataType : Z) (value : Value) :
  ((exists data, WriteTag_data dataType value = Ok data)
   <-> match value with
       | VBool _ => dataType = CIPDataTypeBOOL
       | VInt8 _ => dataType = CIPDataTypeSINT
       | VInt16 _ => dataType = CIPDataTypeINT
       | VInt32 _ => dataType = CIPDataTypeDINT
       | VFloat32 _ => dataType = CIPDataTypeREAL
       | _ => False
       end)
  /\ (forall e, WriteTag_data dataType value = Err e ->
                PLCClient_WriteTag tagName dataType value c = (c, Err e))
  /\ (forall reason, WriteTag_data dataType value <> Panic reason).
Proof.
  split; [| split].
  - unfold WriteTag_data.
    destruct (Z.eqb_spec dataType CIPDataTypeBOOL) as [-> | N1].
    { destruct value; split; try (intros [d Hd]; discriminate);
        try discriminate; try contradiction; try reflexivity; eauto. }
    destruct (Z.eqb_spec dataType CIPDataTypeSINT) as [-> | N2].
    { destruct value; split; try (intros [d Hd]; discriminate);
        try discriminate; try contradiction; try reflexivity; eauto. }
    destruct (Z.eqb_spec dataType CIPDataTypeINT) as [-> | N3].
    { destruct value; split; try (intros [d Hd]; discriminate);
        try discriminate; try contradiction; try reflexivity; eauto. }
    destruct (Z.eqb_spec dataType CIPDataTypeDINT) as [-> | N4].
    { destruct value; split; try (intros [d Hd]; discriminate);
        try discriminate; try contradiction; try reflexivity; eauto. }
    destruct (Z.eqb_spec dataType CIPDataTypeREAL) as [-> | N5].
    { destruct value; split; try (intros [d Hd]; discriminate);
        try discriminate; try contradiction; try reflexivity; eauto. }
    destruct value; split; try (intros [d Hd]; discriminate); try contradiction.
  - intros e He. unfold PLCClient_WriteTag.
    apply (bind_err _ _ c c e). unfold lift. now rewrite He.
  - intros reason. unfold WriteTag_data.
    repeat (destruct (_ =? _); [destruct value; discriminate |]). discriminate.
Qed.

Lemma WriteTag_precondition_witness :
  WriteTag_data CIPDataTypeDINT (VInt16 42) = Err (errors_New "value is not an int32")
  /\ PLCClient_WriteTag "Counter" CIPDataTypeDINT (VInt16 42) (mock_client [] 1)
     = (mock_client [] 1, Err (errors_New "value is not an int32"))
  /\ PLCClient_WriteTag "Counter" CIPDataTypeDWORD (VUint32 42) (mock_client [] 1)
     = (mock_client [] 1, Err (Errorf_d "unsupported data type: %#x" 0xD3)).
Proof.
  assert (He : WriteTag_data CIPDataTypeDINT (VInt16 42)
               = Err (errors_New "value is not an int32")) by reflexivity.
  split; [exact He |].
  destruct (WriteTag_precondition (mock_client [] 1) "Counter" CIPDataTypeDINT
              (VInt16 42)) as (_ & H1 & _).
  destruct (WriteTag_precondition (mock_client [] 1) "Counter" CIPDataTypeDWORD
              (VUint32 42)) as (_ & H2 & _).
  split; [exact (H1 _ He) | exact (H2 _ eq_refl)].
Defined.

(** X27. [WriteTag] end to end on a registered client, for a value of the
    declared type: it sends one Send RR Data frame holding the Write Tag
    request with the bytes of the value, and when the peer answers with a
    frame carrying a non-empty CIP response, it returns nil exactly when
    [ParseCIPResponse] accepts the response and its error otherwise (a
    non-zero CIP status gives the [CIPError] of that status). *)
Theorem WriteTag_reply (c : Client mockConn) (tagName : string) (dataType : Z)
    (value : Value) (data : list Z) (handle : Z) (prefix response post : list Z) :
  WriteTag_data dataType value = Ok data ->
  sessionHandle c <> 0 ->
  Go.is_uint32 handle -> length prefix = 6%nat -> response <> [] ->
  Z.of_nat (6 + length response) < 65536 ->
  drop (readIndex (conn c)) (readData (conn c))
  = eip_frame EIPCommandSendRRData (Z.of_nat (6 + length response)) handle 0
              (prefix ++ response) ++ post ->
  PLCClient_WriteTag tagName dataType value c
  = (mock_state (30 + length response)
       (send_buffer EIPCommandSendRRData (sessionHandle c) 0 10
                    (BuildCIPWriteRequest tagName dataType data)) c,
     match ParseCIPResponse response with
     | Ok _ => Ok tt
     | Err e => Err e
     | Panic reason => Panic reason
     end).
Proof.
  intros Hw Hh Hha Hp Hne Hlen Hd. unfold PLCClient_WriteTag.
  rewrite (bind_ok _ _ c c data) by (unfold lift; now rewrite Hw).
  cbv zeta.
  rewrite (bind_ok _ _ _ _ _
             (SendRRData_mock_reply c 0 10 _ handle prefix response post
                               Hh Hha Hp Hne Hlen Hd)).
  unfold bind, lift, ret. destruct (ParseCIPResponse response); reflexivity.
Qed.

Lemma WriteTag_reply_witness :
  WriteTag_data CIPDataTypeDINT (VInt32 42) = Ok [0x2A; 0; 0; 0]
  /\ PLCClient_WriteTag "Counter" CIPDataTypeDINT (VInt32 42)
       (mock_client (eip_frame 0x6F 9 1 0 (replicate 6 0 ++ [0xCD; 0x05; 0])) 1)
     = (mock_state 33
          (send_buffer 0x6F 1 0 10
             [0x4D; 0x05; 0x91; 0x07; 0x43; 0x6F; 0x75; 0x6E; 0x74; 0x65; 0x72; 0x00;
              0xC4; 0x01; 0x2A; 0x00; 0x00; 0x00])
          (mock_client (eip_frame 0x6F 9 1 0 (replicate 6 0 ++ [0xCD; 0x05; 0])) 1),
        Err (CIPError 0x05 "Path destination unknown")).
Proof.
  assert (Hw : WriteTag_data CIPDataTypeDINT (VInt32 42) = Ok [0x2A; 0; 0; 0])
    by reflexivity.
  split; [exact Hw |].
  rewrite (WriteTag_reply _ "Counter" CIPDataTypeDINT (VInt32 42) [0x2A; 0; 0; 0] 1
             (replicate 6 0) [0xCD; 0x05; 0] [] Hw).
  - reflexivity.
  - discriminate.
  - unfold Go.is_uint32. lia.
  - reflexivity.
  - discriminate.
  - cbn. lia.
  - reflexivity.
Defined.

(** ** The retry helper *)

Section BackoffProperties.

Context {W : Type}.
Variable operation : W -> W * option error.
Variable retryable : error -> bool.

Lemma backoff_loop_outcome (n : nat) (delay maxDelay maxRetries : Z)
    (err : option error) (w w' : W) (sleeps : list Z) (r : backoff_result) :
  backoff_loop operation retryable n delay maxDelay maxRetries err w = (w', sleeps, r) ->
  match r with
  | BackoffNil => (length sleeps < n)%nat
  | BackoffErr e => (length sleeps < n)%nat /\ retryable e = false
  | BackoffExhausted m last =>
      m = maxRetries /\ length sleeps = n
      /\ (n = 0%nat -> last = err /\ w' = w)
      /\ ((0 < n)%nat -> exists e, last = Some e /\ retryable e = true)
  end.
Proof.
  revert delay err w w' sleeps r.
  induction n as [| n IH]; intros delay err w w' sleeps r; cbn [backoff_loop].
  - intros [= <- <- <-]. repeat split; try reflexivity. intros; lia.
  - destruct (operation w) as [w1 [e |]].
    + destruct (retryable e) eqn:Er.
      * destruct (backoff_loop operation retryable n (next_delay delay maxDelay)
                               maxDelay maxRetries (Some e) w1)
          as [[w2 sleeps2] r2] eqn:El.
        intros [= <- <- <-]. specialize (IH _ _ _ _ _ _ El).
        destruct r2 as [| e2 | m last]; cbn [length].
        -- lia.
        -- destruct IH. split; [lia | assumption].
        -- destruct IH as (Hm & Hl & H0 & Hpos).
           split; [assumption |]. split; [lia |]. split; [intros; lia |].
           intros _. destruct n as [| n'].
           ++ destruct (H0 eq_refl) as [-> _]. eauto.
           ++ apply Hpos. lia.
      * intros [= <- <- <-]. cbn [length]. split; [lia | assumption].
    + intros [= <- <- <-]. cbn [length]. lia.
Qed.

(** X28. [ExponentialBackoff] makes at most [maxRetries] attempts and
    sleeps once after each attempt it retries. It returns nil or an error
    of the operation only after fewer than [maxRetries] sleeps, and an
    error it returns as it is was not retryable; it returns the
    "failed after %d retries" error exactly after [maxRetries] sleeps,
    wrapping the last error, which was retryable -- or wrapping nil,
    without calling the operation at all, when [maxRetries] is not
    positive. *)
Theorem ExponentialBackoff_outcome (initialDelay maxDelay maxRetries : Z)
    (w w' : W) (sleeps : list Z) (r : backoff_result) :
  ExponentialBackoff operation retryable initialDelay maxDelay maxRetries w
  = (w', sleeps, r) ->
  (length sleeps <= Z.to_nat maxRetries)%nat
  /\ match r with
     | BackoffNil => (length sleeps < Z.to_nat maxRetries)%nat
     | BackoffErr e => (length sleeps < Z.to_nat maxRetries)%nat /\ retryable e = false
     | BackoffExhausted m last =>
         m = maxRetries /\ length sleeps = Z.to_nat maxRetries
         /\ (maxRetries <= 0 -> last = None /\ w' = w /\ sleeps = [])
         /\ (0 < maxRetries -> exists e, last = Some e /\ retryable e = true)
     end.
Proof.
  unfold ExponentialBackoff. intros Hrun.
  pose proof (backoff_loop_outcome _ _ _ _ _ _ _ _ _ Hrun) as Ho.
  destruct r as [| e | m last].
  - split; lia.
  - split; [lia | exact Ho].
  - destruct Ho as (Hm & Hl & H0 & Hpos).
    split; [lia |]. split; [assumption |]. split; [assumption |]. split.
    + intros Hle. destruct (H0 ltac:(lia)) as [-> ->].
      repeat split. destruct sleeps; [reflexivity |]. cbn in Hl. lia.
    + intros Hgt. apply Hpos. lia.
Qed.

Lemma backoff_loop_sleeps (n : nat) (delay maxDelay maxRetries : Z)
    (err : option error) (w w' : W) (sleeps : list Z) (r : backoff_result)
    (i : nat) (d : Z) :
  backoff_loop operation retryable n delay maxDelay maxRetries err w = (w', sleeps, r) ->
  sleeps !! i = Some d ->
  d = Nat.iter i (fun x => next_delay x maxDelay) delay.
Proof.
  revert delay err w w' sleeps r i.
  induction n as [| n IH]; intros delay err w w' sleeps r i; cbn [backoff_loop].
  - intros [= <- <- <-]. discriminate.
  - destruct (operation w) as [w1 [e |]].
    + destruct (retryable e).
      * destruct (backoff_loop operation retryable n (next_delay delay maxDelay)
                               maxDelay maxRetries (Some e) w1)
          as [[w2 sleeps2] r2] eqn:El.
        intros [= <- <- <-]. destruct i as [| j]; cbn [lookup list_lookup].
        -- intros [= <-]. reflexivity.
        -- intros Hj. rewrite Nat.iter_succ_r. exact (IH _ _ _ _ _ _ _ El Hj).
      * intros [= <- <- <-]. discriminate.
    + intros [= <- <- <-]. discriminate.
Qed.

Lemma next_delay_le (delay maxDelay : Z) : next_delay delay maxDelay <= maxDelay.
Proof.
  unfold next_delay. cbv zeta.
  destruct (Z.gtb_spec (Go.signed 64 (delay * 2)) maxDelay); lia.
Qed.

Lemma next_delay_doubles (delay maxDelay : Z) :
  0 <= delay <= maxDelay -> maxDelay < 2 ^ 62 ->
  next_delay delay maxDelay = Z.min (delay * 2) maxDelay.
Proof.
  intros Hd Hm. unfold next_delay, Go.signed. cbv zeta.
  change (2 ^ 62) with 4611686018427387904 in Hm.
  change (2 ^ 64) with 18446744073709551616.
  change (2 ^ (64 - 1)) with 9223372036854775808.
  rewrite Z.mod_small by lia.
  destruct (Z.ltb_spec (delay * 2) 9223372036854775808); [| lia].
  destruct (Z.gtb_spec (delay * 2) maxDelay); lia.
Qed.

(** X29. The delays [ExponentialBackoff] sleeps: the first is
    [initialDelay], each next one is the previous one doubled (in int64)
    and cut to [maxDelay], so every delay after the first is at most
    [maxDelay]; and when [0 <= initialDelay <= maxDelay < 2^62] the
    [i]-th delay is [min(initialDelay * 2^i, maxDelay)]. *)
Theorem ExponentialBackoff_delays (initialDelay maxDelay maxRetries : Z)
    (w w' : W) (sleeps : list Z) (r : backoff_result) (i : nat) (d : Z) :
  ExponentialBackoff operation retryable initialDelay maxDelay maxRetries w
  = (w', sleeps, r) ->
  sleeps !! i = Some d ->
  d = Nat.iter i (fun x => next_delay x maxDelay) initialDelay
  /\ (i = 0%nat -> d = initialDelay)
  /\ ((0 < i)%nat -> d <= maxDelay)
  /\ (0 <= initialDelay <= maxDelay -> maxDelay < 2 ^ 62 ->
      d = Z.min (initialDelay * 2 ^ Z.of_nat i) maxDelay).
Proof.
  unfold ExponentialBackoff. intros Hrun Hi.
  pose proof (backoff_loop_sleeps _ _ _ _ _ _ _ _ _ _ _ Hrun Hi) as Hd.
  split; [exact Hd |]. split; [| split].
  - intros ->. exact Hd.
  - intros Hpos. destruct i as [| j]; [lia |]. rewrite Hd. cbn [Nat.iter nat_rect].
    apply next_delay_le.
  - intros Hinit Hmax. rewrite Hd. clear Hd Hi Hrun.
    induction i as [| j IH].
    + cbn [Nat.iter nat_rect]. change (Z.of_nat 0) with 0. lia.
    + cbn [Nat.iter nat_rect]. fold (Nat.iter j (fun x => next_delay x maxDelay) initialDelay).
      rewrite IH, next_delay_doubles by lia.
      rewrite Nat2Z.inj_succ, Z.pow_succ_r by lia.
      assert (0 <= initialDelay * 2 ^ Z.of_nat j) by (apply Z.mul_nonneg_nonneg; lia).
      lia.
Qed.

End BackoffProperties.

Lemma ExponentialBackoff_outcome_witness :
  ExponentialBackoff (flaky_operation 2) (fun _ => true) 100 350 5 0%nat
  = (3%nat, [100; 200], BackoffNil)
  /\ ExponentialBackoff (flaky_operation 9) (fun _ => true) 100 350 3 0%nat
     = (3%nat, [100; 200; 350],
        BackoffExhausted 3 (Some (errors_New "i/o timeout")))
  /\ (length [100; 200] < Z.to_nat 5)%nat.
Proof.
  assert (H1 : ExponentialBackoff (flaky_operation 2) (fun _ => true) 100 350 5 0%nat
               = (3%nat, [100; 200], BackoffNil)) by reflexivity.
  split; [exact H1 |]. split; [reflexivity |].
  exact (proj2 (ExponentialBackoff_outcome _ _ _ _ _ _ _ _ _ H1)).
Defined.

Lemma ExponentialBackoff_delays_witness :
  ExponentialBackoff (flaky_operation 9) (fun _ => true) 100 350 3 0%nat
  = (3%nat, [100; 200; 350], BackoffExhausted 3 (Some (errors_New "i/o timeout")))
  /\ [100; 200; 350] !! 2%nat = Some 350
  /\ 350 = Z.min (100 * 2 ^ Z.of_nat 2) 350.
Proof.
  assert (H1 : ExponentialBackoff (flaky_operation 9) (fun _ => true) 100 350 3 0%nat
               = (3%nat, [100; 200; 350],
                  BackoffExhausted 3 (Some (errors_New "i/o timeout"))))
    by reflexivity.
  assert (H2 : [100; 200; 350] !! 2%nat = Some 350) by reflexivity.
  split; [exact H1 |]. split; [exact H2 |].
  destruct (ExponentialBackoff_delays _ _ _ _ _ _ _ _ _ _ _ H1 H2) as (_ & _ & _ & Hmin).
  apply Hmin; lia.
Defined.

(** ** Construction of the typed client *)

Section Construction.

Context {C : Type} `{NetConn C}.

(** X30. [NewPLCClient] does not leak the socket: when the dial succeeds
    and [RegisterSession] fails, the last thing done to the connection is
    a [conn.Close()] and the registration error is returned as it is;
    when the dial fails nothing is left open and the error is wrapped as
    "failed to connect"; when both succeed the client returned is the one
    [RegisterSession] produced from handle 0, with the given timeout, or
    10 seconds for a zero timeout. *)
Theorem NewPLCClient_outcome (dial : result C) (timeout_ : Z) (left : option C)
    (r : result (Client C)) :
  NewPLCClient dial timeout_ = (left, r) ->
  let t := if timeout_ =? 0 then 10000000000 else timeout_ in
  match dial with
  | Err err => left = None /\ r = Err (Errorf_w "failed to connect: %w" err)
  | Panic reason => left = None /\ r = Panic reason
  | Ok k =>
      let fresh := {| conn := k; sessionHandle := 0; timeout := t |} in
      match r with
      | Ok client =>
          RegisterSession fresh = (client, Ok tt)
          /\ left = Some (conn client) /\ timeout client = t
      | Err err =>
          snd (RegisterSession fresh) = Err err
          /\ left = Some (fst (conn_Close (conn (fst (RegisterSession fresh)))))
      | Panic reason => snd (RegisterSession fresh) = Panic reason
      end
  end.
Proof.
  unfold NewPLCClient, NewClient. cbv zeta.
  destruct dial as [k | err | reason].
  - change (10 * 1000000000) with 10000000000.
    set (t := if timeout_ =? 0 then 10000000000 else timeout_).
    set (fresh := {| conn := k; sessionHandle := 0; timeout := t |}).
    pose proof (on_error_RegisterSession fresh) as Hkeep.
    destruct (RegisterSession fresh) as [c1 [[] | err | reason]] eqn:Er.
    + intros [= <- <-]. split; [reflexivity |]. split; [reflexivity |].
      destruct (RegisterSession_success fresh c1 eq_refl Er)
        as (k0 & k1 & k2 & k3 & resp & _ & _ & _ & _ & _ & _ & _ & ->).
      reflexivity.
    + destruct Hkeep as [[v Hv] | [Hh _]]; [discriminate |].
      cbn [fst sessionHandle fresh] in Hh. cbn [fst snd].
      unfold Close, bind at 1. unfold get_sessionHandle. rewrite Hh.
      cbn [Z.eqb negb]. unfold bind, ret, on_conn.
      destruct (conn_Close (conn c1)) as [k' [e |]];
        intros [= <- <-]; split; reflexivity.
    + intros [= <- <-]. reflexivity.
  - intros [= <- <-]. split; reflexivity.
  - intros [= <- <-]. split; reflexivity.
Qed.

End Construction.

Lemma NewPLCClient_outcome_witness :
  NewPLCClient
    (Ok {| readData := eip_frame 0x65 4 1 7 [1; 0; 0; 0]; writeData := [];
           closed := false; readIndex := 0 |}) 0
  = (Some {| readData := eip_frame 0x65 4 1 7 [1; 0; 0; 0];
             writeData := register_request; closed := true; readIndex := 28 |},
     Err (Errorf_d "registration failed with status: %d" 7))
  /\ snd (RegisterSession
            {| conn := {| readData := eip_frame 0x65 4 1 7 [1; 0; 0; 0];
                          writeData := []; closed := false; readIndex := 0 |};
               sessionHandle := 0; timeout := 10000000000 |})
     = Err (Errorf_d "registration failed with status: %d" 7).
Proof.
  assert (Hr : NewPLCClient
                 (Ok {| readData := eip_frame 0x65 4 1 7 [1; 0; 0; 0];
                        writeData := []; closed := false; readIndex := 0 |}) 0
               = (Some {| readData := eip_frame 0x65 4 1 7 [1; 0; 0; 0];
                          writeData := register_request; closed := true;
                          readIndex := 28 |},
                  Err (Errorf_d "registration failed with status: %d" 7)))
    by reflexivity.
  split; [exact Hr |].
  exact (proj1 (NewPLCClient_outcome _ _ _ _ Hr)).
Defined.
